(** * Inventory allocation and order lifecycle (logic.py)

    A shallow embedding of the stock, cart and order functions of
    [logic.py].  The four SQL tables are lists of rows kept in insertion
    order; a statement sent through [conn.execute] is a function on the
    database; the body of a [with engine.begin() as conn:] block is a
    computation in a small state-and-exception monad, committed when the
    block ends normally and rolled back when it raises.

    Quantities are SQL integers ([Z]).  Prices are whatever numeric type the
    driver hands back (float or decimal): the development is parametric in
    it, through the class [Money].  Text is a sequence of code points below
    256, compared and ordered by code point. *)

From Stdlib Require Import ZArith List String Ascii Bool Lia Sorted Permutation.
Import ListNotations.

Local Open Scope string_scope.
Local Open Scope list_scope.
Local Open Scope Z_scope.

(** ** Prices *)

(** The arithmetic the code performs on prices: the literal [0], [+],
    [int * price], the test [adjustment_percent != 0] and the adjustment
    [round(base * (1 + pct / 100.0), 2)]. *)
Class Money (P : Type) : Type := {
  money_zero : P;
  money_add : P -> P -> P;
  money_scale : Z -> P -> P;
  money_is_zero : P -> bool;
  money_adjust : P -> P -> P
}.

(** ** Results of a block that may raise *)

Inductive Outcome (A : Type) : Type :=
| Returned (a : A)
| Raised (msg : string).

Arguments Returned {A} a.
Arguments Raised {A} msg.

(** The second component of the pairs [(True, order_id)],
    [(False, str(e))], [(True, "Updated")]. *)
Inductive Payload : Type :=
| PInt (z : Z)
| PStr (s : string).

(** Storage errors: [faults n = Some msg] when the [n]-th statement of a
    transaction (counting from 0, the final COMMIT included) raises an
    exception whose text is [msg]. *)
Definition Faults : Type := nat -> option string.

Definition no_faults : Faults := fun _ => None.

(** The [n]-th statement fails, all others go through. *)
Definition fault_at (n : nat) (msg : string) : Faults :=
  fun k => if Nat.eqb k n then Some msg else None.

Section Engine.

Context {Price : Type} {money : Money Price}.

(** ** Tables *)

Record PartsStock : Type := {
  ps_part_number : string;
  ps_description : option string;
  ps_free_stock : Z;
  ps_price : option Price;
  ps_stock_type : string;
  ps_is_active : bool
}.

Record Cart : Type := {
  cart_id : Z;
  cart_user_id : Z;
  cart_part_number : string;
  cart_description : string;
  cart_qty : Z;
  cart_price : Price;
  cart_timestamp : Z
}.

Record Orders : Type := {
  order_id : Z;
  user_id : Z;
  total_price : Price;
  order_status : string;
  stock_type : string
}.

Record OrderItems : Type := {
  oi_id : Z;
  oi_order_id : Z;
  oi_part_number : string;
  oi_description : string;
  oi_qty : Z;
  oi_requested_qty : Z;
  oi_available_qty : Z;
  oi_price : Price
}.

(** The two sequences feed the generated keys [orders.order_id] and
    [order_items.id]. *)
Record DB : Type := {
  parts_stock : list PartsStock;
  cart : list Cart;
  orders : list Orders;
  order_items : list OrderItems;
  orders_seq : Z;
  order_items_seq : Z
}.

(** Modelled from the spec: the table declarations are not part of the
    sources; a new order starts in the status the spec names first,
    [Pending] (the column default of [orders.order_status]). *)
Definition default_order_status : string := "Pending".

(** ** Connections and transactions *)

Record Conn : Type := {
  conn_db : DB;
  conn_stmts : nat
}.

Definition Tx (A : Type) : Type := Conn -> Outcome A * Conn.

Definition ret {A : Type} (a : A) : Tx A := fun c => (Returned a, c).

Definition bind {A B : Type} (m : Tx A) (k : A -> Tx B) : Tx B :=
  fun c =>
    match m c with
    | (Returned a, c') => k a c'
    | (Raised msg, c') => (Raised msg, c')
    end.

Notation "x <- m ;; k" := (bind m (fun x => k))
  (at level 61, m at next level, right associativity).
Notation "m ;; k" := (bind m (fun _ => k))
  (at level 61, right associativity).

Variable faults : Faults.

(** [conn.execute(stmt)]: the statement either raises, leaving the
    transaction as it stands, or runs on the current database. *)
Definition execute {A : Type} (stmt : DB -> A * DB) : Tx A :=
  fun c =>
    match faults (conn_stmts c) with
    | Some msg => (Raised msg, c)
    | None =>
        let (a, db') := stmt (conn_db c) in
        (Returned a, {| conn_db := db'; conn_stmts := S (conn_stmts c) |})
    end.

(** What a rollback leaves behind: every table as it was before the block;
    keys drawn from the sequences are not given back. *)
Definition rollback (before now : DB) : DB :=
  {| parts_stock := parts_stock before;
     cart := cart before;
     orders := orders before;
     order_items := order_items before;
     orders_seq := orders_seq now;
     order_items_seq := order_items_seq now |}.

(** [with engine.begin() as conn: body]: commit when the body ends
    normally, roll back when it (or the commit) raises. *)
Definition engine_begin {A : Type} (body : Tx A) (db : DB) : Outcome A * DB :=
  match body {| conn_db := db; conn_stmts := 0 |} with
  | (Returned a, c) =>
      match faults (conn_stmts c) with
      | Some msg => (Raised msg, rollback db (conn_db c))
      | None => (Returned a, conn_db c)
      end
  | (Raised msg, c) => (Raised msg, rollback db (conn_db c))
  end.

(** [for x in xs:] with an accumulator threaded through the iterations. *)
Fixpoint for_each {A S : Type} (body : S -> A -> Tx S) (xs : list A) (s : S)
  : Tx S :=
  match xs with
  | [] => ret s
  | x :: xs' => s' <- body s x ;; for_each body xs' s'
  end.

(** ** Statements on [parts_stock] *)

(** [WHERE part_number = :pn AND stock_type = :stype] *)
Definition in_pool (pn stype : string) (r : PartsStock) : bool :=
  (ps_part_number r =? pn)%string && (ps_stock_type r =? stype)%string.

(** [WHERE part_number = :part_number AND stock_type = :st AND is_active = TRUE] *)
Definition active_in_pool (pn stype : string) (r : PartsStock) : bool :=
  in_pool pn stype r && ps_is_active r.

Definition set_free_stock (q : Z) (r : PartsStock) : PartsStock :=
  {| ps_part_number := ps_part_number r;
     ps_description := ps_description r;
     ps_free_stock := q;
     ps_price := ps_price r;
     ps_stock_type := ps_stock_type r;
     ps_is_active := ps_is_active r |}.

Definition set_parts_stock (l : list PartsStock) (db : DB) : DB :=
  {| parts_stock := l;
     cart := cart db;
     orders := orders db;
     order_items := order_items db;
     orders_seq := orders_seq db;
     order_items_seq := order_items_seq db |}.

(** [UPDATE parts_stock SET free_stock = free_stock + :d WHERE part_number
    = :pn AND stock_type = :stype], on the table. *)
Definition add_free_stock (pn stype : string) (d : Z)
  (l : list PartsStock) : list PartsStock :=
  map (fun r => if in_pool pn stype r
                then set_free_stock (ps_free_stock r + d) r else r) l.

(** [SELECT free_stock FROM parts_stock WHERE part_number = :pn AND
    stock_type = :stype], then [fetchone()]. *)
Definition select_free_stock (pn stype : string) (db : DB)
  : option Z * DB :=
  (hd_error (map ps_free_stock (filter (in_pool pn stype) (parts_stock db))),
   db).

(** [UPDATE parts_stock SET free_stock = free_stock - :qty WHERE ...] *)
Definition update_deduct (qty : Z) (pn stype : string) (db : DB)
  : unit * DB :=
  (tt, set_parts_stock (add_free_stock pn stype (- qty) (parts_stock db)) db).

(** [UPDATE parts_stock SET free_stock = free_stock + :qty WHERE ...] *)
Definition update_restore (qty : Z) (pn stype : string) (db : DB)
  : unit * DB :=
  (tt, set_parts_stock (add_free_stock pn stype qty (parts_stock db)) db).

(** [SELECT part_number, description, free_stock, price FROM parts_stock
    WHERE part_number = :part_number AND stock_type = :st AND is_active =
    TRUE], then [fetchone()]. *)
Definition select_active_part (pn stype : string) (db : DB)
  : option PartsStock * DB :=
  (hd_error (filter (active_in_pool pn stype) (parts_stock db)), db).

(** [get_part_by_number] has no handler of its own: a storage error
    reaches the caller. *)
Definition get_part_by_number (pn stype : string) (db : DB)
  : Outcome (option PartsStock) :=
  fst (engine_begin (execute (select_active_part pn stype)) db).

(** ** Statements on [cart], [orders] and [order_items] *)

Definition set_cart (l : list Cart) (db : DB) : DB :=
  {| parts_stock := parts_stock db;
     cart := l;
     orders := orders db;
     order_items := order_items db;
     orders_seq := orders_seq db;
     order_items_seq := order_items_seq db |}.

Definition set_orders (l : list Orders) (db : DB) : DB :=
  {| parts_stock := parts_stock db;
     cart := cart db;
     orders := l;
     order_items := order_items db;
     orders_seq := orders_seq db;
     order_items_seq := order_items_seq db |}.

Definition set_order_items (l : list OrderItems) (db : DB) : DB :=
  {| parts_stock := parts_stock db;
     cart := cart db;
     orders := orders db;
     order_items := l;
     orders_seq := orders_seq db;
     order_items_seq := order_items_seq db |}.

(** [DELETE FROM cart WHERE user_id = :uid] *)
Definition delete_cart_of_user (uid : Z) (db : DB) : unit * DB :=
  (tt, set_cart (filter (fun c => negb (cart_user_id c =? uid)) (cart db)) db).

(** [DELETE FROM cart WHERE id = :id] *)
Definition delete_cart_row (id : Z) (db : DB) : unit * DB :=
  (tt, set_cart (filter (fun c => negb (cart_id c =? id)) (cart db)) db).

(** [INSERT INTO orders (user_id, total_price, stock_type) VALUES (:uid, 0,
    :stype) RETURNING order_id], then [fetchone()[0]]. *)
Definition insert_order (uid : Z) (stype : string) (db : DB) : Z * DB :=
  let oid := orders_seq db in
  (oid,
   {| parts_stock := parts_stock db;
      cart := cart db;
      orders := orders db ++
                [{| order_id := oid;
                    user_id := uid;
                    total_price := money_zero;
                    order_status := default_order_status;
                    stock_type := stype |}];
      order_items := order_items db;
      orders_seq := oid + 1;
      order_items_seq := order_items_seq db |}).

(** [INSERT INTO order_items (order_id, part_number, description, qty,
    requested_qty, available_qty, price) VALUES (...)] *)
Definition insert_order_item (oid : Z) (pn desc : string)
  (qty req avail : Z) (price : Price) (db : DB) : unit * DB :=
  (tt,
   {| parts_stock := parts_stock db;
      cart := cart db;
      orders := orders db;
      order_items := order_items db ++
                     [{| oi_id := order_items_seq db;
                         oi_order_id := oid;
                         oi_part_number := pn;
                         oi_description := desc;
                         oi_qty := qty;
                         oi_requested_qty := req;
                         oi_available_qty := avail;
                         oi_price := price |}];
      orders_seq := orders_seq db;
      order_items_seq := order_items_seq db + 1 |}).

Definition set_total_price (tot : Price) (o : Orders) : Orders :=
  {| order_id := order_id o;
     user_id := user_id o;
     total_price := tot;
     order_status := order_status o;
     stock_type := stock_type o |}.

Definition set_order_status (status : string) (o : Orders) : Orders :=
  {| order_id := order_id o;
     user_id := user_id o;
     total_price := total_price o;
     order_status := status;
     stock_type := stock_type o |}.

(** [UPDATE orders SET total_price = :tot WHERE order_id = :oid] *)
Definition update_total (tot : Price) (oid : Z) (db : DB) : unit * DB :=
  (tt, set_orders (map (fun o => if (order_id o =? oid)
                                 then set_total_price tot o else o)
                       (orders db)) db).

(** [UPDATE orders SET order_status = :status WHERE order_id = :oid] *)
Definition update_status (status : string) (oid : Z) (db : DB) : unit * DB :=
  (tt, set_orders (map (fun o => if (order_id o =? oid)
                                 then set_order_status status o else o)
                       (orders db)) db).

(** [SELECT part_number, qty FROM order_items WHERE order_id = :oid], then
    [fetchall()]. *)
Definition select_items (oid : Z) (db : DB) : list (string * Z) * DB :=
  (map (fun i => (oi_part_number i, oi_qty i))
       (filter (fun i => (oi_order_id i =? oid)) (order_items db)),
   db).

(** [SELECT stock_type FROM orders WHERE order_id = :oid], then
    [fetchone()]. *)
Definition select_stock_type (oid : Z) (db : DB) : option string * DB :=
  (hd_error (map stock_type
                 (filter (fun o => (order_id o =? oid)) (orders db))),
   db).

(** [SELECT order_status FROM orders WHERE order_id = :oid], then
    [fetchone()]. *)
Definition select_order_status (oid : Z) (db : DB) : option string * DB :=
  (hd_error (map order_status
                 (filter (fun o => (order_id o =? oid)) (orders db))),
   db).

(** [DELETE FROM order_items WHERE order_id = :oid] *)
Definition delete_items_of_order (oid : Z) (db : DB) : unit * DB :=
  (tt, set_order_items
         (filter (fun i => negb (oi_order_id i =? oid)) (order_items db)) db).

(** [DELETE FROM orders WHERE order_id = :oid] *)
Definition delete_order_row (oid : Z) (db : DB) : unit * DB :=
  (tt, set_orders
         (filter (fun o => negb (order_id o =? oid)) (orders db)) db).

(** ** Order processing *)

(** [row.free_stock if row else 0] *)
Definition stock_or_zero (row : option Z) : Z :=
  match row with Some q => q | None => 0 end.

(** One entry of the [items] list handed to [create_order]. *)
Record Item : Type := {
  item_part_number : string;
  item_description : string;
  item_qty : Z;
  item_price : Price
}.

(** The body of the [for item in items:] loop of [create_order]; the
    accumulator is [total_alloc_price]. *)
Definition create_order_line (oid : Z) (stype : string)
  (total_alloc_price : Price) (item : Item) : Tx Price :=
  row <- execute (select_free_stock (item_part_number item) stype) ;;
  let current_stock := stock_or_zero row in
  let requested_qty := item_qty item in
  let allocated_qty := Z.min requested_qty current_stock in
  (if 0 <? allocated_qty
   then execute (update_deduct allocated_qty (item_part_number item) stype)
   else ret tt) ;;
  execute (insert_order_item oid (item_part_number item)
             (item_description item) allocated_qty requested_qty
             current_stock (item_price item)) ;;
  ret (money_add total_alloc_price
         (money_scale allocated_qty (item_price item))).

(** The block under [with engine.begin() as conn:] in [create_order]. *)
Definition create_order_body (uid : Z) (items : list Item) (stype : string)
  : Tx Z :=
  oid <- execute (insert_order uid stype) ;;
  total_alloc_price <- for_each (create_order_line oid stype) items money_zero ;;
  execute (update_total total_alloc_price oid) ;;
  execute (delete_cart_of_user uid) ;;
  ret oid.

Definition create_order (uid : Z) (items : list Item) (stype : string)
  (db : DB) : (bool * Payload) * DB :=
  match engine_begin (create_order_body uid items stype) db with
  | (Returned oid, db') => ((true, PInt oid), db')
  | (Raised e, db') => ((false, PStr e), db')
  end.

(** ** Order lifecycle *)

(** [restore_stock_from_order(conn, order_id)], run inside the caller's
    transaction. *)
Definition restore_stock_from_order (oid : Z) : Tx unit :=
  items <- execute (select_items oid) ;;
  header <- execute (select_stock_type oid) ;;
  match header with
  | None => ret tt
  | Some stype =>
      for_each (fun (_ : unit) (item : string * Z) =>
                  if 0 <? snd item
                  then execute (update_restore (snd item) (fst item) stype)
                  else ret tt)
               items tt
  end.

Definition update_order_status_body (oid : Z) (status : string) : Tx unit :=
  curr <- execute (select_order_status oid) ;;
  (match curr with
   | Some st =>
       if negb (st =? "Rejected")%string && (status =? "Rejected")%string
       then restore_stock_from_order oid
       else ret tt
   | None => ret tt
   end) ;;
  execute (update_status status oid).

Definition update_order_status (oid : Z) (status : string) (db : DB)
  : (bool * Payload) * DB :=
  match engine_begin (update_order_status_body oid status) db with
  | (Returned _, db') => ((true, PStr "Updated"), db')
  | (Raised e, db') => ((false, PStr e), db')
  end.

Definition delete_order_body (oid : Z) : Tx unit :=
  restore_stock_from_order oid ;;
  execute (delete_items_of_order oid) ;;
  execute (delete_order_row oid).

Definition delete_order (oid : Z) (db : DB) : (bool * Payload) * DB :=
  match engine_begin (delete_order_body oid) db with
  | (Returned _, db') => ((true, PStr "Deleted"), db')
  | (Raised e, db') => ((false, PStr e), db')
  end.

(** ** The cart view *)

(** A row of the dictionary list returned by [get_user_cart]. *)
Record CartView : Type := {
  cv_id : Z;
  cv_part_number : string;
  cv_description : string;
  cv_qty : Z;
  cv_price : Price;
  cv_available_qty : option Z;
  cv_allocated_qty : Z;
  cv_status : string;
  cv_no_record : bool
}.

(** [ORDER BY c.timestamp DESC], by insertion. *)
Fixpoint insert_by_timestamp (x : Cart * option Z)
  (l : list (Cart * option Z)) : list (Cart * option Z) :=
  match l with
  | [] => [x]
  | y :: l' =>
      if cart_timestamp (fst y) <? cart_timestamp (fst x)
      then x :: l
      else y :: insert_by_timestamp x l'
  end.

Definition order_by_timestamp_desc (l : list (Cart * option Z))
  : list (Cart * option Z) :=
  fold_right insert_by_timestamp [] l.

(** [cart c LEFT JOIN parts_stock p ON c.part_number = p.part_number AND
    p.stock_type = 'parts_stock' AND p.is_active = TRUE], for one cart row:
    one joined row per matching record, one row of NULLs when there is
    none. *)
Definition left_join_stock (stock : list PartsStock) (c : Cart)
  : list (Cart * option Z) :=
  match filter (active_in_pool (cart_part_number c) "parts_stock") stock with
  | [] => [(c, None)]
  | ms => map (fun p => (c, Some (ps_free_stock p))) ms
  end.

Definition select_cart_view (uid : Z) (db : DB)
  : list (Cart * option Z) * DB :=
  (order_by_timestamp_desc
     (flat_map (left_join_stock (parts_stock db))
        (filter (fun c => cart_user_id c =? uid) (cart db))),
   db).

(** The [if]/[elif]/[else] of [get_user_cart], on [req = d['qty']] and
    [d['available_qty']]; [avail] is [d['available_qty'] or 0]. *)
Definition cart_allocation (req : Z) (available_qty : option Z)
  : Z * string :=
  let avail := match available_qty with Some q => q | None => 0 end in
  if req <=? avail then (req, "Fully Allocated")
  else if 0 <? avail then (avail, "Partial Fulfillment")
  else (0, "Out of Stock").

Definition cart_view_row (row : Cart * option Z) : CartView :=
  let (c, available_qty) := row in
  let (allocated_qty, status) := cart_allocation (cart_qty c) available_qty in
  {| cv_id := cart_id c;
     cv_part_number := cart_part_number c;
     cv_description := cart_description c;
     cv_qty := cart_qty c;
     cv_price := cart_price c;
     cv_available_qty := available_qty;
     cv_allocated_qty := allocated_qty;
     cv_status := status;
     cv_no_record := false |}.

Definition get_user_cart (uid : Z) (db : DB) : Outcome (list CartView) :=
  match engine_begin (execute (select_cart_view uid)) db with
  | (Returned rows, _) => Returned (map cart_view_row rows)
  | (Raised e, _) => Raised e
  end.

(** ** Bulk enquiry *)

(** A string is a sequence of code points below 256, one [ascii] each.
    [is_space] is [str.isspace] on them, the test [str.strip()] and pandas'
    [.str.strip()] apply to a character: the controls 9 to 13 and 28 to 31,
    the space (32), the next-line control U+0085 (133) and the no-break
    space U+00A0 (160). *)
Definition is_space (c : ascii) : bool :=
  let n := nat_of_ascii c in
  ((9 <=? n)%nat && (n <=? 13)%nat) || ((28 <=? n)%nat && (n <=? 32)%nat) ||
  (n =? 133)%nat || (n =? 160)%nat.

Fixpoint remove_hyphens (s : string) : string :=
  match s with
  | EmptyString => EmptyString
  | String c s' =>
      if Ascii.eqb c "-"%char then remove_hyphens s'
      else String c (remove_hyphens s')
  end.

Fixpoint lstrip (s : string) : string :=
  match s with
  | EmptyString => EmptyString
  | String c s' => if is_space c then lstrip s' else s
  end.

Fixpoint rstrip (s : string) : string :=
  match s with
  | EmptyString => EmptyString
  | String c s' =>
      match rstrip s' with
      | EmptyString => if is_space c then EmptyString else String c EmptyString
      | r => String c r
      end
  end.

(** [.str.replace("-", "").str.strip()] *)
Definition clean_part_number (s : string) : string :=
  rstrip (lstrip (remove_hyphens s)).

(** [df.groupby('part_number', as_index=False)['qty'].sum()]: one row per
    key, keys in increasing order, quantities added up. *)
Fixpoint group_add (k : string) (q : Z) (acc : list (string * Z))
  : list (string * Z) :=
  match acc with
  | [] => [(k, q)]
  | (k', q') :: rest =>
      match String.compare k k' with
      | Eq => (k', q' + q) :: rest
      | Lt => (k, q) :: acc
      | Gt => (k', q') :: group_add k q rest
      end
  end.

Definition groupby_sum (rows : list (string * Z)) : list (string * Z) :=
  fold_left (fun acc r => group_add (fst r) (snd r) acc) rows [].

(** [SELECT part_number, description, free_stock, price FROM parts_stock
    WHERE stock_type = :st AND is_active = TRUE] *)
Definition select_active_stock (stype : string) (db : DB)
  : list PartsStock * DB :=
  (filter (fun r => (ps_stock_type r =? stype)%string && ps_is_active r)
          (parts_stock db),
   db).

(** [stock['price'].fillna(0) * (1 + adjustment_percent / 100.0)], rounded
    to two places, when [adjustment_percent != 0]. *)
Definition adjust_stock_price (adjustment_percent : Price) (r : PartsStock)
  : option Price :=
  if money_is_zero adjustment_percent then ps_price r
  else Some (money_adjust adjustment_percent
               (match ps_price r with Some p => p | None => money_zero end)).

(** A row of the frame returned by [process_bulk_enquiry]. *)
Record BulkRow : Type := {
  br_part_number : string;
  br_qty : Z;
  br_description : option string;
  br_price : option Price;
  br_no_record : bool;
  br_available_qty : Z;
  br_allocated_qty : Z;
  br_status : string
}.

(** [calculate_allocation(row)], on the columns it reads. *)
Definition calculate_allocation (description : option string)
  (qty available_qty : Z) : Z * string :=
  match description with
  | None => (0, "Invalid Part")
  | Some _ =>
      let req := qty in
      let avail := available_qty in
      if req <=? avail then (req, "Fully Allocated")
      else if 0 <? avail then (avail, "Partial Fulfillment")
      else (0, "Out of Stock")
  end.

Definition bulk_row (pn : string) (qty : Z) (description : option string)
  (price : option Price) (free_stock : option Z) : BulkRow :=
  let available_qty := match free_stock with Some q => q | None => 0 end in
  let (allocated_qty, status) :=
    calculate_allocation description qty available_qty in
  {| br_part_number := pn;
     br_qty := qty;
     br_description := description;
     br_price := price;
     br_no_record := match description with None => true | Some _ => false end;
     br_available_qty := available_qty;
     br_allocated_qty := allocated_qty;
     br_status := status |}.

(** [df.merge(stock, on="part_number", how="left")] for one row of [df],
    followed by the derived columns. *)
Definition merge_left (adjustment_percent : Price) (stock : list PartsStock)
  (line : string * Z) : list BulkRow :=
  match filter (fun r => (ps_part_number r =? fst line)%string) stock with
  | [] => [bulk_row (fst line) (snd line) None None None]
  | ms =>
      map (fun r => bulk_row (fst line) (snd line) (ps_description r)
                      (adjust_stock_price adjustment_percent r)
                      (Some (ps_free_stock r)))
          ms
  end.

(** [merged[['allocated_qty', 'status']] = allocation_results]: on a frame
    without rows [apply] hands the frame back with all its columns, and the
    assignment of these to the two new columns raises [ValueError]. *)
Definition assign_allocation (merged : list BulkRow)
  : Outcome (list BulkRow) :=
  match merged with
  | [] => Raised "Columns must be same length as key"
  | _ => Returned merged
  end.

(** [process_bulk_enquiry], from the frame reduced to its [part_number]
    and [qty] columns. *)
Definition process_bulk_enquiry (df_bulk : list (string * Z))
  (stype : string) (adjustment_percent : Price) (db : DB)
  : Outcome (list BulkRow) :=
  let df := map (fun r => (clean_part_number (fst r), snd r)) df_bulk in
  let df := groupby_sum df in
  match engine_begin (execute (select_active_stock stype)) db with
  | (Returned stock, _) =>
      assign_allocation (flat_map (merge_left adjustment_percent stock) df)
  | (Raised e, _) => Raised e
  end.

(** ** Catalog upload and reset *)

(** [.str.strip()] *)
Definition strip (s : string) : string := rstrip (lstrip s).

(** A row of the frame [upload_parts_stock] works on once the columns are
    renamed and the prices made numeric: [part_number], [description],
    [free_stock], [price]. *)
Record UploadRow : Type := {
  up_part_number : string;
  up_description : option string;
  up_free_stock : Z;
  up_price : Price
}.

(** The row [to_sql] writes for [u]: the part number stripped, and the
    two columns [upload_parts_stock] adds, [stock_type] and [is_active]. *)
Definition uploaded_record (stype : string) (u : UploadRow) : PartsStock :=
  {| ps_part_number := strip (up_part_number u);
     ps_description := up_description u;
     ps_free_stock := up_free_stock u;
     ps_price := Some (up_price u);
     ps_stock_type := stype;
     ps_is_active := true |}.

Definition set_is_active (b : bool) (r : PartsStock) : PartsStock :=
  {| ps_part_number := ps_part_number r;
     ps_description := ps_description r;
     ps_free_stock := ps_free_stock r;
     ps_price := ps_price r;
     ps_stock_type := ps_stock_type r;
     ps_is_active := b |}.

(** [UPDATE parts_stock SET is_active = FALSE WHERE stock_type = :st AND
    is_active = TRUE] *)
Definition update_deactivate (stype : string) (db : DB) : unit * DB :=
  (tt, set_parts_stock
         (map (fun r => if (ps_stock_type r =? stype)%string && ps_is_active r
                        then set_is_active false r else r)
              (parts_stock db)) db).

(** [df_final.to_sql("parts_stock", con=conn, if_exists="append",
    index=False)] *)
Definition insert_parts (rows : list PartsStock) (db : DB) : unit * DB :=
  (tt, set_parts_stock (parts_stock db ++ rows) db).

(** [upload_parts_stock], from the sanitized frame; it has no handler of
    its own. *)
Definition upload_parts_stock (df : list UploadRow) (stype : string) (db : DB)
  : Outcome unit * DB :=
  engine_begin
    (execute (update_deactivate stype) ;;
     execute (insert_parts (map (uploaded_record stype) df)))
    db.

(** [DELETE FROM parts_stock WHERE stock_type = :st] *)
Definition delete_pool (stype : string) (db : DB) : unit * DB :=
  (tt, set_parts_stock
         (filter (fun r => negb (ps_stock_type r =? stype)%string)
                 (parts_stock db)) db).

Definition reset_stock (stype : string) (db : DB) : Outcome unit * DB :=
  engine_begin (execute (delete_pool stype)) db.

(** ** Cart management *)

(** [SELECT id, qty FROM cart WHERE user_id = :uid AND part_number = :pn],
    then [fetchone()]. *)
Definition select_cart_entry (uid : Z) (pn : string) (db : DB)
  : option (Z * Z) * DB :=
  (hd_error (map (fun e => (cart_id e, cart_qty e))
                 (filter (fun e => (cart_user_id e =? uid) &&
                                   (cart_part_number e =? pn)%string)
                         (cart db))),
   db).

Definition set_cart_qty (q : Z) (e : Cart) : Cart :=
  {| cart_id := cart_id e;
     cart_user_id := cart_user_id e;
     cart_part_number := cart_part_number e;
     cart_description := cart_description e;
     cart_qty := q;
     cart_price := cart_price e;
     cart_timestamp := cart_timestamp e |}.

(** [UPDATE cart SET qty = :qty WHERE id = :id] *)
Definition update_cart_qty (qty id : Z) (db : DB) : unit * DB :=
  (tt, set_cart (map (fun e => if cart_id e =? id then set_cart_qty qty e else e)
                     (cart db)) db).

(** [INSERT INTO cart (user_id, part_number, description, qty, price)
    VALUES (...)]; the key [new_id] and the timestamp [now] of the new row
    are those the database generates. *)
Definition insert_cart (new_id now uid : Z) (pn desc : string) (qty : Z)
  (price : Price) (db : DB) : unit * DB :=
  (tt, set_cart (cart db ++ [{| cart_id := new_id;
                                cart_user_id := uid;
                                cart_part_number := pn;
                                cart_description := desc;
                                cart_qty := qty;
                                cart_price := price;
                                cart_timestamp := now |}]) db).

(** [add_to_cart_db]; [new_id] and [now] stand for the key and the
    timestamp the database gives a new row. *)
Definition add_to_cart_db (new_id now : Z) (uid : Z)
  (part_number description : string) (qty : Z) (price : Price) (db : DB)
  : Outcome unit * DB :=
  let part_number := strip part_number in
  engine_begin
    (curr <- execute (select_cart_entry uid part_number) ;;
     match curr with
     | Some (id, curr_qty) => execute (update_cart_qty (curr_qty + qty) id)
     | None =>
         execute (insert_cart new_id now uid part_number description qty price)
     end)
    db.

Definition remove_from_cart_db (id : Z) (db : DB) : Outcome unit * DB :=
  engine_begin (execute (delete_cart_row id)) db.

Definition update_cart_item_db (id new_qty : Z) (db : DB) : Outcome unit * DB :=
  engine_begin (execute (update_cart_qty new_qty id)) db.

Definition clear_cart_db (uid : Z) (db : DB) : Outcome unit * DB :=
  engine_begin (execute (delete_cart_of_user uid)) db.

(** ** History wipes *)

(** [DELETE FROM order_items] *)
Definition delete_all_items (db : DB) : unit * DB :=
  (tt, set_order_items [] db).

(** [DELETE FROM orders] *)
Definition delete_all_order_rows (db : DB) : unit * DB :=
  (tt, set_orders [] db).

Definition delete_all_users_history (db : DB) : (bool * Payload) * DB :=
  match engine_begin (execute delete_all_items ;; execute delete_all_order_rows)
          db with
  | (Returned _, db') => ((true, PStr "All history deleted"), db')
  | (Raised e, db') => ((false, PStr e), db')
  end.

(** [DELETE FROM order_items WHERE order_id IN (SELECT order_id FROM orders
    WHERE stock_type = :st)] *)
Definition delete_items_of_pool (stype : string) (db : DB) : unit * DB :=
  (tt, set_order_items
         (filter (fun i =>
                    negb (existsb (fun oid => oi_order_id i =? oid)
                            (map order_id
                               (filter (fun o => (stock_type o =? stype)%string)
                                       (orders db)))))
                 (order_items db)) db).

(** [DELETE FROM orders WHERE stock_type = :st] *)
Definition delete_orders_of_pool (stype : string) (db : DB) : unit * DB :=
  (tt, set_orders
         (filter (fun o => negb (stock_type o =? stype)%string) (orders db)) db).

Definition delete_all_orders (stype : string) (db : DB)
  : (bool * Payload) * DB :=
  match engine_begin (execute (delete_items_of_pool stype) ;;
                      execute (delete_orders_of_pool stype)) db with
  | (Returned _, db') => ((true, PStr "All orders deleted"), db')
  | (Raised e, db') => ((false, PStr e), db')
  end.

(** The entry [show_cart_ui] of main.py hands to [create_order] for a
    selected row of the cart view the user did not edit: the row's part
    number, description and price, and its requested quantity as [qty]. *)
Definition cart_item (v : CartView) : Item :=
  {| item_part_number := cv_part_number v;
     item_description := cv_description v;
     item_qty := cv_qty v;
     item_price := cv_price v |}.

(** ** Notions the further properties are stated with *)

Fixpoint has_hyphen (s : string) : bool :=
  match s with
  | EmptyString => false
  | String ch s' => Ascii.eqb ch "-"%char || has_hyphen s'
  end.

(** The quantity user [uid] holds of part [pn] in the cart, over all the
    entries on that part. *)
Definition cart_total (uid : Z) (pn : string) (l : list Cart) : Z :=
  fold_right (fun e acc => if (cart_user_id e =? uid) &&
                              (cart_part_number e =? pn)%string
                           then cart_qty e + acc else acc)
             0 l.

(** The entries of user [uid] on part [pn]. *)
Definition cart_entries (uid : Z) (pn : string) (l : list Cart) : list Cart :=
  filter (fun e => (cart_user_id e =? uid) && (cart_part_number e =? pn)%string) l.

(** At most one record, active or not, per part number in pool [stype]. *)
Definition one_record_per_part (stype : string) (stock : list PartsStock)
  : Prop :=
  NoDup (map ps_part_number
             (filter (fun r => (ps_stock_type r =? stype)%string) stock)).

(** No record holds a negative free stock. *)
Definition stock_nonneg (stock : list PartsStock) : Prop :=
  Forall (fun r => 0 <= ps_free_stock r) stock.

(** Every order key in use lies below the next value of the sequence. *)
Definition keys_below_seq (db : DB) : bool :=
  forallb (fun o => order_id o <? orders_seq db) (orders db) &&
  forallb (fun i => oi_order_id i <? orders_seq db) (order_items db).

(** A block that never lowers the [orders] sequence, however it ends. *)
Definition keeps_seq {A : Type} (m : Tx A) : Prop :=
  forall c o c', m c = (o, c') ->
                 orders_seq (conn_db c) <= orders_seq (conn_db c').

(** A block that raises only what one of its statements raised. *)
Definition raises_faults {A : Type} (m : Tx A) : Prop :=
  forall c msg c', m c = (Raised msg, c') -> exists n, faults n = Some msg.

(** ** What the loops do when no statement raises *)

(** The stock a line of [create_order] reads for part [pn] in pool
    [stype]. *)
Definition current_stock_of (pn stype : string) (stock : list PartsStock)
  : Z :=
  stock_or_zero (hd_error (map ps_free_stock (filter (in_pool pn stype) stock))).

(** The [order_items] rows written for [items], and the stock left, when
    the lines are allocated one after the other from [stock]; [seq] is the
    next key of [order_items]. *)
Fixpoint alloc_lines (oid : Z) (stype : string) (stock : list PartsStock)
  (seq : Z) (items : list Item) : list OrderItems * list PartsStock :=
  match items with
  | [] => ([], stock)
  | item :: rest =>
      let current_stock := current_stock_of (item_part_number item) stype stock in
      let allocated_qty := Z.min (item_qty item) current_stock in
      let stock' :=
        if 0 <? allocated_qty
        then add_free_stock (item_part_number item) stype (- allocated_qty) stock
        else stock in
      let (rows, final) := alloc_lines oid stype stock' (seq + 1) rest in
      ({| oi_id := seq;
          oi_order_id := oid;
          oi_part_number := item_part_number item;
          oi_description := item_description item;
          oi_qty := allocated_qty;
          oi_requested_qty := item_qty item;
          oi_available_qty := current_stock;
          oi_price := item_price item |} :: rows,
       final)
  end.

(** Sum of [qty * price] over line items, added up in row order from the
    running total [acc]. *)
Definition lines_total (acc : Price) (rows : list OrderItems) : Price :=
  fold_left (fun t i => money_add t (money_scale (oi_qty i) (oi_price i)))
            rows acc.

(** The line items of an order, as [SELECT ... WHERE order_id = :oid]
    returns them. *)
Definition lines_of (oid : Z) (db : DB) : list OrderItems :=
  filter (fun i => oi_order_id i =? oid) (order_items db).

(** The quantities [restore_stock_from_order] adds back, statement by
    statement: one [(part_number, qty)] per line with [qty > 0]. *)
Definition credits (rows : list (string * Z)) : list (string * Z) :=
  filter (fun it => 0 <? snd it) rows.

(** A sequence of [UPDATE parts_stock SET free_stock = free_stock + d]
    statements on pool [stype]. *)
Definition apply_updates (stype : string) (ops : list (string * Z))
  (stock : list PartsStock) : list PartsStock :=
  fold_left (fun st op => add_free_stock (fst op) stype (snd op) st) ops stock.

(** What the updates [ops] add to the record [r] in total. *)
Definition delta_of (stype : string) (ops : list (string * Z))
  (r : PartsStock) : Z :=
  fold_left (fun acc op => if in_pool (fst op) stype r then acc + snd op else acc)
            ops 0.

(** The quantity a restoration of order [oid] credits to the stock record
    [r]: the allocated quantities of the order's lines on the record's part,
    when the record is in the order's pool. *)
Definition restored_qty (oid : Z) (db : DB) (r : PartsStock) : Z :=
  match fst (select_stock_type oid db) with
  | None => 0
  | Some stype => delta_of stype (credits (fst (select_items oid db))) r
  end.

(** The stock table after a restoration of order [oid]. *)
Definition restored_stock (oid : Z) (db : DB) : list PartsStock :=
  map (fun r => set_free_stock (ps_free_stock r + restored_qty oid db r) r)
      (parts_stock db).

(** What the lines [rows] have taken from the stock of part [pn]: their
    allocated quantities, where something was allocated. *)
Definition claimed_before (pn : string) (rows : list OrderItems) : Z :=
  fold_right (fun r acc => if (oi_part_number r =? pn)%string
                           then Z.max 0 (oi_qty r) + acc else acc)
             0 rows.

(** The quantity a bulk submission asks of part [pn] in all: the sum of
    the quantities of its rows whose cleaned part number is [pn]. *)
Definition requested_total (pn : string) (df_bulk : list (string * Z)) : Z :=
  fold_right (fun r acc => if (clean_part_number (fst r) =? pn)%string
                           then snd r + acc else acc)
             0 df_bulk.

(** The quantity a grouped frame holds for key [k]. *)
Definition grouped_qty (k : string) (df : list (string * Z)) : Z :=
  fold_right (fun r acc => if (fst r =? k)%string then snd r + acc else acc)
             0 df.

(** Keys in strictly increasing order. *)
Definition keys_increasing (df : list (string * Z)) : Prop :=
  StronglySorted (fun a b => String.compare (fst a) (fst b) = Lt) df.

(** No row of [orders] or [order_items] carries the key the [orders]
    sequence hands out next. *)
Definition orders_seq_fresh (db : DB) : bool :=
  forallb (fun o => negb (order_id o =? orders_seq db)) (orders db) &&
  forallb (fun i => negb (oi_order_id i =? orders_seq db)) (order_items db).

(** At most one active record per part number in pool [stype]. *)
Definition one_active_record (stype : string) (db : DB) : Prop :=
  NoDup (map ps_part_number (fst (select_active_stock stype db))).

End Engine.

Arguments PartsStock : clear implicits.
Arguments Cart : clear implicits.
Arguments Orders : clear implicits.
Arguments OrderItems : clear implicits.
Arguments DB : clear implicits.
Arguments Conn : clear implicits.
Arguments Tx : clear implicits.
Arguments Item : clear implicits.
Arguments CartView : clear implicits.
Arguments BulkRow : clear implicits.
Arguments UploadRow : clear implicits.

(** ** Sample data: prices in whole cents *)

#[export] Instance Money_cents : Money Z := {|
  money_zero := 0;
  money_add := Z.add;
  money_scale := Z.mul;
  money_is_zero := Z.eqb 0;
  money_adjust := fun pct base => base * (100 + pct) / 100
|}.

Definition sample_part (pn : string) (qty price : Z) (active : bool)
  : PartsStock Z :=
  {| ps_part_number := pn;
     ps_description := Some "catalog part";
     ps_free_stock := qty;
     ps_price := Some price;
     ps_stock_type := "parts_stock";
     ps_is_active := active |}.

Definition sample_cart (id uid : Z) (pn : string) (qty price : Z) : Cart Z :=
  {| cart_id := id;
     cart_user_id := uid;
     cart_part_number := pn;
     cart_description := "catalog part";
     cart_qty := qty;
     cart_price := price;
     cart_timestamp := id |}.

Definition sample_item (pn : string) (qty price : Z) : Item Z :=
  {| item_part_number := pn;
     item_description := "catalog part";
     item_qty := qty;
     item_price := price |}.

(** The pool of the spec's scenario, [A: 10 units at $5], with a second
    part and the carts of two users. *)
Definition sample_db : DB Z :=
  {| parts_stock := [sample_part "A" 10 500 true; sample_part "B" 4 250 true];
     cart := [sample_cart 1 1 "A" 15 500; sample_cart 2 1 "B" 2 250;
              sample_cart 3 2 "A" 1 500];
     orders := [];
     order_items := [];
     orders_seq := 1;
     order_items_seq := 1 |}.

(** The order of the spec's scenario: 15 units of [A]. *)
Definition order_A15 : list (Item Z) := [sample_item "A" 15 500].

(** Three lines, the first and the last on the same part. *)
Definition three_lines : list (Item Z) :=
  [sample_item "A" 6 500; sample_item "B" 2 250; sample_item "A" 6 500].

(** The scenario, step by step: the order placed, then rejected, then
    deleted. *)
Definition db_ordered : DB Z :=
  snd (create_order no_faults 1 order_A15 "parts_stock" sample_db).

Definition db_rejected : DB Z :=
  snd (update_order_status no_faults 1 "Rejected" db_ordered).


(** A pool whose only record of part [A] was deactivated by a later
    catalog upload that no longer lists the part. *)
Definition inactive_db : DB Z :=
  {| parts_stock := [sample_part "A" 7 500 false];
     cart := [];
     orders := [];
     order_items := [];
     orders_seq := 1;
     order_items_seq := 1 |}.




(** The spec's bulk submission: two rows on one part, 3 and 5 units,
    against 6 in stock. *)
Definition bulk_db : DB Z :=
  {| parts_stock := [sample_part "P1" 6 500 true; sample_part "Q2" 9 100 true];
     cart := [];
     orders := [];
     order_items := [];
     orders_seq := 1;
     order_items_seq := 1 |}.

Definition bulk_submission : list (string * Z) := [("P-1", 3); (" P1", 5)].

(** The same pool once a catalog file that lists part [P1] twice has been
    uploaded: two active records of the part, with 6 and 4 units. *)
Definition two_records_db : DB Z :=
  {| parts_stock := [sample_part "P1" 6 500 true; sample_part "P1" 4 500 true;
                     sample_part "Q2" 9 100 true];
     cart := [];
     orders := [];
     order_items := [];
     orders_seq := 1;
     order_items_seq := 1 |}.

Definition two_records_rows : list (BulkRow Z) :=
  match process_bulk_enquiry no_faults bulk_submission "parts_stock" 0
          two_records_db with
  | Returned rows => rows
  | Raised _ => []
  end.

Definition bulk_rows : list (BulkRow Z) :=
  match process_bulk_enquiry no_faults bulk_submission "parts_stock" 0 bulk_db with
  | Returned rows => rows
  | Raised _ => []
  end.

(** The no-break space U+00A0, which [str.strip()] removes as it does a
    space. *)
Definition nbsp : string := String (ascii_of_nat 160) EmptyString.

(** A second catalog for the pool: part [A] with a no-break space before
    its number and a space after it, and a part [C] without description. *)
Definition catalog_v2 : list (UploadRow Z) :=
  [{| up_part_number := String.append nbsp "A ";
      up_description := Some "bolt";
      up_free_stock := 12;
      up_price := 550 |};
   {| up_part_number := "C";
      up_description := None;
      up_free_stock := 3;
      up_price := 100 |}].

Definition db_uploaded : DB Z :=
  snd (upload_parts_stock no_faults catalog_v2 "parts_stock" sample_db).

(** The sample database with a second pool beside it. *)
Definition sample_db_two_pools : DB Z :=
  {| parts_stock := parts_stock sample_db ++
                    [{| ps_part_number := "A";
                        ps_description := Some "catalog part";
                        ps_free_stock := 99;
                        ps_price := Some 700;
                        ps_stock_type := "HBD_stock";
                        ps_is_active := true |}];
     cart := cart sample_db;
     orders := orders sample_db;
     order_items := order_items sample_db;
     orders_seq := orders_seq sample_db;
     order_items_seq := order_items_seq sample_db |}.

(** A catalog file that lists part [P1] twice, the second time followed
    by a no-break space, uploaded over the catalog of the bulk scenario. *)
Definition catalog_dup : list (UploadRow Z) :=
  [{| up_part_number := "P1";
      up_description := Some "catalog part";
      up_free_stock := 6;
      up_price := 500 |};
   {| up_part_number := String.append "P1" nbsp;
      up_description := Some "catalog part";
      up_free_stock := 4;
      up_price := 500 |}].

Definition db_dup : DB Z :=
  snd (upload_parts_stock no_faults catalog_dup "parts_stock" bulk_db).

(** Part number [B] as a form may send it, between two no-break
    spaces. *)
Definition padded_B : string := String.append nbsp (String.append "B" nbsp).

(** The cart of user 1 once 5 more units of [B] are added. *)
Definition db_cart_added : DB Z :=
  snd (add_to_cart_db no_faults 4 4 1 " B " "catalog part" 5 250 sample_db).

(** The rows of the cart view of user 1, and the order made of them. *)
Definition cart_rows : list (CartView Z) :=
  match get_user_cart no_faults 1 sample_db with
  | Returned rows => rows
  | Raised _ => []
  end.

Definition db_cart_ordered : DB Z :=
  snd (create_order no_faults 1 (map cart_item cart_rows) "parts_stock"
         sample_db).

(** A bulk submission on the uploaded catalog, naming the part without
    description. *)
Definition bulk_rows_v2 : list (BulkRow Z) :=
  match process_bulk_enquiry no_faults [("C", 2)] "parts_stock" 0 db_uploaded with
  | Returned rows => rows
  | Raised _ => []
  end.

(** The order of the scenario rejected, accepted, and rejected again. *)
Definition db_reaccepted : DB Z :=
  snd (update_order_status no_faults 1 "Accepted" db_rejected).

Definition db_rejected_again : DB Z :=
  snd (update_order_status no_faults 1 "Rejected" db_reaccepted).

(** Decides [NoDup] on a list of closed keys. *)
Ltac nodup_closed :=
  vm_compute;
  repeat (constructor;
          [ let Hin := fresh "Hin" in
            intro Hin;
            repeat (destruct Hin as [Hin | Hin]; [discriminate Hin |]);
            exact Hin
          | ]);
  constructor.

(** Decides [Forall (fun r => 0 <= f r)] on a closed list. *)
Ltac nonneg_closed :=
  vm_compute;
  repeat (constructor; [let H := fresh "H" in intro H; discriminate H |]);
  constructor.

(** * Properties *)

Section Properties.

Context {Price : Type} {money : Money Price}.

Implicit Types (db : DB Price) (c : Conn Price) (faults : Faults).

(** ** The transaction monad *)

Lemma bind_returned {A B : Type} (m : Tx Price A) (k : A -> Tx Price B)
  c (b : B) c' :
  bind m k c = (Returned b, c') ->
  exists a c1, m c = (Returned a, c1) /\ k a c1 = (Returned b, c').
Proof.
  unfold bind. destruct (m c) as [[a | msg] c1]; intro E.
  - exists a, c1. split; [reflexivity | exact E].
  - discriminate E.
Qed.

Lemma execute_returned faults {A : Type} (stmt : DB Price -> A * DB Price)
  c (a : A) c' :
  execute faults stmt c = (Returned a, c') ->
  a = fst (stmt (conn_db c)) /\
  conn_db c' = snd (stmt (conn_db c)) /\
  conn_stmts c' = S (conn_stmts c).
Proof.
  unfold execute. destruct (faults (conn_stmts c)); [discriminate |].
  destruct (stmt (conn_db c)) as [a0 db0]. intro E.
  injection E as <- <-. auto.
Qed.

Lemma ret_returned {A : Type} (a b : A) c c' :
  ret a c = (Returned b, c') -> b = a /\ c' = c.
Proof. unfold ret. intro E. injection E as <- <-. auto. Qed.

(** Takes a successful run apart, statement by statement. *)
Ltac tx_inv H :=
  match type of H with
  | bind _ _ _ = (Returned _, _) =>
      let a := fresh "a" in
      let c1 := fresh "c" in
      let H1 := fresh "Hm" in
      let H2 := fresh "Hk" in
      apply bind_returned in H; destruct H as (a & c1 & H1 & H2);
      tx_inv H1; tx_inv H2
  | execute _ _ _ = (Returned _, _) =>
      let Ha := fresh "Ha" in
      let Hdb := fresh "Hdb" in
      let Hn := fresh "Hn" in
      apply execute_returned in H; destruct H as (Ha & Hdb & Hn)
  | ret _ _ = (Returned _, _) =>
      let Ha := fresh "Ha" in
      let Hc := fresh "Hc" in
      apply ret_returned in H; destruct H as (Ha & Hc)
  | _ => idtac
  end.

(** *** Where exceptions come from *)

Lemma raises_faults_ret faults {A : Type} (a : A) :
  raises_faults (Price := Price) faults (ret a).
Proof. intros c msg c' E. discriminate E. Qed.

Lemma raises_faults_execute faults {A : Type} (stmt : DB Price -> A * DB Price) :
  raises_faults faults (execute faults stmt).
Proof.
  intros c msg c'. unfold execute.
  destruct (faults (conn_stmts c)) as [e |] eqn:Hf.
  - intro E. injection E as <- _. exists (conn_stmts c). exact Hf.
  - destruct (stmt (conn_db c)). discriminate.
Qed.

Lemma raises_faults_bind faults {A B : Type} (m : Tx Price A)
  (k : A -> Tx Price B) :
  raises_faults faults m -> (forall a, raises_faults faults (k a)) ->
  raises_faults faults (bind m k).
Proof.
  intros Hm Hk c msg c'. unfold bind.
  destruct (m c) as [[a | e] c1] eqn:E1.
  - apply Hk.
  - intro E. injection E as <- <-. eapply Hm, E1.
Qed.

Lemma raises_faults_for_each faults {A S : Type} (body : S -> A -> Tx Price S)
  (xs : list A) :
  (forall s x, raises_faults faults (body s x)) ->
  forall s, raises_faults faults (for_each body xs s).
Proof.
  intro Hb. induction xs as [| x xs IH]; intro s; cbn [for_each].
  - apply raises_faults_ret.
  - apply raises_faults_bind; [apply Hb | exact IH].
Qed.

Ltac raises :=
  repeat first
    [ apply raises_faults_bind; [| intro]
    | apply raises_faults_for_each; intros
    | apply raises_faults_execute
    | apply raises_faults_ret
    | match goal with
      | |- raises_faults _ (if ?b then _ else _) => destruct b
      | |- raises_faults _ (match ?o with Some _ => _ | None => _ end) =>
          destruct o
      end ].

Lemma raises_faults_create_order_body faults uid items stype :
  raises_faults faults (create_order_body faults uid items stype).
Proof. unfold create_order_body, create_order_line. raises. Qed.

Lemma raises_faults_restore faults oid :
  raises_faults faults (restore_stock_from_order (Price := Price) faults oid).
Proof. unfold restore_stock_from_order. raises. Qed.

Lemma raises_faults_update_order_status_body faults oid status :
  raises_faults faults
    (update_order_status_body (Price := Price) faults oid status).
Proof.
  unfold update_order_status_body. raises; try apply raises_faults_restore.
Qed.

Lemma raises_faults_delete_order_body faults oid :
  raises_faults faults (delete_order_body (Price := Price) faults oid).
Proof.
  unfold delete_order_body. raises; try apply raises_faults_restore.
Qed.

(** A failed block leaves the four tables as they were, and the message
    it reports is the one a statement raised. *)
Lemma engine_begin_raised faults {A : Type} (body : Tx Price A) db msg db' :
  raises_faults faults body ->
  engine_begin faults body db = (Raised msg, db') ->
  (parts_stock db' = parts_stock db /\ cart db' = cart db /\
   orders db' = orders db /\ order_items db' = order_items db) /\
  exists n, faults n = Some msg.
Proof.
  intro Hr. unfold engine_begin.
  destruct (body _) as [[a | e] c] eqn:Hb.
  - destruct (faults (conn_stmts c)) as [e |] eqn:Hf; intro E; [| discriminate].
    injection E as <- <-. cbn. split; [auto |]. exists (conn_stmts c). exact Hf.
  - intro E. injection E as <- <-. cbn. split; [auto |]. eapply Hr, Hb.
Qed.

(** A committed block returns the database its body ended on. *)
Lemma engine_begin_returned faults {A : Type} (body : Tx Price A) db a db' :
  engine_begin faults body db = (Returned a, db') ->
  exists c', body {| conn_db := db; conn_stmts := 0 |} = (Returned a, c') /\
             db' = conn_db c'.
Proof.
  unfold engine_begin.
  destruct (body _) as [[a0 | e] c] eqn:Hb.
  - destruct (faults (conn_stmts c)); intro E; [discriminate |].
    injection E as <- <-. exists c. auto.
  - discriminate.
Qed.

(** ** The allocation loop of [create_order] *)

(** One iteration that ran without error. *)
Lemma create_order_line_returned faults oid stype t item c t' c' :
  create_order_line faults oid stype t item c = (Returned t', c') ->
  let res := alloc_lines oid stype (parts_stock (conn_db c))
               (order_items_seq (conn_db c)) [item] in
  parts_stock (conn_db c') = snd res /\
  order_items (conn_db c') = order_items (conn_db c) ++ fst res /\
  cart (conn_db c') = cart (conn_db c) /\
  orders (conn_db c') = orders (conn_db c) /\
  orders_seq (conn_db c') = orders_seq (conn_db c) /\
  order_items_seq (conn_db c') = order_items_seq (conn_db c) + 1 /\
  t' = lines_total t (fst res).
Proof.
  unfold create_order_line. intro H. tx_inv H.
  cbn [select_free_stock fst snd] in *. subst a.
  fold (current_stock_of (item_part_number item) stype (parts_stock (conn_db c)))
    in *.
  cbn [alloc_lines fst snd lines_total fold_left].
  set (cur := current_stock_of _ _ _) in *.
  assert (Hc1 : conn_db c1 =
                if 0 <? Z.min (item_qty item) cur
                then set_parts_stock
                       (add_free_stock (item_part_number item) stype
                          (- Z.min (item_qty item) cur)
                          (parts_stock (conn_db c))) (conn_db c)
                else conn_db c).
  { destruct (0 <? Z.min (item_qty item) cur); tx_inv Hm.
    - cbn [update_deduct snd] in *. congruence.
    - congruence. }
  subst c' t'. rewrite Hdb0, Hc1.
  destruct (0 <? Z.min (item_qty item) cur); cbn; auto 10.
Qed.

Lemma alloc_lines_cons oid stype stock seq item rest :
  alloc_lines (Price := Price) oid stype stock seq (item :: rest) =
  (fst (alloc_lines oid stype stock seq [item]) ++
   fst (alloc_lines oid stype (snd (alloc_lines oid stype stock seq [item]))
          (seq + 1) rest),
   snd (alloc_lines oid stype (snd (alloc_lines oid stype stock seq [item]))
          (seq + 1) rest)).
Proof.
  cbn [alloc_lines fst snd app].
  destruct (alloc_lines oid stype _ (seq + 1) rest) as [rows final].
  reflexivity.
Qed.

Lemma alloc_lines_app oid stype xs : forall stock seq ys,
  alloc_lines (Price := Price) oid stype stock seq (xs ++ ys) =
  (fst (alloc_lines oid stype stock seq xs) ++
   fst (alloc_lines oid stype (snd (alloc_lines oid stype stock seq xs))
          (seq + Z.of_nat (List.length xs)) ys),
   snd (alloc_lines oid stype (snd (alloc_lines oid stype stock seq xs))
          (seq + Z.of_nat (List.length xs)) ys)).
Proof.
  induction xs as [| x xs IH]; intros stock seq ys.
  - cbn [app alloc_lines fst snd List.length Z.of_nat]. rewrite Z.add_0_r.
    destruct (alloc_lines oid stype stock seq ys); reflexivity.
  - rewrite <- app_comm_cons, alloc_lines_cons, IH.
    rewrite (alloc_lines_cons oid stype stock seq x xs).
    cbn [fst snd List.length]. rewrite Nat2Z.inj_succ, app_assoc.
    replace (seq + 1 + Z.of_nat (List.length xs)) with (seq + Z.succ (Z.of_nat (List.length xs)))
      by lia.
    reflexivity.
Qed.

(** The whole loop, when it ran without error: the stock left, the line
    items appended and the total accumulated are those of [alloc_lines];
    the other tables are untouched. *)
Lemma create_order_lines_returned faults oid stype items :
  forall t c t' c',
  for_each (create_order_line faults oid stype) items t c = (Returned t', c') ->
  let res := alloc_lines oid stype (parts_stock (conn_db c))
               (order_items_seq (conn_db c)) items in
  parts_stock (conn_db c') = snd res /\
  order_items (conn_db c') = order_items (conn_db c) ++ fst res /\
  cart (conn_db c') = cart (conn_db c) /\
  orders (conn_db c') = orders (conn_db c) /\
  orders_seq (conn_db c') = orders_seq (conn_db c) /\
  t' = lines_total t (fst res).
Proof.
  induction items as [| item rest IH]; intros t c t' c' H.
  - apply ret_returned in H. destruct H as [-> ->]. cbn.
    rewrite app_nil_r. auto 10.
  - cbn [for_each] in H. apply bind_returned in H.
    destruct H as (t1 & c1 & H1 & H2).
    apply create_order_line_returned in H1. cbv zeta in H1.
    destruct H1 as (Hs & Hi & Hc & Ho & Hq & Hn & Ht).
    apply IH in H2. cbv zeta in H2.
    destruct H2 as (Hs' & Hi' & Hc' & Ho' & Hq' & Ht').
    cbv zeta. rewrite alloc_lines_cons. cbn [fst snd].
    rewrite Hs, Hn in *. rewrite Hs', Hi', Hi, Hc', Hc, Ho', Ho, Hq', Hq, Ht', Ht.
    rewrite app_assoc. unfold lines_total. rewrite fold_left_app. auto 10.
Qed.

(** ** Stock updates *)

Lemma set_free_stock_same (r : PartsStock Price) :
  set_free_stock (ps_free_stock r) r = r.
Proof. destruct r; reflexivity. Qed.

Lemma set_free_stock_twice q1 q2 (r : PartsStock Price) :
  set_free_stock q2 (set_free_stock q1 r) = set_free_stock q2 r.
Proof. reflexivity. Qed.

Lemma in_pool_set_free_stock pn stype q (r : PartsStock Price) :
  in_pool pn stype (set_free_stock q r) = in_pool pn stype r.
Proof. reflexivity. Qed.

Lemma delta_of_shift stype ops (r : PartsStock Price) : forall acc,
  fold_left (fun a op => if in_pool (fst op) stype r then a + snd op else a)
            ops acc =
  acc + delta_of stype ops r.
Proof.
  unfold delta_of. induction ops as [| op ops IH]; intro acc; cbn [fold_left].
  - lia.
  - rewrite IH, (IH (if in_pool (fst op) stype r then 0 + snd op else 0)).
    destruct (in_pool (fst op) stype r); lia.
Qed.

Lemma delta_of_cons stype op ops (r : PartsStock Price) :
  delta_of stype (op :: ops) r =
  (if in_pool (fst op) stype r then snd op else 0) + delta_of stype ops r.
Proof.
  unfold delta_of at 1. cbn [fold_left]. rewrite delta_of_shift.
  destruct (in_pool (fst op) stype r); lia.
Qed.

Lemma delta_of_app stype ops1 ops2 (r : PartsStock Price) :
  delta_of stype (ops1 ++ ops2) r =
  delta_of stype ops1 r + delta_of stype ops2 r.
Proof.
  induction ops1 as [| op ops1 IH]; cbn [app].
  - reflexivity.
  - rewrite !delta_of_cons, IH. lia.
Qed.

Lemma delta_of_set_free_stock stype ops q (r : PartsStock Price) :
  delta_of stype ops (set_free_stock q r) = delta_of stype ops r.
Proof. reflexivity. Qed.

(** A run of updates adds to each record the sum of the amounts aimed at
    it. *)
Lemma apply_updates_map stype ops : forall stock : list (PartsStock Price),
  apply_updates stype ops stock =
  map (fun r => set_free_stock (ps_free_stock r + delta_of stype ops r) r) stock.
Proof.
  unfold apply_updates.
  induction ops as [| op ops IH]; intro stock; cbn [fold_left].
  - erewrite map_ext; [symmetry; apply map_id |].
    intro r. cbn. rewrite Z.add_0_r. apply set_free_stock_same.
  - rewrite IH. unfold add_free_stock. rewrite map_map. apply map_ext.
    intro r. rewrite delta_of_cons.
    destruct (in_pool (fst op) stype r) eqn:Hp.
    + rewrite delta_of_set_free_stock, set_free_stock_twice.
      cbn [ps_free_stock set_free_stock]. f_equal. lia.
    + f_equal.
Qed.

Lemma apply_updates_app stype ops1 ops2 (stock : list (PartsStock Price)) :
  apply_updates stype (ops1 ++ ops2) stock =
  apply_updates stype ops2 (apply_updates stype ops1 stock).
Proof. unfold apply_updates. apply fold_left_app. Qed.

(** ** Restoration *)

Lemma set_parts_stock_same db : set_parts_stock (parts_stock db) db = db.
Proof. destruct db; reflexivity. Qed.

Lemma credits_cons (it : string * Z) rows :
  credits (it :: rows) = if 0 <? snd it then it :: credits rows else credits rows.
Proof. reflexivity. Qed.

(** The loop of [restore_stock_from_order], when it ran without error. *)
Lemma restore_loop_returned faults stype items : forall c u c',
  for_each (fun (_ : unit) (item : string * Z) =>
              if 0 <? snd item
              then execute faults (update_restore (snd item) (fst item) stype)
              else ret tt) items tt c = (Returned u, c') ->
  conn_db c' =
  set_parts_stock (apply_updates stype (credits items) (parts_stock (conn_db c)))
    (conn_db c).
Proof.
  induction items as [| it rest IH]; intros c u c' H.
  - apply ret_returned in H. destruct H as [_ ->]. cbn.
    symmetry. apply set_parts_stock_same.
  - cbn [for_each] in H. apply bind_returned in H.
    destruct H as ([] & c1 & H1 & H2). apply IH in H2. rewrite H2.
    rewrite credits_cons. destruct (0 <? snd it).
    + apply execute_returned in H1. destruct H1 as (_ & -> & _). reflexivity.
    + apply ret_returned in H1. destruct H1 as [_ ->]. reflexivity.
Qed.

(** [restore_stock_from_order] changes the stock table only, and adds to
    each record the quantity [restored_qty] names. *)
Lemma restore_returned faults oid c u c' :
  restore_stock_from_order faults oid c = (Returned u, c') ->
  conn_db c' = set_parts_stock (restored_stock oid (conn_db c)) (conn_db c).
Proof.
  unfold restore_stock_from_order. intro H.
  apply bind_returned in H. destruct H as (items & c1 & H1 & H).
  apply bind_returned in H. destruct H as (header & c2 & H2 & H).
  apply execute_returned in H1. destruct H1 as (-> & Hdb1 & _).
  apply execute_returned in H2. destruct H2 as (-> & Hdb2 & _).
  cbn [select_items select_stock_type fst snd] in *.
  rewrite Hdb1 in *. clear Hdb1.
  unfold restored_stock, restored_qty. cbn [select_stock_type select_items fst].
  destruct (hd_error _) as [stype |].
  - apply restore_loop_returned in H. rewrite H, Hdb2.
    rewrite apply_updates_map. reflexivity.
  - apply ret_returned in H. destruct H as [_ ->]. rewrite Hdb2.
    erewrite map_ext; [rewrite map_id; symmetry; apply set_parts_stock_same |].
    intro r. cbn. rewrite Z.add_0_r. apply set_free_stock_same.
Qed.

(** ** The lifecycle functions, when they commit *)

Lemma update_order_status_returned faults oid status db p db' :
  update_order_status faults oid status db = ((true, p), db') ->
  let restores :=
    match fst (select_order_status oid db) with
    | Some st => negb (st =? "Rejected")%string && (status =? "Rejected")%string
    | None => false
    end in
  parts_stock db' = (if restores then restored_stock oid db else parts_stock db) /\
  orders db' = map (fun o => if order_id o =? oid
                             then set_order_status status o else o) (orders db) /\
  order_items db' = order_items db /\
  cart db' = cart db.
Proof.
  unfold update_order_status.
  destruct (engine_begin _ _ _) as [[u | e] db1] eqn:E; [| discriminate].
  intro H. injection H as _ <-.
  apply engine_begin_returned in E. destruct E as (c' & E & ->).
  unfold update_order_status_body in E.
  apply bind_returned in E. destruct E as (curr & c1 & H1 & E).
  apply bind_returned in E. destruct E as ([] & c2 & H2 & H3).
  apply execute_returned in H1. destruct H1 as (-> & Hdb1 & _).
  apply execute_returned in H3. destruct H3 as (_ & Hdb3 & _).
  cbn [select_order_status fst snd conn_db] in *.
  rewrite Hdb3. cbv zeta.
  assert (Hc2 : conn_db c2 =
                set_parts_stock
                  (if match hd_error (map order_status
                                (filter (fun o => order_id o =? oid) (orders db)))
                      with
                      | Some st => negb (st =? "Rejected")%string &&
                                   (status =? "Rejected")%string
                      | None => false
                      end
                   then restored_stock oid db else parts_stock db) db).
  { destruct (hd_error _) as [st |].
    - destruct (negb (st =? "Rejected")%string && (status =? "Rejected")%string).
      + apply restore_returned in H2. rewrite H2, Hdb1. reflexivity.
      + apply ret_returned in H2. destruct H2 as [_ ->]. rewrite Hdb1.
        symmetry. apply set_parts_stock_same.
    - apply ret_returned in H2. destruct H2 as [_ ->]. rewrite Hdb1.
      symmetry. apply set_parts_stock_same. }
  rewrite Hc2. cbn. auto.
Qed.

Lemma delete_order_returned faults oid db p db' :
  delete_order faults oid db = ((true, p), db') ->
  parts_stock db' = restored_stock oid db /\
  order_items db' = filter (fun i => negb (oi_order_id i =? oid)) (order_items db) /\
  orders db' = filter (fun o => negb (order_id o =? oid)) (orders db) /\
  cart db' = cart db.
Proof.
  unfold delete_order.
  destruct (engine_begin _ _ _) as [[u | e] db1] eqn:E; [| discriminate].
  intro H. injection H as _ <-.
  apply engine_begin_returned in E. destruct E as (c' & E & ->).
  unfold delete_order_body in E.
  apply bind_returned in E. destruct E as ([] & c1 & H1 & E).
  apply bind_returned in E. destruct E as ([] & c2 & H2 & H3).
  apply restore_returned in H1.
  apply execute_returned in H2. destruct H2 as (_ & Hdb2 & _).
  apply execute_returned in H3. destruct H3 as (_ & Hdb3 & _).
  rewrite Hdb3, Hdb2, H1. cbn. auto.
Qed.

(** ** [create_order], when it commits *)

Lemma create_order_returned faults uid items stype db p db' :
  create_order faults uid items stype db = ((true, p), db') ->
  let oid := orders_seq db in
  let res := alloc_lines oid stype (parts_stock db) (order_items_seq db) items in
  p = PInt oid /\
  parts_stock db' = snd res /\
  order_items db' = order_items db ++ fst res /\
  orders db' =
    map (fun o => if order_id o =? oid
                  then set_total_price (lines_total money_zero (fst res)) o
                  else o)
        (orders db ++ [{| order_id := oid;
                          user_id := uid;
                          total_price := money_zero;
                          order_status := default_order_status;
                          stock_type := stype |}]) /\
  cart db' = filter (fun e => negb (cart_user_id e =? uid)) (cart db).
Proof.
  unfold create_order.
  destruct (engine_begin _ _ _) as [[o | e] db1] eqn:E; [| discriminate].
  intro H. injection H as <- <-.
  apply engine_begin_returned in E. destruct E as (c' & E & ->).
  unfold create_order_body in E.
  apply bind_returned in E. destruct E as (oid & c1 & H1 & E).
  apply bind_returned in E. destruct E as (tot & c2 & H2 & E).
  apply bind_returned in E. destruct E as ([] & c3 & H3 & E).
  apply bind_returned in E. destruct E as ([] & c4 & H4 & E).
  apply ret_returned in E. destruct E as [-> ->].
  apply execute_returned in H1. destruct H1 as (-> & Hdb1 & _).
  apply create_order_lines_returned in H2. cbv zeta in H2.
  destruct H2 as (Hs & Hi & Hc & Ho & Hq & Ht).
  apply execute_returned in H3. destruct H3 as (_ & Hdb3 & _).
  apply execute_returned in H4. destruct H4 as (_ & Hdb4 & _).
  rewrite Hdb1 in *. clear Hdb1.
  cbn [insert_order fst snd conn_db parts_stock order_items cart orders
       orders_seq order_items_seq] in *.
  cbv zeta. rewrite Hdb4, Hdb3.
  cbn [delete_cart_of_user update_total set_cart set_orders fst snd
       parts_stock order_items cart orders].
  rewrite Hs, Hi, Hc, Ho, Ht. auto 10.
Qed.

(** ** Allocation *)

(** Every row of the cart view carries the outcome of [cart_allocation]
    on its own quantities, and is never flagged as lacking a record. *)
Lemma get_user_cart_rows faults uid db rows v :
  get_user_cart faults uid db = Returned rows -> In v rows ->
  (cv_allocated_qty v, cv_status v) =
    cart_allocation (cv_qty v) (cv_available_qty v) /\
  cv_no_record v = false.
Proof.
  unfold get_user_cart.
  destruct (engine_begin _ _ _) as [[l | e] db1]; [| discriminate].
  intro H. injection H as <-. rewrite in_map_iff.
  intros ([e o] & <- & _). unfold cart_view_row.
  destruct (cart_allocation (cart_qty e) o) as [a s] eqn:E.
  cbn. rewrite E. auto.
Qed.

Lemma merge_left_rows adj stock (line : string * Z) (b : BulkRow Price) :
  In b (merge_left adj stock line) ->
  br_part_number b = fst line /\ br_qty b = snd line /\
  (br_allocated_qty b, br_status b) =
    calculate_allocation (br_description b) (br_qty b) (br_available_qty b) /\
  (filter (fun r => (ps_part_number r =? fst line)%string) stock = [] ->
   br_description b = None) /\
  (forall r, filter (fun r => (ps_part_number r =? fst line)%string) stock = [r] ->
   br_description b = ps_description r /\ br_available_qty b = ps_free_stock r).
Proof.
  assert (Hrow : forall d (p : option Price) f,
             let b := bulk_row (fst line) (snd line) d p f in
             br_part_number b = fst line /\ br_qty b = snd line /\
             (br_allocated_qty b, br_status b) =
               calculate_allocation (br_description b) (br_qty b)
                 (br_available_qty b) /\
             br_description b = d /\
             br_available_qty b = match f with Some q => q | None => 0 end).
  { intros d p f. unfold bulk_row.
    destruct (calculate_allocation d (snd line) _) as [a s] eqn:E.
    cbn. rewrite E. auto 10. }
  unfold merge_left.
  destruct (filter _ stock) as [| r0 ms] eqn:Hf.
  - intros [<- | []]. specialize (Hrow None None None). cbv zeta in Hrow.
    destruct Hrow as (H1 & H2 & H3 & H4 & H5).
    split; [exact H1 |]. split; [exact H2 |]. split; [exact H3 |].
    split; [intros _; exact H4 |]. intros r Hr. discriminate Hr.
  - rewrite in_map_iff. intros (r & <- & Hin).
    specialize (Hrow (ps_description r) (adjust_stock_price adj r)
                  (Some (ps_free_stock r))).
    cbv zeta in Hrow. destruct Hrow as (H1 & H2 & H3 & H4 & H5).
    split; [exact H1 |]. split; [exact H2 |]. split; [exact H3 |].
    split; [intro Hn; discriminate Hn |].
    intros r1 Hr. injection Hr as -> ->. destruct Hin as [<- | []].
    split; [exact H4 | exact H5].
Qed.

(** ** Atomicity of [create_order] *)

(** C2: when [create_order] reports a failure, whichever statement raised
    and however many lines had been processed, the stock, the cart, the
    order headers and the order items are what they were before the call,
    and the result carries the message of the statement that raised. *)
Theorem create_order_failure_rolls_back faults uid items stype db p db' :
  create_order faults uid items stype db = ((false, p), db') ->
  (parts_stock db' = parts_stock db /\ cart db' = cart db /\
   orders db' = orders db /\ order_items db' = order_items db) /\
  exists e n, p = PStr e /\ faults n = Some e.
Proof.
  unfold create_order.
  destruct (engine_begin _ _ _) as [[oid | e] db1] eqn:E; [discriminate |].
  intro H. injection H as <- <-.
  apply engine_begin_raised in E; [| apply raises_faults_create_order_body].
  destruct E as (Htables & n & Hn). split; [exact Htables |].
  exists e, n. auto.
Qed.

(** ** Rejection and deletion *)

(** After [UPDATE orders SET order_status = :status WHERE order_id = :oid]
    the order, if there is one, is in that status. *)
Lemma status_after_update status oid (l : list (Orders Price)) :
  hd_error (map order_status
              (filter (fun o => order_id o =? oid)
                 (map (fun o => if order_id o =? oid
                                then set_order_status status o else o) l))) =
  match hd_error (map order_status (filter (fun o => order_id o =? oid) l)) with
  | Some _ => Some status
  | None => None
  end.
Proof.
  induction l as [| o l IH]; [reflexivity |]. cbn [map filter].
  destruct (order_id o =? oid) eqn:E.
  - cbn [set_order_status order_id]. rewrite E. reflexivity.
  - rewrite E. exact IH.
Qed.

Lemma stock_type_after_update status oid oid' (l : list (Orders Price)) :
  hd_error (map stock_type
              (filter (fun o => order_id o =? oid')
                 (map (fun o => if order_id o =? oid
                                then set_order_status status o else o) l))) =
  hd_error (map stock_type (filter (fun o => order_id o =? oid') l)).
Proof.
  induction l as [| o l IH]; [reflexivity |]. cbn [map filter].
  assert (Hid : order_id (if order_id o =? oid
                          then set_order_status status o else o) = order_id o)
    by (destruct (order_id o =? oid); reflexivity).
  rewrite Hid. destruct (order_id o =? oid'); [| exact IH].
  cbn [map hd_error]. destruct (order_id o =? oid); reflexivity.
Qed.

(** What a restoration would credit depends on the order's lines and pool
    only: a change of status leaves it as it is. *)
Lemma restored_qty_after_update faults oid status db p db' oid' r :
  update_order_status faults oid status db = ((true, p), db') ->
  restored_qty oid' db' r = restored_qty oid' db r.
Proof.
  intro H. apply update_order_status_returned in H. cbv zeta in H.
  destruct H as (_ & Ho & Hi & _).
  unfold restored_qty, select_stock_type, select_items. cbn [fst].
  rewrite Ho, Hi, stock_type_after_update. reflexivity.
Qed.

Lemma restored_qty_set_free_stock oid db q (r : PartsStock Price) :
  restored_qty oid db (set_free_stock q r) = restored_qty oid db r.
Proof. unfold restored_qty. destruct (fst _); reflexivity. Qed.

(** A call that reports a failure changes no table. *)
Lemma update_order_status_failure faults oid status db p db' :
  update_order_status faults oid status db = ((false, p), db') ->
  parts_stock db' = parts_stock db /\ cart db' = cart db /\
  orders db' = orders db /\ order_items db' = order_items db.
Proof.
  unfold update_order_status.
  destruct (engine_begin _ _ _) as [[u | e] db1] eqn:E; [discriminate |].
  intro H. injection H as _ <-.
  apply engine_begin_raised in E;
    [apply E | apply raises_faults_update_order_status_body].
Qed.



(** ** The lines written by [create_order] *)

Lemma alloc_lines_order_id oid stype items :
  forall (stock : list (PartsStock Price)) seq r,
  In r (fst (alloc_lines oid stype stock seq items)) -> oi_order_id r = oid.
Proof.
  induction items as [| item rest IH]; intros stock seq r; cbn [alloc_lines].
  - intros [].
  - destruct (alloc_lines oid stype _ (seq + 1) rest) as [rows final] eqn:E.
    cbn [fst]. intros [<- | Hin]; [reflexivity |].
    eapply IH. rewrite E. exact Hin.
Qed.

(** The lines are written in the order of submission. *)
Lemma alloc_lines_submitted oid stype items :
  forall (stock : list (PartsStock Price)) seq,
  map (fun r => (oi_part_number r, oi_requested_qty r))
      (fst (alloc_lines oid stype stock seq items)) =
  map (fun i => (item_part_number i, item_qty i)) items.
Proof.
  induction items as [| item rest IH]; intros stock seq.
  - reflexivity.
  - rewrite alloc_lines_cons. cbn [fst]. rewrite map_app, IH. reflexivity.
Qed.

(** The stock the loop leaves is the stock it found, less what the lines
    record as allocated. *)
Lemma alloc_lines_stock oid stype items :
  forall (stock : list (PartsStock Price)) seq,
  snd (alloc_lines oid stype stock seq items) =
  apply_updates stype
    (map (fun it => (fst it, - snd it))
         (credits (map (fun r => (oi_part_number r, oi_qty r))
                       (fst (alloc_lines oid stype stock seq items)))))
    stock.
Proof.
  induction items as [| item rest IH]; intros stock seq; cbn [alloc_lines].
  - reflexivity.
  - destruct (alloc_lines oid stype _ (seq + 1) rest) as [rows final] eqn:E.
    cbn [fst snd map oi_part_number oi_qty]. rewrite credits_cons. cbn [snd].
    specialize (IH (if 0 <? Z.min (item_qty item)
                              (current_stock_of (item_part_number item) stype stock)
                    then add_free_stock (item_part_number item) stype
                           (- Z.min (item_qty item)
                                (current_stock_of (item_part_number item) stype stock))
                           stock
                    else stock) (seq + 1)).
    rewrite E in IH. cbn [fst snd] in IH. rewrite IH.
    destruct (0 <? Z.min _ _); reflexivity.
Qed.

Lemma delta_of_negated stype ops (r : PartsStock Price) :
  delta_of stype (map (fun it => (fst it, - snd it)) ops) r =
  - delta_of stype ops r.
Proof.
  induction ops as [| op ops IH]; [reflexivity |].
  cbn [map]. rewrite !delta_of_cons, IH. cbn [fst snd].
  destruct (in_pool (fst op) stype r); lia.
Qed.

(** ** Fresh order keys *)

Lemma fresh_filter_orders oid (l : list (Orders Price)) :
  forallb (fun o => negb (order_id o =? oid)) l = true ->
  filter (fun o => order_id o =? oid) l = [].
Proof.
  induction l as [| o l IH]; [reflexivity |]. cbn [forallb filter].
  intro H. apply andb_prop in H. destruct H as [H1 H2].
  apply negb_true_iff in H1. rewrite H1. auto.
Qed.

Lemma fresh_filter_items oid (l : list (OrderItems Price)) :
  forallb (fun i => negb (oi_order_id i =? oid)) l = true ->
  filter (fun i => oi_order_id i =? oid) l = [].
Proof.
  induction l as [| i l IH]; [reflexivity |]. cbn [forallb filter].
  intro H. apply andb_prop in H. destruct H as [H1 H2].
  apply negb_true_iff in H1. rewrite H1. auto.
Qed.

Lemma filter_all {A : Type} (f : A -> bool) (l : list A) :
  (forall x, In x l -> f x = true) -> filter f l = l.
Proof.
  induction l as [| x l IH]; [reflexivity |]. intro H. cbn [filter].
  rewrite (H x (or_introl eq_refl)). f_equal. apply IH.
  intros y Hy. apply H. right. exact Hy.
Qed.

(** After a committed [create_order] on a database whose next order key
    is fresh, the lines of the new order are the rows the loop wrote, and
    its header is the one inserted, with its total. *)
Lemma create_order_new_order faults uid items stype db p db' :
  create_order faults uid items stype db = ((true, p), db') ->
  orders_seq_fresh db = true ->
  let oid := orders_seq db in
  let res := alloc_lines oid stype (parts_stock db) (order_items_seq db) items in
  lines_of oid db' = fst res /\
  filter (fun o => order_id o =? oid) (orders db') =
    [{| order_id := oid;
        user_id := uid;
        total_price := lines_total money_zero (fst res);
        order_status := default_order_status;
        stock_type := stype |}].
Proof.
  intros H Hfresh. apply create_order_returned in H. cbv zeta in H.
  destruct H as (_ & _ & Hi & Ho & _).
  unfold orders_seq_fresh in Hfresh. apply andb_prop in Hfresh.
  destruct Hfresh as [Hfo Hfi]. cbv zeta. split.
  - unfold lines_of. rewrite Hi, filter_app, fresh_filter_items by exact Hfi.
    cbn [app]. apply filter_all. intros r Hr.
    apply alloc_lines_order_id in Hr. rewrite Hr. apply Z.eqb_refl.
  - rewrite Ho, map_app, filter_app. cbn [map filter order_id].
    rewrite Z.eqb_refl. cbn [set_total_price order_id filter].
    rewrite Z.eqb_refl.
    replace (filter _ (map _ (orders db))) with (@nil (Orders Price)).
    + reflexivity.
    + symmetry. clear - Hfo. induction (orders db) as [| o l IH]; [reflexivity |].
      cbn [forallb] in Hfo. apply andb_prop in Hfo. destruct Hfo as [H1 H2].
      apply negb_true_iff in H1. cbn [map filter]. rewrite H1, H1. auto.
Qed.

(** ** Conservation *)

(** C5: an order created by [create_order] and rejected at once through
    [update_order_status] leaves the stock table as it was before the order:
    every record, hence every part of the order, has its former free
    stock. *)
Theorem create_then_reject_conserves_stock
  faults1 faults2 uid items stype db oid db1 p2 db2 :
  orders_seq_fresh db = true ->
  create_order faults1 uid items stype db = ((true, PInt oid), db1) ->
  update_order_status faults2 oid "Rejected" db1 = ((true, p2), db2) ->
  parts_stock db2 = parts_stock db.
Proof.
  intros Hfresh H1 H2.
  pose proof (create_order_new_order _ _ _ _ _ _ _ H1 Hfresh) as Hnew.
  cbv zeta in Hnew. destruct Hnew as (Hlines & Hheader).
  apply create_order_returned in H1. cbv zeta in H1.
  destruct H1 as (Hp & Hs & _). injection Hp as ->.
  apply update_order_status_returned in H2. cbv zeta in H2.
  destruct H2 as (Hs2 & _).
  unfold select_order_status in Hs2. cbn [fst] in Hs2.
  rewrite Hheader in Hs2. cbn in Hs2. rewrite Hs2.
  unfold restored_stock. rewrite Hs, alloc_lines_stock, apply_updates_map.
  rewrite map_map.
  transitivity (map (fun r => r) (parts_stock db)); [| apply map_id].
  apply map_ext. intro r.
  rewrite restored_qty_set_free_stock, set_free_stock_twice.
  cbn [ps_free_stock set_free_stock].
  unfold restored_qty, select_stock_type, select_items. cbn [fst].
  rewrite Hheader. cbn [map hd_error stock_type].
  fold (lines_of (orders_seq db) db1). rewrite Hlines, delta_of_negated.
  transitivity (set_free_stock (ps_free_stock r) r);
    [f_equal; lia | apply set_free_stock_same].
Qed.

(** ** The order total *)


(** ** Sequential deduction *)

Lemma free_stock_same_part pn stype d (stock : list (PartsStock Price)) :
  hd_error (map ps_free_stock
              (filter (in_pool pn stype) (add_free_stock pn stype d stock))) =
  option_map (fun q => q + d)
    (hd_error (map ps_free_stock (filter (in_pool pn stype) stock))).
Proof.
  unfold add_free_stock.
  induction stock as [| r stock IH]; [reflexivity |]. cbn [map filter].
  destruct (in_pool pn stype r) eqn:E.
  - rewrite in_pool_set_free_stock, E. reflexivity.
  - rewrite E. exact IH.
Qed.

Lemma free_stock_other_part pn pn' stype d (stock : list (PartsStock Price)) :
  (pn' =? pn)%string = false ->
  hd_error (map ps_free_stock
              (filter (in_pool pn stype) (add_free_stock pn' stype d stock))) =
  hd_error (map ps_free_stock (filter (in_pool pn stype) stock)).
Proof.
  intro Hne. unfold add_free_stock.
  induction stock as [| r stock IH]; [reflexivity |]. cbn [map filter].
  assert (Hp : in_pool pn stype
                 (if in_pool pn' stype r
                  then set_free_stock (ps_free_stock r + d) r else r) =
               in_pool pn stype r)
    by (destruct (in_pool pn' stype r); reflexivity).
  rewrite Hp. destruct (in_pool pn stype r) eqn:E; [| exact IH].
  assert (Hp' : in_pool pn' stype r = false).
  { unfold in_pool in *. apply andb_prop in E. destruct E as [E _].
    apply String.eqb_eq in E. rewrite E, String.eqb_sym, Hne. reflexivity. }
  rewrite Hp'. reflexivity.
Qed.

(** What a later line reads for part [pn] once the line [item] has been
    processed. *)
Lemma current_stock_after_line pn stype (item : Item Price)
  (stock : list (PartsStock Price)) :
  current_stock_of pn stype
    (if 0 <? Z.min (item_qty item)
               (current_stock_of (item_part_number item) stype stock)
     then add_free_stock (item_part_number item) stype
            (- Z.min (item_qty item)
                 (current_stock_of (item_part_number item) stype stock))
            stock
     else stock) =
  current_stock_of pn stype stock -
  (if (item_part_number item =? pn)%string
   then Z.max 0 (Z.min (item_qty item)
                   (current_stock_of (item_part_number item) stype stock))
   else 0).
Proof.
  destruct (0 <? Z.min _ _) eqn:Hpos;
    destruct (item_part_number item =? pn)%string eqn:Hpn.
  - apply String.eqb_eq in Hpn. subst pn. apply Z.ltb_lt in Hpos.
    unfold current_stock_of in *. rewrite free_stock_same_part.
    destruct (hd_error _) as [q |]; cbn [option_map stock_or_zero] in *; lia.
  - unfold current_stock_of. rewrite free_stock_other_part by exact Hpn. lia.
  - apply Z.ltb_ge in Hpos. lia.
  - lia.
Qed.

Lemma alloc_lines_available oid stype items :
  forall (stock : list (PartsStock Price)) seq before row after,
  fst (alloc_lines oid stype stock seq items) = before ++ row :: after ->
  oi_available_qty row =
    current_stock_of (oi_part_number row) stype stock -
    claimed_before (oi_part_number row) before /\
  oi_qty row = Z.min (oi_requested_qty row) (oi_available_qty row).
Proof.
  induction items as [| item rest IH]; intros stock seq before row after H.
  - destruct before; discriminate H.
  - rewrite alloc_lines_cons in H. cbn [alloc_lines fst snd app] in H.
    destruct before as [| b before]; cbn [app] in H; injection H as Hb Hrest.
    + subst row. cbn. split; [lia | reflexivity].
    + apply IH in Hrest. destruct Hrest as [Ha Hq]. split; [| exact Hq].
      rewrite Ha, current_stock_after_line. subst b.
      cbn [claimed_before fold_right oi_part_number oi_qty].
      fold (claimed_before (oi_part_number row) before).
      destruct (item_part_number item =? oi_part_number row)%string; lia.
Qed.

(** C7: the lines of one [create_order] call are written in the order
    of submission, and each line reads the stock as the lines before it left
    it: the availability a line records is the stock the part had when the
    call began, less what the earlier lines on the same part were
    allocated, and its own allocation is capped by that. *)
Theorem create_order_sequential_deduction faults uid items stype db p db' :
  create_order faults uid items stype db = ((true, p), db') ->
  orders_seq_fresh db = true ->
  map (fun r => (oi_part_number r, oi_requested_qty r))
      (lines_of (orders_seq db) db') =
    map (fun i => (item_part_number i, item_qty i)) items /\
  (forall before row after,
     lines_of (orders_seq db) db' = before ++ row :: after ->
     oi_available_qty row =
       current_stock_of (oi_part_number row) stype (parts_stock db) -
       claimed_before (oi_part_number row) before /\
     oi_qty row = Z.min (oi_requested_qty row) (oi_available_qty row)).
Proof.
  intros H Hfresh.
  pose proof (create_order_new_order _ _ _ _ _ _ _ H Hfresh) as Hnew.
  cbv zeta in Hnew. destruct Hnew as (Hlines & _). rewrite Hlines. split.
  - apply alloc_lines_submitted.
  - intros before row after Hsplit. eapply alloc_lines_available, Hsplit.
Qed.

(** ** Merging the rows of a bulk submission *)

Lemma string_compare_refl (s : string) : String.compare s s = Eq.
Proof.
  pose proof (String.compare_antisym s s) as H.
  destruct (String.compare s s); [reflexivity | discriminate | discriminate].
Qed.

Lemma ascii_compare_refl (a : ascii) : Ascii.compare a a = Eq.
Proof. unfold Ascii.compare. apply N.compare_refl. Qed.

Lemma string_compare_lt_trans (s1 : string) : forall s2 s3 : string,
  String.compare s1 s2 = Lt -> String.compare s2 s3 = Lt ->
  String.compare s1 s3 = Lt.
Proof.
  induction s1 as [| x s1 IH]; intros [| y s2] [| z s3]; cbn [String.compare];
    try discriminate; try reflexivity.
  destruct (Ascii.compare x y) eqn:Exy; try discriminate;
    destruct (Ascii.compare y z) eqn:Eyz; try discriminate.
  - apply Ascii.compare_eq_iff in Exy, Eyz. subst.
    rewrite ascii_compare_refl. apply IH.
  - apply Ascii.compare_eq_iff in Exy. subst. rewrite Eyz. reflexivity.
  - apply Ascii.compare_eq_iff in Eyz. subst. rewrite Exy. reflexivity.
  - unfold Ascii.compare in *. rewrite N.compare_lt_iff in Exy, Eyz.
    assert (Hxz : (N_of_ascii x ?= N_of_ascii z)%N = Lt)
      by (apply N.compare_lt_iff; lia).
    rewrite Hxz. reflexivity.
Qed.

Lemma group_add_keys k q acc k' :
  In k' (map fst (group_add k q acc)) <-> k' = k \/ In k' (map fst acc).
Proof.
  induction acc as [| [k0 q0] acc IH]; cbn [group_add map fst In].
  - intuition.
  - destruct (String.compare k k0) eqn:E; cbn [map fst In].
    + apply String.compare_eq_iff in E. subst. intuition.
    + intuition.
    + rewrite IH. intuition.
Qed.

Lemma group_add_increasing k q acc :
  keys_increasing acc -> keys_increasing (group_add k q acc).
Proof.
  unfold keys_increasing.
  induction acc as [| [k0 q0] acc IH]; intro H; cbn [group_add].
  - constructor; constructor.
  - inversion H as [| x l Hl Hall]; subst.
    destruct (String.compare k k0) eqn:E.
    + constructor; [exact Hl | exact Hall].
    + constructor; [exact H |]. constructor; [exact E |].
      eapply Forall_impl; [| exact Hall]. intros [k1 q1] H1. cbn [fst] in *.
      eapply string_compare_lt_trans; eassumption.
    + constructor; [apply IH, Hl |].
      apply Forall_forall. intros [k1 q1] Hin. cbn [fst].
      assert (Hk : In k1 (map fst (group_add k q acc)))
        by (apply in_map_iff; exists (k1, q1); auto).
      apply group_add_keys in Hk. destruct Hk as [-> | Hk].
      * rewrite String.compare_antisym, E. reflexivity.
      * apply in_map_iff in Hk. destruct Hk as ([k2 q2] & Hk2 & Hin2).
        cbn [fst] in Hk2. subst k2.
        rewrite Forall_forall in Hall. apply (Hall _ Hin2).
Qed.

Lemma grouped_qty_cons k (r : string * Z) df :
  grouped_qty k (r :: df) =
  (if (fst r =? k)%string then snd r else 0) + grouped_qty k df.
Proof.
  unfold grouped_qty. cbn [fold_right]. destruct (fst r =? k)%string; lia.
Qed.

Lemma group_add_qty k q acc k' :
  grouped_qty k' (group_add k q acc) =
  (if (k =? k')%string then q else 0) + grouped_qty k' acc.
Proof.
  induction acc as [| [k0 q0] acc IH]; cbn [group_add].
  - rewrite grouped_qty_cons. reflexivity.
  - destruct (String.compare k k0) eqn:E.
    + apply String.compare_eq_iff in E. subst k0.
      rewrite !grouped_qty_cons. cbn [fst snd].
      destruct (k =? k')%string; lia.
    + rewrite !grouped_qty_cons. reflexivity.
    + rewrite !grouped_qty_cons, IH. cbn [fst snd]. lia.
Qed.

(** The grouped frame: increasing keys, the keys of the rows, and for each
    key the sum of the quantities of its rows. *)
Lemma groupby_sum_spec (rows : list (string * Z)) :
  keys_increasing (groupby_sum rows) /\
  (forall k, In k (map fst (groupby_sum rows)) <-> In k (map fst rows)) /\
  (forall k, grouped_qty k (groupby_sum rows) = grouped_qty k rows).
Proof.
  unfold groupby_sum.
  assert (H : forall acc,
             keys_increasing acc ->
             keys_increasing
               (fold_left (fun a r => group_add (fst r) (snd r) a) rows acc) /\
             (forall k, In k (map fst (fold_left (fun a r => group_add (fst r) (snd r) a)
                                         rows acc)) <->
                        In k (map fst rows) \/ In k (map fst acc)) /\
             (forall k, grouped_qty k (fold_left (fun a r => group_add (fst r) (snd r) a)
                                         rows acc) =
                        grouped_qty k rows + grouped_qty k acc)).
  { induction rows as [| r rows IH]; intros acc Hacc; cbn [fold_left].
    - split; [exact Hacc |]. split; intro k; cbn; [intuition | lia].
    - destruct (IH (group_add (fst r) (snd r) acc)
                  (group_add_increasing _ _ _ Hacc)) as (H1 & H2 & H3).
      split; [exact H1 |]. split; intro k.
      + rewrite H2, group_add_keys. cbn [map In]. intuition.
      + rewrite H3, group_add_qty, grouped_qty_cons. lia. }
  destruct (H [] (SSorted_nil _)) as (H1 & H2 & H3).
  split; [exact H1 |]. split; intro k.
  - rewrite H2. cbn. intuition.
  - rewrite H3. cbn. lia.
Qed.

Lemma keys_increasing_nodup df : keys_increasing df -> NoDup (map fst df).
Proof.
  unfold keys_increasing. induction 1 as [| a l Hl IH Hall]; cbn [map].
  - constructor.
  - constructor; [| exact IH]. intro Hin. apply in_map_iff in Hin.
    destruct Hin as (b & Hb & Hin). rewrite Forall_forall in Hall.
    specialize (Hall b Hin). rewrite Hb, string_compare_refl in Hall.
    discriminate.
Qed.

Lemma grouped_qty_unique df k q :
  NoDup (map fst df) -> In (k, q) df -> grouped_qty k df = q.
Proof.
  induction df as [| [k0 q0] df IH]; intros Hnd Hin; [destruct Hin |].
  cbn [map fst] in Hnd. inversion Hnd as [| x l Hnot Hnd']; subst.
  rewrite grouped_qty_cons. cbn [fst snd].
  destruct Hin as [E | Hin].
  - injection E as -> ->. rewrite String.eqb_refl.
    assert (H0 : grouped_qty k df = 0).
    { clear - Hnot. induction df as [| [k1 q1] df IH]; [reflexivity |].
      rewrite grouped_qty_cons. cbn [fst snd map] in *.
      destruct (String.eqb_spec k1 k) as [-> | Hne].
      - exfalso. apply Hnot. left. reflexivity.
      - rewrite IH; [lia |]. intro H. apply Hnot. right. exact H. }
    lia.
  - destruct (String.eqb_spec k0 k) as [-> | Hne].
    + exfalso. apply Hnot. apply in_map_iff. exists (k, q). auto.
    + rewrite IH by assumption. lia.
Qed.

Lemma grouped_qty_cleaned k df_bulk :
  grouped_qty k (map (fun r => (clean_part_number (fst r), snd r)) df_bulk) =
  requested_total k df_bulk.
Proof.
  induction df_bulk as [| r l IH]; [reflexivity |].
  cbn [map]. rewrite grouped_qty_cons, IH. cbn [fst snd].
  unfold requested_total. cbn [fold_right].
  destruct (clean_part_number (fst r) =? k)%string; lia.
Qed.

Lemma process_bulk_enquiry_returned faults df_bulk stype adj db rows :
  process_bulk_enquiry faults df_bulk stype adj db = Returned rows ->
  rows =
  flat_map (merge_left adj (fst (select_active_stock stype db)))
    (groupby_sum (map (fun r => (clean_part_number (fst r), snd r)) df_bulk)).
Proof.
  unfold process_bulk_enquiry, assign_allocation.
  destruct (engine_begin _ _ _) as [[stock | e] db1] eqn:E; [| discriminate].
  intro H.
  assert (H' : rows = flat_map (merge_left adj stock)
                        (groupby_sum (map (fun r => (clean_part_number (fst r), snd r))
                                          df_bulk)))
    by (destruct (flat_map _ _); [discriminate H | injection H as <-; reflexivity]).
  clear H. subst rows.
  apply engine_begin_returned in E. destruct E as (c' & E & _).
  apply execute_returned in E. destruct E as (-> & _). reflexivity.
Qed.

Lemma filter_filter_and {A : Type} (f g : A -> bool) (l : list A) :
  filter f (filter g l) = filter (fun x => f x && g x) l.
Proof.
  induction l as [| x l IH]; [reflexivity |]. cbn [filter].
  destruct (g x); cbn [filter]; rewrite ?andb_true_r, ?andb_false_r;
    [destruct (f x) |]; rewrite IH; reflexivity.
Qed.

(** The records the merge finds for a key are the active records of that
    part in the pool, those [get_part_by_number] looks up. *)
Lemma merge_candidates k stype db :
  filter (fun r => (ps_part_number r =? k)%string)
         (fst (select_active_stock stype db)) =
  filter (active_in_pool k stype) (parts_stock db).
Proof.
  unfold select_active_stock. cbn [fst]. rewrite filter_filter_and.
  apply filter_ext. intro r. unfold active_in_pool, in_pool.
  apply andb_assoc.
Qed.

Lemma one_record_per_key k (stock : list (PartsStock Price)) :
  NoDup (map ps_part_number stock) ->
  filter (fun r => (ps_part_number r =? k)%string) stock = [] \/
  exists r, filter (fun r => (ps_part_number r =? k)%string) stock = [r].
Proof.
  induction stock as [| r stock IH]; intro Hnd; [left; reflexivity |].
  cbn [map] in Hnd. inversion Hnd as [| x l Hnot Hnd']; subst.
  cbn [filter]. destruct (String.eqb_spec (ps_part_number r) k) as [E | E].
  - right. exists r. f_equal.
    destruct (filter _ stock) as [| r' rest] eqn:Hf; [reflexivity |].
    exfalso. apply Hnot.
    assert (Hin : In r' (filter (fun r => (ps_part_number r =? k)%string) stock))
      by (rewrite Hf; left; reflexivity).
    apply filter_In in Hin. destruct Hin as [Hin Hk].
    apply String.eqb_eq in Hk. apply in_map_iff. exists r'.
    split; [congruence | exact Hin].
  - apply IH, Hnd'.
Qed.

Lemma bulk_row_available pn qty d (p : option Price) f :
  br_available_qty (bulk_row pn qty d p f) = stock_or_zero f.
Proof.
  unfold bulk_row. destruct (calculate_allocation d qty _). reflexivity.
Qed.

Lemma merge_left_single adj (stock : list (PartsStock Price))
  (line : string * Z) :
  NoDup (map ps_part_number stock) ->
  exists b, merge_left adj stock line = [b] /\
            br_part_number b = fst line /\ br_qty b = snd line.
Proof.
  intro Hnd.
  assert (Hall : forall b, In b (merge_left adj stock line) ->
                           br_part_number b = fst line /\ br_qty b = snd line)
    by (intros b Hb; apply merge_left_rows in Hb; split; apply Hb).
  unfold merge_left in *.
  destruct (one_record_per_key (fst line) stock Hnd) as [Hf | [r Hf]];
    rewrite Hf in *; eexists; (split; [reflexivity |]);
    apply Hall; left; reflexivity.
Qed.

(** ** The boundary table *)

(** The columns of a merged row. *)
Lemma bulk_row_fields pn qty d (p : option Price) f :
  let b := bulk_row pn qty d p f in
  br_part_number b = pn /\ br_qty b = qty /\ br_description b = d /\
  br_price b = p /\
  br_no_record b = match d with None => true | Some _ => false end /\
  br_available_qty b = stock_or_zero f /\
  (br_allocated_qty b, br_status b) = calculate_allocation d qty (stock_or_zero f).
Proof.
  cbv zeta. unfold bulk_row, stock_or_zero.
  destruct (calculate_allocation d qty _) as [a st]. cbn. auto 10.
Qed.

(** A row of the left merge comes from a record with the line's part
    number, or from none when there is no such record. *)
Lemma merge_left_origin adj stock (line : string * Z) (b : BulkRow Price) :
  In b (merge_left adj stock line) ->
  (filter (fun r => (ps_part_number r =? fst line)%string) stock = [] /\
   b = bulk_row (fst line) (snd line) None None None) \/
  (exists r,
     In r (filter (fun r => (ps_part_number r =? fst line)%string) stock) /\
     b = bulk_row (fst line) (snd line) (ps_description r)
           (adjust_stock_price adj r) (Some (ps_free_stock r))).
Proof.
  unfold merge_left.
  destruct (filter _ stock) as [| r0 ms] eqn:Hf.
  - intros [<- | []]. left. split; reflexivity.
  - rewrite in_map_iff. intros (r & <- & Hin). right. exists r.
    split; [exact Hin | reflexivity].
Qed.

(** Every record with the line's part number gives a row of the merge. *)
Lemma merge_left_complete adj stock (line : string * Z) (r : PartsStock Price) :
  In r stock -> ps_part_number r = fst line ->
  In (bulk_row (fst line) (snd line) (ps_description r)
        (adjust_stock_price adj r) (Some (ps_free_stock r)))
     (merge_left adj stock line).
Proof.
  intros Hin Hpn.
  assert (Hf : In r (filter (fun r => (ps_part_number r =? fst line)%string) stock))
    by (apply filter_In; split; [exact Hin | apply String.eqb_eq, Hpn]).
  unfold merge_left. destruct (filter _ stock) as [| r0 ms]; [destruct Hf |].
  apply in_map_iff. exists r. split; [reflexivity | exact Hf].
Qed.

(** Where a returned row comes from: a line of the grouped frame, and an
    active record of its part in the pool, or none when the pool has no
    such record. *)
Lemma bulk_row_source faults df_bulk stype adj db rows (b : BulkRow Price) :
  process_bulk_enquiry faults df_bulk stype adj db = Returned rows ->
  In b rows ->
  In (br_part_number b, br_qty b)
     (groupby_sum (map (fun r => (clean_part_number (fst r), snd r)) df_bulk)) /\
  ((fst (select_active_part (br_part_number b) stype db) = None /\
    b = bulk_row (br_part_number b) (br_qty b) None None None) \/
   (exists r,
      In r (fst (select_active_stock stype db)) /\
      ps_part_number r = br_part_number b /\
      b = bulk_row (br_part_number b) (br_qty b) (ps_description r)
            (adjust_stock_price adj r) (Some (ps_free_stock r)))).
Proof.
  intros H Hb. apply process_bulk_enquiry_returned in H. subst rows.
  apply in_flat_map in Hb. destruct Hb as (line & Hline & Hb).
  pose proof (merge_left_rows _ _ _ _ Hb) as (Hp & Hq & _).
  rewrite Hp, Hq, <- surjective_pairing. split; [exact Hline |].
  destruct (merge_left_origin _ _ _ _ Hb) as [[Hf Hrow] | (r & Hr & Hrow)].
  - left. split; [| exact Hrow].
    unfold select_active_part. cbn [fst]. rewrite <- merge_candidates, Hf.
    reflexivity.
  - right. exists r. apply filter_In in Hr. destruct Hr as [Hin Hk].
    split; [exact Hin |]. split; [apply String.eqb_eq, Hk | exact Hrow].
Qed.


Lemma merge_left_not_empty adj (stock : list (PartsStock Price))
  (line : string * Z) :
  exists b, In b (merge_left adj stock line).
Proof.
  unfold merge_left. destruct (filter _ stock) as [| r0 ms].
  - eexists. left. reflexivity.
  - eexists. cbn [map]. left. reflexivity.
Qed.

(** C6 (amended): the rows of a bulk submission are merged by cleaned
    part number before the stock is looked at: whatever the pool holds,
    every returned row carries the sum of the quantities submitted for its
    part, and its allocation is [calculate_allocation] applied to that sum
    and to the stock of the record the row was merged with.  When the pool
    holds at most one active record per part, [process_bulk_enquiry]
    returns one row per distinct part number of the submission, allocated
    once against the free stock of the part's active record (0 when there
    is none).  Otherwise the merge returns one row for every active record
    of a submitted part, each allocated against its own record. *)
Theorem bulk_enquiry_merges_duplicates faults df_bulk stype adj db rows :
  process_bulk_enquiry faults df_bulk stype adj db = Returned rows ->
  (* the merge of the submitted rows, whatever the pool holds *)
  (df_bulk <> [] /\
   (forall pn, In pn (map br_part_number rows) <->
               In pn (map (fun r => clean_part_number (fst r)) df_bulk)) /\
   (forall b, In b rows ->
      br_qty b = requested_total (br_part_number b) df_bulk /\
      (br_allocated_qty b, br_status b) =
        calculate_allocation (br_description b) (br_qty b) (br_available_qty b) /\
      ((fst (select_active_part (br_part_number b) stype db) = None /\
        br_description b = None /\ br_available_qty b = 0) \/
       (exists r,
          In r (fst (select_active_stock stype db)) /\
          ps_part_number r = br_part_number b /\
          br_description b = ps_description r /\
          br_available_qty b = ps_free_stock r))) /\
   (forall r,
      In r (fst (select_active_stock stype db)) ->
      In (ps_part_number r)
         (map (fun r => clean_part_number (fst r)) df_bulk) ->
      exists b, In b rows /\ br_part_number b = ps_part_number r /\
                br_description b = ps_description r /\
                br_available_qty b = ps_free_stock r)) /\
  (* one row per part *)
  (one_active_record stype db ->
   NoDup (map br_part_number rows) /\
   (forall b, In b rows ->
      br_available_qty b =
        stock_or_zero
          (option_map ps_free_stock
             (fst (select_active_part (br_part_number b) stype db))) /\
      br_description b =
        match fst (select_active_part (br_part_number b) stype db) with
        | Some r => ps_description r
        | None => None
        end)).
Proof.
  intro H.
  pose proof (process_bulk_enquiry_returned _ _ _ _ _ _ H) as Hrows.
  assert (Hsrc : forall b, In b rows -> _)
    by (intros b Hb; exact (bulk_row_source _ _ _ _ _ _ _ H Hb)).
  set (cleaned := map (fun r => (clean_part_number (fst r), snd r)) df_bulk) in *.
  destruct (groupby_sum_spec cleaned) as (Hinc & Hkeys & Hqty).
  set (stock := fst (select_active_stock stype db)) in *.
  assert (Hkey : forall pn,
             In pn (map fst (groupby_sum cleaned)) <->
             In pn (map (fun r => clean_part_number (fst r)) df_bulk)).
  { intro pn. rewrite Hkeys. unfold cleaned. rewrite map_map. reflexivity. }
  split; [split; [| split; [| split]] |].
  - intros ->. unfold process_bulk_enquiry in H. cbn in H.
    destruct (engine_begin _ _ _) as [[st | e] db1]; discriminate H.
  - intro pn. rewrite <- Hkey. split.
    + intro Hin. apply in_map_iff in Hin. destruct Hin as (b & <- & Hb).
      destruct (Hsrc b Hb) as [Hline _].
      apply in_map_iff. exists (br_part_number b, br_qty b).
      split; [reflexivity | exact Hline].
    + intro Hin. apply in_map_iff in Hin. destruct Hin as (line & <- & Hline).
      destruct (merge_left_not_empty adj stock line) as [b Hb].
      pose proof (merge_left_rows _ _ _ _ Hb) as (Hp & _).
      apply in_map_iff. exists b. split; [exact Hp |].
      rewrite Hrows. apply in_flat_map. exists line. split; assumption.
  - intros b Hb. destruct (Hsrc b Hb) as [Hline Horigin].
    split; [| split].
    + rewrite <- grouped_qty_cleaned. fold cleaned. rewrite <- Hqty.
      symmetry. apply grouped_qty_unique;
        [apply keys_increasing_nodup, Hinc | exact Hline].
    + destruct Horigin as [[_ Hrow] | (r & _ & _ & Hrow)];
        match type of Hrow with
        | b = bulk_row ?pn ?q ?d ?pr ?f =>
            pose proof (bulk_row_fields pn q d pr f) as F
        end;
        cbv zeta in F; rewrite <- Hrow in F;
        destruct F as (_ & _ & Hd & _ & _ & Hav & Hal);
        rewrite Hal, Hd, Hav; reflexivity.
    + destruct Horigin as [[Hnone Hrow] | (r & Hin & Hpn & Hrow)];
        match type of Hrow with
        | b = bulk_row ?pn ?q ?d ?pr ?f =>
            pose proof (bulk_row_fields pn q d pr f) as F
        end;
        cbv zeta in F; rewrite <- Hrow in F;
        destruct F as (_ & _ & Hd & _ & _ & Hav & _);
        cbn [stock_or_zero] in Hav.
      * left. auto.
      * right. exists r. auto.
  - intros r Hin Hpn. apply Hkey in Hpn. apply in_map_iff in Hpn.
    destruct Hpn as (line & Hl & Hline).
    pose proof (merge_left_complete adj stock line r Hin (eq_sym Hl)) as Hb.
    pose proof (bulk_row_fields (fst line) (snd line) (ps_description r)
                  (adjust_stock_price adj r) (Some (ps_free_stock r))) as F.
    cbv zeta in F. destruct F as (Hp & _ & Hd & _ & _ & Hav & _).
    eexists. split; [| split; [| split]].
    + rewrite Hrows. apply in_flat_map. exists line. split; [exact Hline | exact Hb].
    + rewrite Hp. exact Hl.
    + exact Hd.
    + exact Hav.
  - intro Hone. split.
    + assert (Hparts : forall df,
                 map br_part_number (flat_map (merge_left adj stock) df) =
                 map fst df).
      { induction df as [| line df IH]; [reflexivity |].
        cbn [flat_map map]. rewrite map_app, IH.
        destruct (merge_left_single adj stock line Hone) as (b0 & Hm & Hp & _).
        rewrite Hm. cbn [map app]. rewrite Hp. reflexivity. }
      rewrite Hrows, Hparts. apply keys_increasing_nodup, Hinc.
    + intros b Hb. destruct (Hsrc b Hb) as [_ Horigin].
      destruct Horigin as [[Hnone Hrow] | (r & Hin & Hpn & Hrow)];
        match type of Hrow with
        | b = bulk_row ?pn ?q ?d ?pr ?f =>
            pose proof (bulk_row_fields pn q d pr f) as F
        end;
        cbv zeta in F; rewrite <- Hrow in F;
        destruct F as (_ & _ & Hd & _ & _ & Hav & _);
        cbn [stock_or_zero] in Hav.
      * rewrite Hnone. cbn [option_map stock_or_zero]. auto.
      * assert (Hsel : fst (select_active_part (br_part_number b) stype db) =
                       Some r).
        { unfold select_active_part. cbn [fst].
          rewrite <- merge_candidates. fold stock.
          assert (Hf : In r (filter (fun r0 => (ps_part_number r0 =?
                                                 br_part_number b)%string) stock))
            by (apply filter_In; split; [exact Hin | apply String.eqb_eq, Hpn]).
          destruct (one_record_per_key (br_part_number b) stock Hone)
            as [Hf0 | [r' Hf0]]; rewrite Hf0 in Hf |- *.
          - destruct Hf.
          - destruct Hf as [-> | []]. reflexivity. }
        rewrite Hsel. cbn [option_map stock_or_zero]. auto.
Qed.

(** ** When storage does not fail *)

Lemma execute_no_faults {A : Type} (stmt : DB Price -> A * DB Price) c :
  execute no_faults stmt c =
  (Returned (fst (stmt (conn_db c))),
   {| conn_db := snd (stmt (conn_db c)); conn_stmts := S (conn_stmts c) |}).
Proof. unfold execute, no_faults. destruct (stmt (conn_db c)); reflexivity. Qed.

Lemma for_each_no_faults {A S : Type} (body : S -> A -> Tx Price S)
  (xs : list A) :
  (forall s x c, exists s' c', body s x c = (Returned s', c')) ->
  forall s c, exists s' c', for_each body xs s c = (Returned s', c').
Proof.
  intro Hb. induction xs as [| x xs IH]; intros s c; cbn [for_each].
  - exists s, c. reflexivity.
  - unfold bind. destruct (Hb s x c) as (s1 & c1 & ->). apply IH.
Qed.

Lemma create_order_line_no_faults oid stype t (item : Item Price) c :
  exists t' c', create_order_line no_faults oid stype t item c = (Returned t', c').
Proof.
  unfold create_order_line, bind. rewrite execute_no_faults.
  destruct (0 <? _); rewrite ?execute_no_faults; unfold ret;
    rewrite ?execute_no_faults; eauto.
Qed.

Lemma restore_no_faults oid c :
  exists c', restore_stock_from_order (Price := Price) no_faults oid c =
             (Returned tt, c').
Proof.
  unfold restore_stock_from_order, bind. rewrite !execute_no_faults.
  destruct (fst (select_stock_type oid _)) as [stype |].
  - assert (Hb : forall (s : unit) (x : string * Z) c0, exists s' c',
               (if 0 <? snd x
                then execute no_faults (update_restore (snd x) (fst x) stype)
                else ret tt) c0 = (Returned s', c')).
    { intros [] x c0.
      destruct (0 <? snd x); [rewrite execute_no_faults | unfold ret]; eauto. }
    match goal with
    | |- exists c', for_each ?body ?xs tt ?c0 = _ =>
        destruct (for_each_no_faults body xs Hb tt c0) as ([] & c' & E)
    end.
    exists c'. exact E.
  - unfold ret. eauto.
Qed.

(** Without a storage error [create_order] commits and returns the key
    the sequence handed out. *)
Lemma create_order_no_faults uid items stype db :
  fst (create_order no_faults uid items stype db) = (true, PInt (orders_seq db)).
Proof.
  unfold create_order, engine_begin, create_order_body, bind.
  rewrite execute_no_faults. cbn [insert_order fst snd].
  match goal with
  | |- context [for_each ?body items ?s0 ?c0] =>
      destruct (for_each_no_faults body items
                  (fun s x c1 => create_order_line_no_faults _ _ s x c1) s0 c0)
        as (t' & c' & ->)
  end.
  rewrite !execute_no_faults. unfold ret, no_faults. reflexivity.
Qed.

(** Without a storage error the two lifecycle calls commit. *)
Lemma update_order_status_no_faults oid status db :
  fst (update_order_status no_faults oid status db) = (true, PStr "Updated").
Proof.
  unfold update_order_status, engine_begin, update_order_status_body, bind.
  rewrite execute_no_faults.
  assert (H : forall c, exists c',
             match fst (select_order_status oid db) with
             | Some st =>
                 if negb (st =? "Rejected")%string && (status =? "Rejected")%string
                 then restore_stock_from_order no_faults oid
                 else ret tt
             | None => ret tt
             end c = (Returned tt, c')).
  { intro c. destruct (fst (select_order_status oid db)) as [st |].
    - destruct (negb _ && _); [apply restore_no_faults | unfold ret; eauto].
    - unfold ret. eauto. }
  cbn [conn_db]. edestruct H as (c' & ->).
  rewrite execute_no_faults. unfold no_faults. reflexivity.
Qed.

Lemma delete_order_no_faults oid db :
  fst (delete_order no_faults oid db) = (true, PStr "Deleted").
Proof.
  unfold delete_order, engine_begin, delete_order_body, bind.
  edestruct restore_no_faults as (c' & ->).
  rewrite !execute_no_faults. unfold no_faults. reflexivity.
Qed.

(** ** Frame and lookup facts *)

(** The direct lookup returns an active record of the part in the pool,
    or nothing. *)
Lemma get_part_by_number_active faults pn stype db r :
  get_part_by_number faults pn stype db = Returned (Some r) ->
  In r (parts_stock db) /\ ps_part_number r = pn /\
  ps_stock_type r = stype /\ ps_is_active r = true.
Proof.
  unfold get_part_by_number.
  destruct (engine_begin _ _ _) as [o db1] eqn:E. cbn [fst]. intros ->.
  apply engine_begin_returned in E. destruct E as (c' & E & _).
  apply execute_returned in E. destruct E as (E & _).
  unfold select_active_part in E. cbn [fst conn_db] in E.
  assert (Hin : In r (filter (active_in_pool pn stype) (parts_stock db))).
  { destruct (filter _ _) as [| r0 l]; [discriminate E |].
    injection E as ->. left. reflexivity. }
  apply filter_In in Hin. destruct Hin as [Hin Hact].
  unfold active_in_pool, in_pool in Hact.
  apply andb_prop in Hact. destruct Hact as [Hp Ha].
  apply andb_prop in Hp. destruct Hp as [Hp Hs].
  apply String.eqb_eq in Hp, Hs. auto.
Qed.

(** A committed [create_order] removes every cart entry of the ordering
    user, and no entry of any other user. *)
Lemma create_order_cart faults uid items stype db p db' :
  create_order faults uid items stype db = ((true, p), db') ->
  (forall e, In e (cart db') <-> In e (cart db) /\ cart_user_id e <> uid).
Proof.
  intro H. apply create_order_returned in H. cbv zeta in H.
  destruct H as (_ & _ & _ & _ & Hc). intro e. rewrite Hc, filter_In.
  rewrite negb_true_iff, Z.eqb_neq. reflexivity.
Qed.

(** ** Blocks of one or two statements *)

Lemma one_statement_block faults {A : Type} (stmt : DB Price -> A * DB Price) db :
  match engine_begin faults (execute faults stmt) db with
  | (Returned a, db') => a = fst (stmt db) /\ db' = snd (stmt db)
  | (Raised e, db') =>
      (parts_stock db' = parts_stock db /\ cart db' = cart db /\
       orders db' = orders db /\ order_items db' = order_items db) /\
      exists n, faults n = Some e
  end.
Proof.
  destruct (engine_begin faults (execute faults stmt) db) as [[a | e] db'] eqn:E.
  - apply engine_begin_returned in E. destruct E as (c' & E & ->).
    apply execute_returned in E. destruct E as (-> & -> & _). auto.
  - apply engine_begin_raised in E; [exact E | apply raises_faults_execute].
Qed.

Lemma two_statement_block faults {A B : Type}
  (s1 : DB Price -> A * DB Price) (s2 : DB Price -> B * DB Price) db :
  match engine_begin faults
          (bind (execute faults s1) (fun _ => execute faults s2)) db with
  | (Returned b, db') => db' = snd (s2 (snd (s1 db)))
  | (Raised e, db') =>
      (parts_stock db' = parts_stock db /\ cart db' = cart db /\
       orders db' = orders db /\ order_items db' = order_items db) /\
      exists n, faults n = Some e
  end.
Proof.
  destruct (engine_begin faults _ db) as [[b | e] db'] eqn:E.
  - apply engine_begin_returned in E. destruct E as (c' & E & ->).
    apply bind_returned in E. destruct E as (a & c1 & E1 & E2).
    apply execute_returned in E1. destruct E1 as (_ & H1 & _).
    apply execute_returned in E2. destruct E2 as (_ & H2 & _).
    rewrite H2, H1. reflexivity.
  - apply engine_begin_raised in E; [exact E |].
    apply raises_faults_bind; [| intro]; apply raises_faults_execute.
Qed.

(** ** Catalog upload *)

Lemma set_is_active_same (r : PartsStock Price) :
  set_is_active (ps_is_active r) r = r.
Proof. destruct r; reflexivity. Qed.

Lemma deactivated_none_active stype (l : list (PartsStock Price)) :
  filter (fun r => (ps_stock_type r =? stype)%string && ps_is_active r)
         (map (fun r => if (ps_stock_type r =? stype)%string && ps_is_active r
                        then set_is_active false r else r) l) = [].
Proof.
  induction l as [| r l IH]; [reflexivity |]. cbn [map filter].
  destruct ((ps_stock_type r =? stype)%string && ps_is_active r) eqn:E.
  - cbn [set_is_active ps_stock_type ps_is_active]. rewrite andb_false_r.
    exact IH.
  - rewrite E. exact IH.
Qed.

Lemma deactivated_history stype (l : list (PartsStock Price)) :
  filter (fun r => (ps_stock_type r =? stype)%string)
         (map (fun r => if (ps_stock_type r =? stype)%string && ps_is_active r
                        then set_is_active false r else r) l) =
  map (set_is_active false)
      (filter (fun r => (ps_stock_type r =? stype)%string) l).
Proof.
  induction l as [| r l IH]; [reflexivity |]. cbn [map filter].
  destruct (ps_stock_type r =? stype)%string eqn:Es; cbn [andb].
  - destruct (ps_is_active r) eqn:Ea.
    + cbn [set_is_active ps_stock_type]. rewrite Es. cbn [map]. f_equal. exact IH.
    + rewrite Es. cbn [map]. rewrite <- Ea at 1. rewrite set_is_active_same.
      f_equal. exact IH.
  - rewrite Es. exact IH.
Qed.

Lemma deactivated_other_pools stype (l : list (PartsStock Price)) :
  filter (fun r => negb (ps_stock_type r =? stype)%string)
         (map (fun r => if (ps_stock_type r =? stype)%string && ps_is_active r
                        then set_is_active false r else r) l) =
  filter (fun r => negb (ps_stock_type r =? stype)%string) l.
Proof.
  induction l as [| r l IH]; [reflexivity |]. cbn [map filter].
  destruct (ps_stock_type r =? stype)%string eqn:Es; cbn [andb negb].
  - destruct (ps_is_active r); cbn [set_is_active ps_stock_type];
      rewrite Es; exact IH.
  - rewrite Es. cbn [negb]. f_equal. exact IH.
Qed.

Lemma uploaded_all_active stype (df : list (UploadRow Price)) :
  filter (fun r => (ps_stock_type r =? stype)%string && ps_is_active r)
         (map (uploaded_record stype) df) = map (uploaded_record stype) df.
Proof.
  apply filter_all. intros r Hr. apply in_map_iff in Hr.
  destruct Hr as (u & <- & _). cbn. rewrite String.eqb_refl. reflexivity.
Qed.

Lemma uploaded_in_pool stype (df : list (UploadRow Price)) :
  filter (fun r => negb (ps_stock_type r =? stype)%string)
         (map (uploaded_record stype) df) = [].
Proof.
  induction df as [| u df IH]; [reflexivity |]. cbn [map filter].
  cbn [uploaded_record ps_stock_type]. rewrite String.eqb_refl. exact IH.
Qed.

Lemma uploaded_none_inactive stype (df : list (UploadRow Price)) :
  filter (fun r => (ps_stock_type r =? stype)%string && negb (ps_is_active r))
         (map (uploaded_record stype) df) = [].
Proof.
  induction df as [| x df IH]; [reflexivity |].
  cbn [map filter uploaded_record ps_stock_type ps_is_active negb].
  rewrite andb_false_r. exact IH.
Qed.

(** The stock table a committed upload leaves. *)
Lemma upload_parts_stock_returned faults df stype db u db' :
  upload_parts_stock faults df stype db = (Returned u, db') ->
  parts_stock db' =
    map (fun r => if (ps_stock_type r =? stype)%string && ps_is_active r
                  then set_is_active false r else r) (parts_stock db) ++
    map (uploaded_record stype) df /\
  cart db' = cart db /\ orders db' = orders db /\
  order_items db' = order_items db.
Proof.
  unfold upload_parts_stock. intro H.
  pose proof (two_statement_block faults (update_deactivate stype)
                (insert_parts (map (uploaded_record stype) df)) db) as T.
  rewrite H in T. rewrite T. cbn. auto.
Qed.

Lemma upload_active_stock faults df stype db u db' :
  upload_parts_stock faults df stype db = (Returned u, db') ->
  fst (select_active_stock stype db') = map (uploaded_record stype) df.
Proof.
  intro H. apply upload_parts_stock_returned in H. destruct H as (Hs & _).
  unfold select_active_stock. cbn [fst].
  rewrite Hs, filter_app, deactivated_none_active, uploaded_all_active.
  reflexivity.
Qed.

(** X1: an upload replaces the catalog of its pool as a whole or not at
    all.  When it commits, the active records of the pool are the uploaded
    rows, in order, with their part numbers stripped; the records the pool
    held before are all kept, inactive; the records of the other pools and
    the other tables are unchanged.  When it raises, no table has
    changed. *)
Theorem upload_replaces_catalog faults df stype db :
  match upload_parts_stock faults df stype db with
  | (Returned _, db') =>
      fst (select_active_stock stype db') = map (uploaded_record stype) df /\
      filter (fun r => (ps_stock_type r =? stype)%string && negb (ps_is_active r))
             (parts_stock db') =
        map (set_is_active false)
            (filter (fun r => (ps_stock_type r =? stype)%string)
                    (parts_stock db)) /\
      filter (fun r => negb (ps_stock_type r =? stype)%string) (parts_stock db') =
        filter (fun r => negb (ps_stock_type r =? stype)%string)
               (parts_stock db) /\
      cart db' = cart db /\ orders db' = orders db /\
      order_items db' = order_items db
  | (Raised e, db') =>
      (parts_stock db' = parts_stock db /\ cart db' = cart db /\
       orders db' = orders db /\ order_items db' = order_items db) /\
      exists n, faults n = Some e
  end.
Proof.
  destruct (upload_parts_stock faults df stype db) as [[u | e] db'] eqn:E.
  - pose proof (upload_active_stock _ _ _ _ _ _ E) as Ha.
    apply upload_parts_stock_returned in E. destruct E as (Hs & Hc & Ho & Hi).
    split; [exact Ha |]. split; [| split; [| auto]].
    + rewrite Hs, filter_app.
      replace (filter _ (map (uploaded_record stype) df))
        with (@nil (PartsStock Price)).
      * rewrite app_nil_r, <- deactivated_history.
        set (l := map _ (parts_stock db)).
        assert (Hl : filter (fun r => (ps_stock_type r =? stype)%string &&
                                      ps_is_active r) l = [])
          by apply deactivated_none_active.
        clearbody l. induction l as [| r l IH]; [reflexivity |].
        cbn [filter] in *.
        destruct (ps_stock_type r =? stype)%string; cbn [andb] in *.
        -- destruct (ps_is_active r); [discriminate Hl |].
           cbn [negb]. f_equal. apply IH, Hl.
        -- apply IH, Hl.
      * symmetry. apply uploaded_none_inactive.
    + rewrite Hs, filter_app, deactivated_other_pools, uploaded_in_pool.
      apply app_nil_r.
  - unfold upload_parts_stock in E.
    pose proof (two_statement_block faults (update_deactivate stype)
                  (insert_parts (map (uploaded_record stype) df)) db) as T.
    rewrite E in T. exact T.
Qed.

(** X2: after a committed upload the pool holds at most one active record
    per part exactly when the stripped part numbers of the uploaded rows are
    all different. *)
Theorem upload_one_active_record faults df stype db u db' :
  upload_parts_stock faults df stype db = (Returned u, db') ->
  one_active_record stype db' <->
  NoDup (map (fun x => strip (up_part_number x)) df).
Proof.
  intro H. unfold one_active_record.
  rewrite (upload_active_stock _ _ _ _ _ _ H), map_map. reflexivity.
Qed.

(** X3: the direct lookup after a committed upload.  A part of the
    uploaded catalog is found under its stripped number, with the values of
    an uploaded row on it; a part the upload does not list is not found,
    whatever the pool held before. *)
Theorem lookup_after_upload faults faults' df stype db u db' pn o :
  upload_parts_stock faults df stype db = (Returned u, db') ->
  get_part_by_number faults' pn stype db' = Returned o ->
  (forall r, o = Some r ->
     exists x, In x df /\ strip (up_part_number x) = pn /\
               r = uploaded_record stype x) /\
  (o = None <-> ~ In pn (map (fun x => strip (up_part_number x)) df)).
Proof.
  intros H Hg.
  pose proof (upload_active_stock _ _ _ _ _ _ H) as Ha.
  assert (Ho : o = hd_error (filter (active_in_pool pn stype) (parts_stock db'))).
  { unfold get_part_by_number in Hg.
    pose proof (one_statement_block faults' (select_active_part pn stype) db') as T.
    destruct (engine_begin faults' _ db') as [[a | e] db1]; cbn [fst] in Hg;
      [| discriminate Hg].
    injection Hg as ->. destruct T as [-> _]. reflexivity. }
  rewrite <- merge_candidates, Ha in Ho.
  assert (Hf : filter (fun r => (ps_part_number r =? pn)%string)
                      (map (uploaded_record stype) df) =
               map (uploaded_record stype)
                   (filter (fun x => (strip (up_part_number x) =? pn)%string) df)).
  { clear. induction df as [| x df IH]; [reflexivity |]. cbn [map filter].
    cbn [uploaded_record ps_part_number].
    destruct (strip (up_part_number x) =? pn)%string; cbn [map]; rewrite IH;
      reflexivity. }
  rewrite Hf in Ho. subst o. split; [| split].
  - intros r Hr.
    destruct (filter _ df) as [| x l] eqn:Ef; [discriminate Hr |].
    cbn [map hd_error] in Hr. injection Hr as <-.
    assert (Hin : In x (filter (fun x => (strip (up_part_number x) =? pn)%string) df))
      by (rewrite Ef; left; reflexivity).
    apply filter_In in Hin. destruct Hin as [Hin Hx].
    exists x. split; [exact Hin |]. split; [apply String.eqb_eq, Hx | reflexivity].
  - intros Hn Hin. apply in_map_iff in Hin. destruct Hin as (x & Hx & Hin).
    assert (Hin' : In x (filter (fun x => (strip (up_part_number x) =? pn)%string) df))
      by (apply filter_In; split; [exact Hin | apply String.eqb_eq, Hx]).
    destruct (filter _ df); [destruct Hin' | discriminate Hn].
  - intro Hn. destruct (filter _ df) as [| x l] eqn:Ef; [reflexivity |].
    exfalso. apply Hn.
    assert (Hin : In x (filter (fun x => (strip (up_part_number x) =? pn)%string) df))
      by (rewrite Ef; left; reflexivity).
    apply filter_In in Hin. destruct Hin as [Hin Hx].
    apply in_map_iff. exists x. split; [apply String.eqb_eq, Hx | exact Hin].
Qed.

(** ** Pool reset *)

Lemma delta_of_other_pool stype ops (r : PartsStock Price) :
  (ps_stock_type r =? stype)%string = false -> delta_of stype ops r = 0.
Proof.
  intro Hs. induction ops as [| op ops IH]; [reflexivity |].
  rewrite delta_of_cons, IH. unfold in_pool. rewrite Hs, andb_false_r.
  reflexivity.
Qed.

Lemma filter_none {A : Type} (f : A -> bool) (l : list A) :
  (forall x, In x l -> f x = false) -> filter f l = [].
Proof.
  induction l as [| x l IH]; [reflexivity |]. intro H. cbn [filter].
  rewrite (H x (or_introl eq_refl)). apply IH.
  intros y Hy. apply H. right. exact Hy.
Qed.

(** A restoration leaves alone the records it credits nothing to. *)
Lemma restored_stock_unchanged oid db :
  (forall r, In r (parts_stock db) -> restored_qty oid db r = 0) ->
  restored_stock oid db = parts_stock db.
Proof.
  intro H. unfold restored_stock.
  transitivity (map (fun r => r) (parts_stock db)); [| apply map_id].
  apply map_ext_in. intros r Hr. rewrite (H r Hr), Z.add_0_r.
  apply set_free_stock_same.
Qed.

Lemma update_order_status_stock faults oid status db :
  parts_stock (snd (update_order_status faults oid status db)) =
    parts_stock db \/
  parts_stock (snd (update_order_status faults oid status db)) =
    restored_stock oid db /\ status = "Rejected".
Proof.
  destruct (update_order_status faults oid status db) as [[[] p] db'] eqn:E;
    cbn [snd].
  - apply update_order_status_returned in E. cbv zeta in E.
    destruct E as (Hs & _). rewrite Hs.
    destruct (fst (select_order_status oid db)) as [st |]; [| left; reflexivity].
    destruct (negb (st =? "Rejected")%string); cbn [andb]; [| left; reflexivity].
    destruct (String.eqb_spec status "Rejected"); [right | left]; auto.
  - apply update_order_status_failure in E. left. apply E.
Qed.

(** X4: a committed [reset_stock] removes every record of the pool,
    active or not, and nothing else; from then on the pool has no part to
    look up, a line of [create_order] finds no stock in it, and rejecting an
    order placed on it credits nothing, the quantities it had been allocated
    being lost with the records.  A reset that raises changes no table. *)
Theorem reset_stock_empties_pool faults stype db :
  match reset_stock faults stype db with
  | (Returned _, db') =>
      filter (fun r => (ps_stock_type r =? stype)%string) (parts_stock db') = [] /\
      filter (fun r => negb (ps_stock_type r =? stype)%string) (parts_stock db') =
        filter (fun r => negb (ps_stock_type r =? stype)%string)
               (parts_stock db) /\
      (cart db' = cart db /\ orders db' = orders db /\
       order_items db' = order_items db) /\
      (forall faults' pn o,
         get_part_by_number faults' pn stype db' = Returned o -> o = None) /\
      (forall pn, current_stock_of pn stype (parts_stock db') = 0) /\
      (forall faults' oid,
         fst (select_stock_type oid db') = Some stype ->
         parts_stock (snd (update_order_status faults' oid "Rejected" db')) =
         parts_stock db')
  | (Raised e, db') =>
      (parts_stock db' = parts_stock db /\ cart db' = cart db /\
       orders db' = orders db /\ order_items db' = order_items db) /\
      exists n, faults n = Some e
  end.
Proof.
  unfold reset_stock.
  pose proof (one_statement_block faults (delete_pool stype) db) as T.
  destruct (engine_begin faults _ db) as [[u | e] db']; [| exact T].
  destruct T as [_ ->]. cbn [delete_pool snd set_parts_stock parts_stock cart
                             orders order_items].
  set (rest := filter (fun r => negb (ps_stock_type r =? stype)%string)
                      (parts_stock db)).
  assert (Hrest : forall r, In r rest -> (ps_stock_type r =? stype)%string = false).
  { intros r Hr. apply filter_In in Hr. destruct Hr as [_ Hr].
    apply negb_true_iff in Hr. exact Hr. }
  assert (Hnone : forall pn, filter (in_pool pn stype) rest = []).
  { intro pn. apply filter_none. intros r Hr. unfold in_pool.
    rewrite (Hrest r Hr). apply andb_false_r. }
  split; [| split; [| split; [auto | split; [| split]]]].
  - apply filter_none, Hrest.
  - apply filter_all. intros r Hr. rewrite (Hrest r Hr). reflexivity.
  - intros faults' pn o Hg. unfold get_part_by_number in Hg.
    pose proof (one_statement_block faults' (select_active_part pn stype)
                  (set_parts_stock rest db)) as T.
    destruct (engine_begin faults' _ _) as [[a | e] db1]; cbn [fst] in Hg;
      [| discriminate Hg].
    injection Hg as ->. destruct T as [-> _].
    unfold select_active_part. cbn [fst set_parts_stock parts_stock].
    rewrite filter_none; [reflexivity |].
    intros r Hr. unfold active_in_pool, in_pool.
    rewrite (Hrest r Hr), andb_false_r. reflexivity.
  - intro pn. unfold current_stock_of. rewrite Hnone. reflexivity.
  - intros faults' oid Hst.
    destruct (update_order_status_stock faults' oid "Rejected"
                (set_parts_stock rest db)) as [H | [H _]]; rewrite H;
      [reflexivity |].
    apply restored_stock_unchanged. cbn [set_parts_stock parts_stock].
    intros r Hr. unfold restored_qty. rewrite Hst.
    apply delta_of_other_pool, Hrest, Hr.
Qed.

(** ** The cart *)

Lemma cart_total_cons uid pn (e : Cart Price) l :
  cart_total uid pn (e :: l) =
  (if (cart_user_id e =? uid) && (cart_part_number e =? pn)%string
   then cart_qty e else 0) + cart_total uid pn l.
Proof.
  unfold cart_total. cbn [fold_right].
  destruct ((cart_user_id e =? uid) && (cart_part_number e =? pn)%string); lia.
Qed.

Lemma cart_total_app uid pn (l1 l2 : list (Cart Price)) :
  cart_total uid pn (l1 ++ l2) = cart_total uid pn l1 + cart_total uid pn l2.
Proof.
  induction l1 as [| e l1 IH]; [reflexivity |].
  cbn [app]. rewrite !cart_total_cons, IH. lia.
Qed.

(** The key of a cart row names it, when keys are not shared. *)
Lemma cart_id_names_entry (l : list (Cart Price)) e x :
  NoDup (map cart_id l) -> In e l -> In x l -> cart_id x = cart_id e -> x = e.
Proof.
  induction l as [| y l IH]; intros Hnd He Hx Hid; [destruct He |].
  cbn [map] in Hnd. inversion Hnd as [| i ids Hnot Hnd']; subst.
  destruct He as [-> | He], Hx as [-> | Hx].
  - reflexivity.
  - exfalso. apply Hnot. rewrite <- Hid. apply in_map. exact Hx.
  - exfalso. apply Hnot. rewrite Hid. apply in_map. exact He.
  - apply IH; assumption.
Qed.

(** [UPDATE cart SET qty = :q WHERE id = :id] on a table with distinct
    keys touches the one row [e] that carries the key. *)
Lemma update_cart_qty_one_row q (e : Cart Price) l :
  NoDup (map cart_id l) -> In e l ->
  forall x, In x l ->
    (if cart_id x =? cart_id e then set_cart_qty q x else x) =
    (if cart_id x =? cart_id e then set_cart_qty q e else x) /\
    (cart_id x = cart_id e -> x = e).
Proof.
  intros Hnd He x Hx.
  assert (H : cart_id x = cart_id e -> x = e)
    by (apply (cart_id_names_entry l); assumption).
  split; [| exact H].
  destruct (Z.eqb_spec (cart_id x) (cart_id e)) as [E | E]; [| reflexivity].
  rewrite (H E). reflexivity.
Qed.

Lemma cart_total_after_update uid pn q (e : Cart Price) l :
  NoDup (map cart_id l) -> In e l ->
  cart_total uid pn
    (map (fun x => if cart_id x =? cart_id e then set_cart_qty q x else x) l) =
  cart_total uid pn l +
  (if (cart_user_id e =? uid) && (cart_part_number e =? pn)%string
   then q - cart_qty e else 0).
Proof.
  induction l as [| y l IH]; intros Hnd He; [destruct He |].
  cbn [map] in *. inversion Hnd as [| i ids Hnot Hnd']; subst.
  rewrite !cart_total_cons. destruct He as [-> | He].
  - rewrite Z.eqb_refl. cbn [set_cart_qty cart_user_id cart_part_number cart_qty].
    assert (Hl : map (fun x => if cart_id x =? cart_id e
                               then set_cart_qty q x else x) l = l).
    { transitivity (map (fun x => x) l); [| apply map_id].
      apply map_ext_in. intros x Hx.
      destruct (Z.eqb_spec (cart_id x) (cart_id e)) as [E | E]; [| reflexivity].
      exfalso. apply Hnot. rewrite <- E. apply in_map. exact Hx. }
    rewrite Hl.
    destruct ((cart_user_id e =? uid) && (cart_part_number e =? pn)%string); lia.
  - assert (E : (cart_id y =? cart_id e) = false).
    { apply Z.eqb_neq. intro E. apply Hnot. rewrite E. apply in_map. exact He. }
    rewrite E, (IH Hnd' He). lia.
Qed.

Lemma cart_entries_after_update uid pn q (e : Cart Price) l :
  NoDup (map cart_id l) -> In e l ->
  (cart_user_id e =? uid) && (cart_part_number e =? pn)%string = false ->
  cart_entries uid pn
    (map (fun x => if cart_id x =? cart_id e then set_cart_qty q x else x) l) =
  cart_entries uid pn l.
Proof.
  intros Hnd He Hkey. unfold cart_entries.
  assert (H : forall x, In x l ->
            (if cart_id x =? cart_id e then set_cart_qty q x else x) = x \/
            (cart_user_id x =? uid) && (cart_part_number x =? pn)%string = false /\
            (if cart_id x =? cart_id e then set_cart_qty q x else x) =
              set_cart_qty q x).
  { intros x Hx. destruct (update_cart_qty_one_row q e l Hnd He x Hx) as [_ Hn].
    destruct (Z.eqb_spec (cart_id x) (cart_id e)) as [E | E]; [| left; reflexivity].
    right. rewrite (Hn E). auto. }
  clear Hnd He. induction l as [| y l IH]; [reflexivity |]. cbn [map filter].
  rewrite IH by (intros x Hx; apply H; right; exact Hx).
  destruct (H y (or_introl eq_refl)) as [-> | [Hk ->]]; [reflexivity |].
  cbn [set_cart_qty cart_user_id cart_part_number]. rewrite Hk. reflexivity.
Qed.

(** The cart a committed [add_to_cart_db] leaves. *)
Lemma add_to_cart_db_returned faults new_id now uid pn desc qty price db u db' :
  add_to_cart_db faults new_id now uid pn desc qty price db = (Returned u, db') ->
  cart db' =
    match hd_error (cart_entries uid (strip pn) (cart db)) with
    | Some e =>
        map (fun x => if cart_id x =? cart_id e
                      then set_cart_qty (cart_qty e + qty) x else x) (cart db)
    | None =>
        cart db ++ [{| cart_id := new_id;
                       cart_user_id := uid;
                       cart_part_number := strip pn;
                       cart_description := desc;
                       cart_qty := qty;
                       cart_price := price;
                       cart_timestamp := now |}]
    end /\
  parts_stock db' = parts_stock db /\ orders db' = orders db /\
  order_items db' = order_items db.
Proof.
  unfold add_to_cart_db. cbv zeta. intro H.
  apply engine_begin_returned in H. destruct H as (c' & H & ->).
  apply bind_returned in H. destruct H as (curr & c1 & H1 & H2).
  apply execute_returned in H1. destruct H1 as (-> & Hdb1 & _).
  unfold select_cart_entry in *. cbn [fst snd conn_db] in *.
  fold (cart_entries uid (strip pn) (cart db)) in H2.
  destruct (cart_entries uid (strip pn) (cart db)) as [| e l];
    cbn [map hd_error] in *;
    apply execute_returned in H2; destruct H2 as (_ & -> & _);
    rewrite Hdb1; cbn; auto.
Qed.

(** X5: adding to the cart is an upsert.  On a cart whose rows have
    distinct keys, a committed [add_to_cart_db] raises the quantity the user
    holds of the stripped part number by the quantity added, whether the
    part was in the cart or not, and leaves the entries of every other user
    and part as they were. *)
Theorem add_to_cart_accumulates
  faults new_id now uid pn desc qty price db u db' :
  NoDup (map cart_id (cart db)) ->
  add_to_cart_db faults new_id now uid pn desc qty price db = (Returned u, db') ->
  cart_total uid (strip pn) (cart db') =
    cart_total uid (strip pn) (cart db) + qty /\
  (forall uid2 pn2,
     (uid =? uid2) && (strip pn =? pn2)%string = false ->
     cart_entries uid2 pn2 (cart db') = cart_entries uid2 pn2 (cart db)).
Proof.
  intros Hnd H. apply add_to_cart_db_returned in H. destruct H as (Hc & _).
  destruct (hd_error (cart_entries uid (strip pn) (cart db))) as [e |] eqn:E.
  - assert (He : In e (cart_entries uid (strip pn) (cart db)))
      by (destruct (cart_entries _ _ _); [discriminate E |];
          injection E as ->; left; reflexivity).
    apply filter_In in He. destruct He as [He Hkey]. rewrite Hc.
    pose proof Hkey as Hk. apply andb_prop in Hk. destruct Hk as [Hu Hp].
    apply Z.eqb_eq in Hu. apply String.eqb_eq in Hp. split.
    + rewrite (cart_total_after_update _ _ _ _ _ Hnd He), Hkey. lia.
    + intros uid2 pn2 Hne. apply cart_entries_after_update; [assumption .. |].
      rewrite Hu, Hp. exact Hne.
  - rewrite Hc. split.
    + rewrite cart_total_app, cart_total_cons.
      cbn [cart_user_id cart_part_number cart_qty].
      rewrite Z.eqb_refl, String.eqb_refl. cbn. lia.
    + intros uid2 pn2 Hne. unfold cart_entries. rewrite filter_app.
      cbn [filter cart_user_id cart_part_number]. rewrite Hne.
      apply app_nil_r.
Qed.

(** X6: the upsert keeps the cart well formed: when no two rows share a
    key or a (user, part number) pair, and the key given to a new row is not
    in use, the same holds after a committed [add_to_cart_db]. *)
Theorem add_to_cart_keeps_one_entry
  faults new_id now uid pn desc qty price db u db' :
  NoDup (map cart_id (cart db)) ->
  NoDup (map (fun e => (cart_user_id e, cart_part_number e)) (cart db)) ->
  ~ In new_id (map cart_id (cart db)) ->
  add_to_cart_db faults new_id now uid pn desc qty price db = (Returned u, db') ->
  NoDup (map cart_id (cart db')) /\
  NoDup (map (fun e => (cart_user_id e, cart_part_number e)) (cart db')).
Proof.
  intros Hid Hkey Hnew H. apply add_to_cart_db_returned in H.
  destruct H as (Hc & _).
  destruct (hd_error (cart_entries uid (strip pn) (cart db))) as [e |] eqn:E;
    rewrite Hc.
  - rewrite !map_map.
    erewrite (map_ext _ cart_id), (map_ext _ (fun e => (cart_user_id e,
                                                        cart_part_number e)));
      [split; assumption | |];
      intro x; destruct (cart_id x =? cart_id e); reflexivity.
  - rewrite !map_app. cbn [map cart_id cart_user_id cart_part_number].
    split.
    + apply NoDup_app; [exact Hid | repeat constructor; intros [] |].
      intros i Hi [<- | []]. exact (Hnew Hi).
    + apply NoDup_app; [exact Hkey | repeat constructor; intros [] |].
      intros k Hk [<- | []]. apply in_map_iff in Hk.
      destruct Hk as (x & Hx & Hin). injection Hx as Hu Hp.
      assert (Hin' : In x (cart_entries uid (strip pn) (cart db))).
      { apply filter_In. split; [exact Hin |].
        rewrite Hu, Hp, Z.eqb_refl, String.eqb_refl. reflexivity. }
      destruct (cart_entries uid (strip pn) (cart db));
        [destruct Hin' | discriminate E].
Qed.

(** X7: once [create_order] has committed, the cart calls that follow
    for the ordering user find nothing to do: on a cart whose rows have
    distinct keys, [remove_from_cart_db] on any entry the user held, which
    the cart page calls for each selected row, and [clear_cart_db] for the
    user, leave the cart as the order left it, whatever their outcome. *)
Theorem cart_calls_after_order_change_nothing
  faults faults' uid items stype db p db1 :
  NoDup (map cart_id (cart db)) ->
  create_order faults uid items stype db = ((true, p), db1) ->
  (forall e, In e (cart db) -> cart_user_id e = uid ->
     cart (snd (remove_from_cart_db faults' (cart_id e) db1)) = cart db1) /\
  cart (snd (clear_cart_db faults' uid db1)) = cart db1.
Proof.
  intros Hnd H. apply create_order_returned in H. cbv zeta in H.
  destruct H as (_ & _ & _ & _ & Hc). split.
  - intros e He Hu. unfold remove_from_cart_db.
    pose proof (one_statement_block faults' (delete_cart_row (cart_id e)) db1) as T.
    destruct (engine_begin faults' _ db1) as [[a | msg] db2]; cbn [snd];
      [| apply T].
    destruct T as [_ ->]. cbn [delete_cart_row snd set_cart cart].
    apply filter_all. intros x Hx. rewrite Hc in Hx. apply filter_In in Hx.
    destruct Hx as [Hx Hxu]. apply negb_true_iff. apply Z.eqb_neq. intro Hid.
    rewrite (cart_id_names_entry _ e x Hnd He Hx Hid), Hu, Z.eqb_refl in Hxu.
    discriminate Hxu.
  - unfold clear_cart_db.
    pose proof (one_statement_block faults' (delete_cart_of_user uid) db1) as T.
    destruct (engine_begin faults' _ db1) as [[a | msg] db2]; cbn [snd];
      [| apply T].
    destruct T as [_ ->]. cbn [delete_cart_of_user snd set_cart cart].
    apply filter_all. intros x Hx. rewrite Hc in Hx. apply filter_In in Hx.
    apply Hx.
Qed.

(** ** The cart view *)

Lemma insert_by_timestamp_perm (x : Cart Price * option Z) l :
  Permutation (insert_by_timestamp x l) (x :: l).
Proof.
  induction l as [| y l IH]; cbn [insert_by_timestamp]; [reflexivity |].
  destruct (cart_timestamp (fst y) <? cart_timestamp (fst x)); [reflexivity |].
  rewrite IH. apply perm_swap.
Qed.

Lemma order_by_timestamp_desc_perm (l : list (Cart Price * option Z)) :
  Permutation (order_by_timestamp_desc l) l.
Proof.
  unfold order_by_timestamp_desc.
  induction l as [| x l IH]; cbn [fold_right]; [reflexivity |].
  rewrite insert_by_timestamp_perm. constructor. exact IH.
Qed.

Lemma insert_by_timestamp_sorted (x : Cart Price * option Z) l :
  StronglySorted (fun a b => cart_timestamp (fst b) <= cart_timestamp (fst a)) l ->
  StronglySorted (fun a b => cart_timestamp (fst b) <= cart_timestamp (fst a))
    (insert_by_timestamp x l).
Proof.
  induction l as [| y l IH]; intro H; cbn [insert_by_timestamp].
  - constructor; constructor.
  - inversion H as [| a b Hl Hall]; subst.
    destruct (Z.ltb_spec (cart_timestamp (fst y)) (cart_timestamp (fst x)))
      as [Hlt | Hge].
    + constructor; [exact H |]. constructor; [lia |].
      eapply Forall_impl; [| exact Hall]. cbn. intros z Hz. lia.
    + constructor; [apply IH, Hl |].
      eapply Permutation_Forall;
        [symmetry; apply insert_by_timestamp_perm |].
      constructor; [exact Hge | exact Hall].
Qed.

Lemma order_by_timestamp_desc_sorted (l : list (Cart Price * option Z)) :
  StronglySorted (fun a b => cart_timestamp (fst b) <= cart_timestamp (fst a))
    (order_by_timestamp_desc l).
Proof.
  unfold order_by_timestamp_desc.
  induction l as [| x l IH]; cbn [fold_right]; [constructor |].
  apply insert_by_timestamp_sorted, IH.
Qed.

Lemma cart_view_row_entry (row : Cart Price * option Z) :
  cv_id (cart_view_row row) = cart_id (fst row) /\
  cv_part_number (cart_view_row row) = cart_part_number (fst row) /\
  cv_qty (cart_view_row row) = cart_qty (fst row) /\
  cv_available_qty (cart_view_row row) = snd row.
Proof.
  destruct row as [e o]. unfold cart_view_row.
  destruct (cart_allocation (cart_qty e) o). cbn. auto.
Qed.

Lemma left_join_stock_depends (stock1 stock2 : list (PartsStock Price)) e :
  filter (fun r => (ps_stock_type r =? "parts_stock")%string && ps_is_active r)
         stock1 =
  filter (fun r => (ps_stock_type r =? "parts_stock")%string && ps_is_active r)
         stock2 ->
  left_join_stock stock1 e = left_join_stock stock2 e.
Proof.
  intro H. unfold left_join_stock.
  assert (Hc : forall stock : list (PartsStock Price),
             filter (active_in_pool (cart_part_number e) "parts_stock") stock =
             filter (fun r => (ps_part_number r =? cart_part_number e)%string)
               (filter (fun r => (ps_stock_type r =? "parts_stock")%string &&
                                 ps_is_active r) stock)).
  { intro stock. rewrite filter_filter_and. apply filter_ext. intro r.
    unfold active_in_pool, in_pool. symmetry. apply andb_assoc. }
  rewrite (Hc stock1), (Hc stock2), H. reflexivity.
Qed.

(** X8: the cart view reads availability from the active records of the
    pool named "parts_stock" and from nothing else: two databases with the
    same cart and the same active records in that pool give the same view,
    whatever their other pools hold. *)
Theorem get_user_cart_reads_parts_stock_pool faults uid db1 db2 :
  cart db1 = cart db2 ->
  fst (select_active_stock "parts_stock" db1) =
    fst (select_active_stock "parts_stock" db2) ->
  get_user_cart faults uid db1 = get_user_cart faults uid db2.
Proof.
  intros Hc Hs. unfold get_user_cart.
  pose proof (one_statement_block faults (select_cart_view uid) db1) as T1.
  pose proof (one_statement_block faults (select_cart_view uid) db2) as T2.
  assert (Hv : fst (select_cart_view uid db1) = fst (select_cart_view uid db2)).
  { unfold select_cart_view. cbn [fst]. rewrite Hc. f_equal.
    apply flat_map_ext. intro e. apply left_join_stock_depends. exact Hs. }
  unfold engine_begin, execute in *. cbn [conn_stmts conn_db] in *.
  destruct (faults 0%nat) as [msg |]; [reflexivity |].
  destruct (select_cart_view uid db1) as [a1 d1].
  destruct (select_cart_view uid db2) as [a2 d2].
  cbn [fst conn_stmts conn_db] in *. subst a2.
  destruct (faults 1%nat); reflexivity.
Qed.

(** X9: what the cart view lists.  When the "parts_stock" pool holds at
    most one active record per part, the view has one row for each cart
    entry of the user and no other row, the newest entry first. *)
Theorem get_user_cart_lists_entries faults uid db rows :
  one_active_record "parts_stock" db ->
  get_user_cart faults uid db = Returned rows ->
  exists entries,
    Permutation entries (filter (fun e => cart_user_id e =? uid) (cart db)) /\
    StronglySorted (fun a b => cart_timestamp b <= cart_timestamp a) entries /\
    map (fun v => (cv_id v, cv_part_number v, cv_qty v)) rows =
    map (fun e => (cart_id e, cart_part_number e, cart_qty e)) entries.
Proof.
  intros Hone H. unfold get_user_cart in H.
  pose proof (one_statement_block faults (select_cart_view uid) db) as T.
  destruct (engine_begin faults _ db) as [[joined | e] db1]; [| discriminate H].
  injection H as <-. destruct T as [-> _].
  unfold select_cart_view. cbn [fst].
  set (mine := filter (fun e => cart_user_id e =? uid) (cart db)).
  set (joined := flat_map (left_join_stock (parts_stock db)) mine).
  assert (Hj : map fst joined = mine).
  { unfold joined. clearbody mine. induction mine as [| e l IH]; [reflexivity |].
    cbn [flat_map]. rewrite map_app, IH.
    unfold left_join_stock. rewrite <- merge_candidates.
    destruct (one_record_per_key (cart_part_number e)
                (fst (select_active_stock "parts_stock" db)) Hone)
      as [-> | [r ->]]; reflexivity. }
  exists (map fst (order_by_timestamp_desc joined)). split; [| split].
  - rewrite <- Hj. apply Permutation_map, order_by_timestamp_desc_perm.
  - pose proof (order_by_timestamp_desc_sorted joined) as Hs.
    induction Hs as [| a l Hl IH Hall]; cbn [map]; constructor.
    + exact IH.
    + rewrite Forall_map. exact Hall.
  - rewrite !map_map. apply map_ext. intro row.
    destruct (cart_view_row_entry row) as (-> & -> & -> & _). reflexivity.
Qed.

(** ** More on the bulk enquiry *)

Lemma grouped_qty_absent k (df : list (string * Z)) :
  ~ In k (map fst df) -> grouped_qty k df = 0.
Proof.
  induction df as [| r df IH]; intro H; [reflexivity |].
  rewrite grouped_qty_cons. cbn [map In] in H.
  destruct (String.eqb_spec (fst r) k) as [E | E].
  - exfalso. apply H. left. exact E.
  - rewrite IH; [reflexivity |]. intro Hin. apply H. right. exact Hin.
Qed.

(** A frame with increasing keys is determined by its keys and the
    quantity it holds for each. *)
Lemma keys_increasing_canonical (l1 : list (string * Z)) :
  forall l2,
  keys_increasing l1 -> keys_increasing l2 ->
  (forall k, In k (map fst l1) <-> In k (map fst l2)) ->
  (forall k, grouped_qty k l1 = grouped_qty k l2) ->
  l1 = l2.
Proof.
  induction l1 as [| [k1 q1] t1 IH]; intros [| [k2 q2] t2] H1 H2 Hk Hq.
  - reflexivity.
  - exfalso. apply (Hk k2). left. reflexivity.
  - exfalso. apply (Hk k1). left. reflexivity.
  - pose proof (keys_increasing_nodup _ H1) as Hn1.
    pose proof (keys_increasing_nodup _ H2) as Hn2.
    inversion H1 as [| a1 b1 Hs1 Hall1]; subst.
    inversion H2 as [| a2 b2 Hs2 Hall2]; subst.
    rewrite Forall_forall in Hall1, Hall2.
    assert (Hlt1 : forall k, In k (map fst t1) -> String.compare k1 k = Lt).
    { intros k Hin. apply in_map_iff in Hin. destruct Hin as (x & <- & Hx).
      apply (Hall1 x Hx). }
    assert (Hlt2 : forall k, In k (map fst t2) -> String.compare k2 k = Lt).
    { intros k Hin. apply in_map_iff in Hin. destruct Hin as (x & <- & Hx).
      apply (Hall2 x Hx). }
    assert (Ek : k1 = k2).
    { destruct (proj1 (Hk k1) (or_introl eq_refl)) as [E | Hin1]; [auto |].
      destruct (proj2 (Hk k2) (or_introl eq_refl)) as [E | Hin2]; [auto |].
      cbn [fst] in *. exfalso.
      pose proof (string_compare_lt_trans _ _ _ (Hlt1 _ Hin2) (Hlt2 _ Hin1)) as C.
      rewrite string_compare_refl in C. discriminate C. }
    subst k2.
    assert (Hnot1 : ~ In k1 (map fst t1)).
    { intro Hin. apply Hlt1 in Hin. rewrite string_compare_refl in Hin.
      discriminate Hin. }
    assert (Hnot2 : ~ In k1 (map fst t2)).
    { intro Hin. apply Hlt2 in Hin. rewrite string_compare_refl in Hin.
      discriminate Hin. }
    assert (Eq : q1 = q2).
    { pose proof (Hq k1) as E. rewrite !grouped_qty_cons in E. cbn [fst snd] in E.
      rewrite String.eqb_refl, !grouped_qty_absent in E by assumption. lia. }
    subst q2. f_equal. apply IH; try assumption.
    + intro k. split; intro Hin.
      * destruct (proj1 (Hk k) (or_intror Hin)) as [E | Hin']; [| exact Hin'].
        cbn [fst] in E. subst k. contradiction.
      * destruct (proj2 (Hk k) (or_intror Hin)) as [E | Hin']; [| exact Hin'].
        cbn [fst] in E. subst k. contradiction.
    + intro k. pose proof (Hq k) as E. rewrite !grouped_qty_cons in E.
      cbn [fst snd] in E. lia.
Qed.

(** X10: the answer of the bulk enquiry depends on the submitted rows
    only through the set of their cleaned part numbers and the total asked
    of each: two submissions that agree on both, such as one submission and
    a reordering of it, or a line and the same line split in two, get the
    same answer. *)
Theorem bulk_enquiry_depends_on_totals faults df1 df2 stype adj db :
  (forall pn, In pn (map (fun r => clean_part_number (fst r)) df1) <->
              In pn (map (fun r => clean_part_number (fst r)) df2)) ->
  (forall pn, requested_total pn df1 = requested_total pn df2) ->
  process_bulk_enquiry faults df1 stype adj db =
  process_bulk_enquiry faults df2 stype adj db.
Proof.
  intros Hk Hq. unfold process_bulk_enquiry.
  set (c1 := map (fun r => (clean_part_number (fst r), snd r)) df1).
  set (c2 := map (fun r => (clean_part_number (fst r), snd r)) df2).
  destruct (groupby_sum_spec c1) as (Hi1 & Hk1 & Hq1).
  destruct (groupby_sum_spec c2) as (Hi2 & Hk2 & Hq2).
  assert (E : groupby_sum c1 = groupby_sum c2).
  { apply keys_increasing_canonical; try assumption.
    - intro k. rewrite Hk1, Hk2. unfold c1, c2. rewrite !map_map. apply Hk.
    - intro k. rewrite Hq1, Hq2. unfold c1, c2.
      rewrite !grouped_qty_cleaned. apply Hq. }
  rewrite E. reflexivity.
Qed.

Lemma has_hyphen_remove_hyphens (s : string) :
  has_hyphen (remove_hyphens s) = false.
Proof.
  induction s as [| ch s IH]; [reflexivity |]. cbn [remove_hyphens].
  destruct (Ascii.eqb ch "-") eqn:E; [exact IH |].
  cbn [has_hyphen]. rewrite E, IH. reflexivity.
Qed.

Lemma has_hyphen_lstrip (s : string) :
  has_hyphen s = false -> has_hyphen (lstrip s) = false.
Proof.
  induction s as [| ch s IH]; [reflexivity |]. cbn [lstrip has_hyphen].
  intro H. apply orb_false_iff in H. destruct H as [H1 H2].
  destruct (is_space ch); [apply IH, H2 |].
  cbn [has_hyphen]. rewrite H1, H2. reflexivity.
Qed.

Lemma has_hyphen_rstrip (s : string) :
  has_hyphen s = false -> has_hyphen (rstrip s) = false.
Proof.
  induction s as [| ch s IH]; [reflexivity |]. cbn [rstrip has_hyphen].
  intro H. apply orb_false_iff in H. destruct H as [H1 H2].
  specialize (IH H2). destruct (rstrip s) as [| ch' s'].
  - destruct (is_space ch); [reflexivity |]. cbn [has_hyphen].
    rewrite H1. reflexivity.
  - cbn [has_hyphen] in *. rewrite H1. exact IH.
Qed.

Lemma has_hyphen_clean_part_number (s : string) :
  has_hyphen (clean_part_number s) = false.
Proof.
  unfold clean_part_number.
  apply has_hyphen_rstrip, has_hyphen_lstrip, has_hyphen_remove_hyphens.
Qed.

(** Where a returned row comes from: a key of the grouped frame, merged
    with the active stock of the pool. *)
Lemma bulk_row_origin faults df_bulk stype adj db rows b :
  process_bulk_enquiry faults df_bulk stype adj db = Returned rows ->
  In b rows ->
  In (br_part_number b)
     (map (fun r => clean_part_number (fst r)) df_bulk) /\
  In b (merge_left adj (fst (select_active_stock stype db))
          (br_part_number b, br_qty b)).
Proof.
  intros H Hb. apply process_bulk_enquiry_returned in H. subst rows.
  apply in_flat_map in Hb. destruct Hb as (line & Hline & Hb).
  pose proof (merge_left_rows _ _ _ _ Hb) as (Hp & Hq & _).
  rewrite Hp, Hq, <- surjective_pairing. split; [| exact Hb].
  destruct (groupby_sum_spec
              (map (fun r => (clean_part_number (fst r), snd r)) df_bulk))
    as (_ & Hk & _).
  assert (Hin : In (fst line)
                   (map fst (groupby_sum
                      (map (fun r => (clean_part_number (fst r), snd r)) df_bulk))))
    by (apply in_map; exact Hline).
  apply Hk in Hin. rewrite map_map in Hin. exact Hin.
Qed.

(** X11: the bulk enquiry strips hyphens from the part numbers it is
    given but compares them with the catalog's numbers as they are: no
    returned row carries a hyphen, so a catalog part whose number contains
    one is never matched, and a row whose number has no active record in
    the pool comes back flagged, with nothing allocated, as "Invalid
    Part". *)
Theorem bulk_enquiry_never_matches_hyphens faults df_bulk stype adj db rows :
  process_bulk_enquiry faults df_bulk stype adj db = Returned rows ->
  forall b, In b rows ->
    has_hyphen (br_part_number b) = false /\
    (forall r, In r (parts_stock db) -> has_hyphen (ps_part_number r) = true ->
       br_part_number b <> ps_part_number r) /\
    (fst (select_active_part (br_part_number b) stype db) = None ->
     br_no_record b = true /\ br_allocated_qty b = 0 /\
     br_status b = "Invalid Part").
Proof.
  intros H b Hb. destruct (bulk_row_origin _ _ _ _ _ _ _ H Hb) as [Hk Hm].
  assert (Hh : has_hyphen (br_part_number b) = false).
  { apply in_map_iff in Hk. destruct Hk as (x & <- & _).
    apply has_hyphen_clean_part_number. }
  split; [exact Hh |]. split.
  - intros r _ Hr E. rewrite E, Hr in Hh. discriminate Hh.
  - intro Hnone. unfold select_active_part in Hnone. cbn [fst] in Hnone.
    rewrite <- merge_candidates in Hnone.
    unfold merge_left in Hm. cbn [fst snd] in Hm.
    destruct (filter _ (fst (select_active_stock stype db)));
      [| discriminate Hnone].
    destruct Hm as [<- | []]. cbn. auto.
Qed.

(** X12: the bulk enquiry takes a missing description for a missing
    part.  When the pool holds at most one active record per part, a part
    whose active record has no description is answered "Invalid Part", with
    the row flagged and nothing allocated, whatever the stock of the record,
    which the row still shows as available. *)
Theorem bulk_enquiry_record_without_description
  faults df_bulk stype adj db rows r b :
  one_active_record stype db ->
  process_bulk_enquiry faults df_bulk stype adj db = Returned rows ->
  In r (fst (select_active_stock stype db)) ->
  ps_description r = None ->
  In b rows -> br_part_number b = ps_part_number r ->
  br_available_qty b = ps_free_stock r /\ br_no_record b = true /\
  br_allocated_qty b = 0 /\ br_status b = "Invalid Part".
Proof.
  intros Hone H Hr Hd Hb Hp.
  destruct (bulk_row_origin _ _ _ _ _ _ _ H Hb) as [_ Hm].
  assert (Hf : filter (fun x => (ps_part_number x =? br_part_number b)%string)
                      (fst (select_active_stock stype db)) = [r]).
  { assert (Hin : In r (filter (fun x => (ps_part_number x =? br_part_number b)%string)
                               (fst (select_active_stock stype db))))
      by (apply filter_In; split; [exact Hr | apply String.eqb_eq; auto]).
    destruct (one_record_per_key (br_part_number b) _ Hone) as [E | [r' E]];
      rewrite E in *; [destruct Hin |].
    destruct Hin as [-> | []]. reflexivity. }
  pose proof (merge_left_rows _ _ _ _ Hm) as (_ & _ & Ha & _ & Hrec).
  cbn [fst] in Hrec. destruct (Hrec r Hf) as [Hdesc Hav].
  rewrite Hd in Hdesc. rewrite Hdesc in Ha. cbn in Ha. injection Ha as Hq Hs.
  split; [exact Hav |]. split; [| auto].
  unfold merge_left in Hm. cbn [fst snd] in Hm. rewrite Hf in Hm.
  destruct Hm as [Hbeq | []]. rewrite <- Hbeq, Hd. unfold bulk_row.
  destruct (calculate_allocation None _ _). reflexivity.
Qed.

(** X13: what the two views promise stays within bounds whatever the
    stock record holds, a negative free stock included: for a requested
    quantity that is not negative, the allocated quantity of a cart row or
    of a bulk row lies between 0 and the requested quantity, and does not
    exceed the available quantity unless that is negative, in which case
    it is 0. *)
Theorem views_allocate_within_bounds faults uid df_bulk stype adj db :
  (forall rows v, get_user_cart faults uid db = Returned rows -> In v rows ->
     0 <= cv_qty v ->
     0 <= cv_allocated_qty v <= cv_qty v /\
     (forall a, cv_available_qty v = Some a ->
                cv_allocated_qty v <= Z.max 0 a)) /\
  (forall rows b, process_bulk_enquiry faults df_bulk stype adj db = Returned rows ->
     In b rows -> 0 <= br_qty b ->
     0 <= br_allocated_qty b <= br_qty b /\
     br_allocated_qty b <= Z.max 0 (br_available_qty b)).
Proof.
  split.
  - intros rows v H Hv Hq. destruct (get_user_cart_rows _ _ _ _ _ H Hv) as [E _].
    unfold cart_allocation in E.
    destruct (cv_available_qty v) as [a |]; cbn [stock_or_zero] in E.
    + destruct (Z.leb_spec (cv_qty v) a); [| destruct (Z.ltb_spec 0 a)];
        injection E as -> _; split; try lia; intros a' Ha; injection Ha as <-; lia.
    + destruct (Z.leb_spec (cv_qty v) 0); injection E as -> _;
        split; try lia; intros a' Ha; discriminate Ha.
  - intros rows b H Hb Hq. destruct (bulk_row_origin _ _ _ _ _ _ _ H Hb) as [_ Hm].
    pose proof (merge_left_rows _ _ _ _ Hm) as (_ & _ & E & _).
    unfold calculate_allocation in E.
    destruct (br_description b); [| injection E as -> _; lia].
    destruct (Z.leb_spec (br_qty b) (br_available_qty b));
      [| destruct (Z.ltb_spec 0 (br_available_qty b))];
      injection E as -> _; lia.
Qed.

(** X24: a submission without rows is not answered with an empty frame.
    The allocation columns cannot be assigned to a frame without rows, so
    [process_bulk_enquiry] raises, with that error or with the one the read
    of the stock met first.  A submission with a row, on storage that
    does not fail, is answered, with at least one row. *)
Theorem bulk_enquiry_empty_submission_raises faults stype adj db :
  (exists e,
     process_bulk_enquiry faults [] stype adj db = Raised e /\
     (e = "Columns must be same length as key"%string \/
      exists n, faults n = Some e)) /\
  (forall df_bulk, df_bulk <> [] ->
     exists rows,
       process_bulk_enquiry no_faults df_bulk stype adj db = Returned rows /\
       rows <> []).
Proof.
  split.
  - unfold process_bulk_enquiry. cbn [map groupby_sum fold_left flat_map].
    pose proof (one_statement_block faults (select_active_stock stype) db) as T.
    destruct (engine_begin faults _ db) as [[stock | e] db1].
    + eexists. split; [reflexivity |]. left. reflexivity.
    + exists e. split; [reflexivity |]. right. apply T.
  - intros df_bulk Hne. unfold process_bulk_enquiry.
    set (cleaned := map (fun r => (clean_part_number (fst r), snd r)) df_bulk).
    destruct (groupby_sum_spec cleaned) as (_ & Hkeys & _).
    pose proof (one_statement_block no_faults (select_active_stock stype) db) as T.
    destruct (engine_begin no_faults _ db) as [[stock | e] db1].
    + destruct (groupby_sum cleaned) as [| line df] eqn:Eg.
      * exfalso. destruct df_bulk as [| r0 l]; [apply Hne; reflexivity |].
        apply (proj2 (Hkeys (clean_part_number (fst r0)))).
        left. reflexivity.
      * cbn [flat_map].
        destruct (merge_left_not_empty adj stock line) as [b Hb].
        destruct (merge_left adj stock line) as [| b0 ms]; [destruct Hb |].
        cbn [app assign_allocation]. eexists. split; [reflexivity |].
        discriminate.
    + destruct T as (_ & n & Hn). discriminate Hn.
Qed.

(** ** More on [create_order] *)

Lemma restored_qty_new_order faults uid items stype db p db' r :
  create_order faults uid items stype db = ((true, p), db') ->
  orders_seq_fresh db = true ->
  restored_qty (orders_seq db) db' r =
  delta_of stype
    (credits (map (fun i => (oi_part_number i, oi_qty i))
                  (fst (alloc_lines (orders_seq db) stype (parts_stock db)
                          (order_items_seq db) items)))) r.
Proof.
  intros H Hfresh.
  pose proof (create_order_new_order _ _ _ _ _ _ _ H Hfresh) as Hnew.
  cbv zeta in Hnew. destruct Hnew as (Hlines & Hheader).
  unfold restored_qty, select_stock_type, select_items. cbn [fst].
  rewrite Hheader. cbn [map hd_error stock_type].
  fold (lines_of (orders_seq db) db'). rewrite Hlines. reflexivity.
Qed.

(** X14: a committed [create_order] takes from the stock exactly what its
    lines record as allocated.  Every stock record keeps all its columns but
    [free_stock], which loses the quantity a restoration of the new order
    would credit to the record: the positive allocated quantities of the
    order's lines on the record's part, for a record of the order's pool,
    and nothing for a record of another pool. *)
Theorem create_order_deducts_what_it_records faults uid items stype db p db' :
  create_order faults uid items stype db = ((true, p), db') ->
  orders_seq_fresh db = true ->
  parts_stock db' =
    map (fun r => set_free_stock
                    (ps_free_stock r - restored_qty (orders_seq db) db' r) r)
        (parts_stock db) /\
  filter (fun r => negb (ps_stock_type r =? stype)%string) (parts_stock db') =
    filter (fun r => negb (ps_stock_type r =? stype)%string) (parts_stock db).
Proof.
  intros H Hfresh.
  pose proof (fun r => restored_qty_new_order _ _ _ _ _ _ _ r H Hfresh) as Hq.
  apply create_order_returned in H. cbv zeta in H. destruct H as (_ & Hs & _).
  assert (E : parts_stock db' =
              map (fun r => set_free_stock
                              (ps_free_stock r -
                               restored_qty (orders_seq db) db' r) r)
                  (parts_stock db)).
  { rewrite Hs, alloc_lines_stock, apply_updates_map. apply map_ext.
    intro r. rewrite Hq, delta_of_negated. f_equal. }
  split; [exact E |]. rewrite E.
  assert (Hz : forall r, (ps_stock_type r =? stype)%string = false ->
                         restored_qty (orders_seq db) db' r = 0)
    by (intros r Es; rewrite Hq; apply delta_of_other_pool, Es).
  generalize (parts_stock db). clear - Hz.
  induction l as [| r l IH]; [reflexivity |].
  cbn [map filter set_free_stock ps_stock_type].
  destruct (ps_stock_type r =? stype)%string eqn:Es; cbn [negb]; [exact IH |].
  rewrite IH, (Hz r Es), Z.sub_0_r, set_free_stock_same. reflexivity.
Qed.

Lemma add_free_stock_keeps_parts pn stype d stype'
  (stock : list (PartsStock Price)) :
  map ps_part_number
      (filter (fun r => (ps_stock_type r =? stype')%string)
              (add_free_stock pn stype d stock)) =
  map ps_part_number
      (filter (fun r => (ps_stock_type r =? stype')%string) stock).
Proof.
  unfold add_free_stock.
  induction stock as [| r l IH]; [reflexivity |]. cbn [map filter].
  assert (E : ps_stock_type (if in_pool pn stype r
                             then set_free_stock (ps_free_stock r + d) r else r) =
              ps_stock_type r /\
              ps_part_number (if in_pool pn stype r
                              then set_free_stock (ps_free_stock r + d) r else r) =
              ps_part_number r)
    by (destruct (in_pool pn stype r); auto).
  destruct E as [E1 E2]. rewrite E1.
  destruct (ps_stock_type r =? stype')%string; cbn [map]; rewrite ?E2, IH;
    reflexivity.
Qed.

Lemma pool_record_of_part pn stype (stock : list (PartsStock Price)) :
  one_record_per_part stype stock ->
  filter (in_pool pn stype) stock = [] \/
  exists r, filter (in_pool pn stype) stock = [r].
Proof.
  intro H.
  assert (E : filter (in_pool pn stype) stock =
              filter (fun r => (ps_part_number r =? pn)%string)
                     (filter (fun r => (ps_stock_type r =? stype)%string) stock))
    by (rewrite filter_filter_and; reflexivity).
  rewrite E. apply one_record_per_key, H.
Qed.

Lemma deduct_keeps_nonneg pn stype d (stock : list (PartsStock Price)) :
  one_record_per_part stype stock -> stock_nonneg stock ->
  d <= current_stock_of pn stype stock ->
  stock_nonneg (add_free_stock pn stype (- d) stock).
Proof.
  intros Hone Hnn Hd. unfold stock_nonneg, add_free_stock in *.
  rewrite Forall_map. rewrite Forall_forall in *. intros r Hr.
  destruct (in_pool pn stype r) eqn:Hp; [| apply Hnn, Hr].
  cbn [set_free_stock ps_free_stock].
  assert (Hin : In r (filter (in_pool pn stype) stock))
    by (apply filter_In; auto).
  unfold current_stock_of in Hd.
  destruct (pool_record_of_part pn stype stock Hone) as [E | [r' E]];
    rewrite E in *; [destruct Hin |].
  destruct Hin as [-> | []]. cbn in Hd. lia.
Qed.

Lemma alloc_lines_keeps_nonneg oid stype items :
  forall (stock : list (PartsStock Price)) seq,
  one_record_per_part stype stock -> stock_nonneg stock ->
  stock_nonneg (snd (alloc_lines oid stype stock seq items)).
Proof.
  induction items as [| item rest IH]; intros stock seq Hone Hnn.
  - exact Hnn.
  - rewrite alloc_lines_cons. cbn [snd alloc_lines].
    destruct (Z.ltb_spec 0 (Z.min (item_qty item)
                              (current_stock_of (item_part_number item) stype stock))).
    + apply IH.
      * unfold one_record_per_part. rewrite add_free_stock_keeps_parts.
        exact Hone.
      * apply deduct_keeps_nonneg; [assumption .. | lia].
    + apply IH; assumption.
Qed.

Lemma create_order_failure_tables faults uid items stype db p db' :
  create_order faults uid items stype db = ((false, p), db') ->
  parts_stock db' = parts_stock db /\ cart db' = cart db /\
  orders db' = orders db /\ order_items db' = order_items db.
Proof.
  unfold create_order.
  destruct (engine_begin _ _ _) as [[oid | e] db1] eqn:E; [discriminate |].
  intro H. injection H as _ <-.
  apply engine_begin_raised in E;
    [apply E | apply raises_faults_create_order_body].
Qed.

(** X15: on a pool that holds at most one record per part, inactive ones
    included, [create_order] never drives a free stock below zero: when no
    record is negative before the call, none is after it, however much the
    lines ask for and whether the call commits or not. *)
Theorem create_order_keeps_stock_nonneg faults uid items stype db :
  one_record_per_part stype (parts_stock db) ->
  stock_nonneg (parts_stock db) ->
  stock_nonneg (parts_stock (snd (create_order faults uid items stype db))).
Proof.
  intros Hone Hnn.
  destruct (create_order faults uid items stype db) as [[[] p] db'] eqn:E;
    cbn [snd].
  - apply create_order_returned in E. cbv zeta in E. destruct E as (_ & -> & _).
    apply alloc_lines_keeps_nonneg; assumption.
  - apply create_order_failure_tables in E. destruct E as (-> & _). exact Hnn.
Qed.

Lemma claimed_before_absent pn (rows : list (OrderItems Price)) :
  ~ In pn (map oi_part_number rows) -> claimed_before pn rows = 0.
Proof.
  induction rows as [| r rows IH]; intro H; [reflexivity |].
  cbn [claimed_before fold_right]. fold (claimed_before pn rows).
  cbn [map In] in H. destruct (String.eqb_spec (oi_part_number r) pn) as [E | E].
  - exfalso. apply H. left. exact E.
  - apply IH. intro Hin. apply H. right. exact Hin.
Qed.

Lemma alloc_lines_distinct_parts oid stype (items : list (Item Price))
  (stock : list (PartsStock Price)) seq :
  NoDup (map item_part_number items) ->
  map (fun r => (oi_part_number r, oi_available_qty r, oi_qty r))
      (fst (alloc_lines oid stype stock seq items)) =
  map (fun i => (item_part_number i,
                 current_stock_of (item_part_number i) stype stock,
                 Z.min (item_qty i)
                   (current_stock_of (item_part_number i) stype stock)))
      items.
Proof.
  intro Hnd.
  set (rows := fst (alloc_lines oid stype stock seq items)).
  pose proof (alloc_lines_submitted oid stype items stock seq) as Hsub.
  fold rows in Hsub.
  assert (Hav : forall before row after, rows = before ++ row :: after ->
            oi_available_qty row =
              current_stock_of (oi_part_number row) stype stock -
              claimed_before (oi_part_number row) before /\
            oi_qty row = Z.min (oi_requested_qty row) (oi_available_qty row))
    by (intros; eapply alloc_lines_available; eassumption).
  assert (Hparts : NoDup (map oi_part_number rows)).
  { replace (map oi_part_number rows)
      with (map fst (map (fun r => (oi_part_number r, oi_requested_qty r)) rows))
      by (rewrite map_map; reflexivity).
    rewrite Hsub, map_map. exact Hnd. }
  clearbody rows. clear Hnd.
  revert items Hsub.
  assert (G : forall before rest (items : list (Item Price)),
             rows = before ++ rest ->
             map (fun r => (oi_part_number r, oi_requested_qty r)) rest =
               map (fun i => (item_part_number i, item_qty i)) items ->
             map (fun r => (oi_part_number r, oi_available_qty r, oi_qty r)) rest =
             map (fun i => (item_part_number i,
                            current_stock_of (item_part_number i) stype stock,
                            Z.min (item_qty i)
                              (current_stock_of (item_part_number i) stype
                                 stock))) items).
  { intros before rest. revert before.
    induction rest as [| row rest IH]; intros before [| i items] Hrows Hmap;
      try discriminate Hmap; [reflexivity |].
    cbn [map] in *. injection Hmap as Hp Hr Hmap.
    destruct (Hav before row rest Hrows) as [Ha Hq].
    assert (Hc : claimed_before (oi_part_number row) before = 0).
    { apply claimed_before_absent. intro Hin.
      rewrite Hrows, map_app in Hparts. cbn [map] in Hparts.
      apply NoDup_remove_2 in Hparts. apply Hparts.
      apply in_or_app. left. exact Hin. }
    rewrite Hq, Ha, Hc, Z.sub_0_r, Hr, Hp. f_equal.
    apply (IH (before ++ [row])); [| exact Hmap].
    rewrite <- app_assoc. exact Hrows. }
  intros items Hsub. apply (G [] rows items eq_refl Hsub).
Qed.

(** X16: when the lines of an order are on different parts, no line
    takes from another: every line is allocated the smaller of what it asks
    and what its part had in stock when the call began. *)
Theorem create_order_distinct_parts faults uid items stype db p db' :
  create_order faults uid items stype db = ((true, p), db') ->
  orders_seq_fresh db = true ->
  NoDup (map item_part_number items) ->
  map (fun r => (oi_part_number r, oi_available_qty r, oi_qty r))
      (lines_of (orders_seq db) db') =
  map (fun i => (item_part_number i,
                 current_stock_of (item_part_number i) stype (parts_stock db),
                 Z.min (item_qty i)
                   (current_stock_of (item_part_number i) stype (parts_stock db))))
      items.
Proof.
  intros H Hfresh Hnd.
  pose proof (create_order_new_order _ _ _ _ _ _ _ H Hfresh) as Hnew.
  cbv zeta in Hnew. destruct Hnew as (Hlines & _). rewrite Hlines.
  apply alloc_lines_distinct_parts, Hnd.
Qed.

(** ** Round trips and status changes *)

(** Restoring an order that was just created gives back the stock the
    call found. *)
Lemma restored_stock_new_order faults uid items stype db p db' :
  create_order faults uid items stype db = ((true, p), db') ->
  orders_seq_fresh db = true ->
  restored_stock (orders_seq db) db' = parts_stock db.
Proof.
  intros H Hfresh.
  pose proof (fun r => restored_qty_new_order _ _ _ _ _ _ _ r H Hfresh) as Hq.
  apply create_order_returned in H. cbv zeta in H. destruct H as (_ & Hs & _).
  unfold restored_stock. rewrite Hs, alloc_lines_stock, apply_updates_map, map_map.
  transitivity (map (fun r => r) (parts_stock db)); [| apply map_id].
  apply map_ext. intro r.
  rewrite restored_qty_set_free_stock, set_free_stock_twice, Hq, delta_of_negated.
  cbn [ps_free_stock set_free_stock].
  transitivity (set_free_stock (ps_free_stock r) r);
    [f_equal; lia | apply set_free_stock_same].
Qed.

(** X17: an order created and then deleted leaves no trace but the
    cleared cart and the used key: the stock table, the order headers and
    the order items are what they were before the order was placed. *)
Theorem create_then_delete_round_trip
  faults1 faults2 uid items stype db oid db1 p2 db2 :
  orders_seq_fresh db = true ->
  create_order faults1 uid items stype db = ((true, PInt oid), db1) ->
  delete_order faults2 oid db1 = ((true, p2), db2) ->
  parts_stock db2 = parts_stock db /\ orders db2 = orders db /\
  order_items db2 = order_items db.
Proof.
  intros Hfresh H1 H2.
  pose proof (restored_stock_new_order _ _ _ _ _ _ _ H1 Hfresh) as Hr.
  apply create_order_returned in H1. cbv zeta in H1.
  destruct H1 as (Hp & _ & Hi & Ho & _). injection Hp as ->.
  apply delete_order_returned in H2. destruct H2 as (Hs2 & Hi2 & Ho2 & _).
  unfold orders_seq_fresh in Hfresh. apply andb_prop in Hfresh.
  destruct Hfresh as [Hfo Hfi]. rewrite forallb_forall in Hfo, Hfi.
  split; [rewrite Hs2; exact Hr |]. split.
  - rewrite Ho2, Ho, map_app, filter_app.
    cbn [map filter order_id]. rewrite Z.eqb_refl.
    cbn [set_total_price order_id filter]. rewrite Z.eqb_refl. cbn [negb].
    rewrite app_nil_r.
    transitivity (filter (fun o => negb (order_id o =? orders_seq db)) (orders db)).
    + f_equal. transitivity (map (fun o => o) (orders db)); [| apply map_id].
      apply map_ext_in. intros o Hin. apply Hfo in Hin.
      apply negb_true_iff in Hin. rewrite Hin. reflexivity.
    + apply filter_all. exact Hfo.
  - rewrite Hi2, Hi, filter_app, (filter_all _ _ Hfi), filter_none;
      [apply app_nil_r |].
    intros r Hin. apply alloc_lines_order_id in Hin. rewrite Hin, Z.eqb_refl.
    reflexivity.
Qed.

(** X18: stock moves on a change of status only when the new status is
    "Rejected": a call of [update_order_status] with any other status leaves
    every stock record as it was, whatever the order's status and whatever
    the outcome of the call; accepting an order, rejected before or not,
    deducts nothing. *)
Theorem only_rejection_moves_stock faults oid status db :
  status <> "Rejected" ->
  parts_stock (snd (update_order_status faults oid status db)) = parts_stock db.
Proof.
  intro Hne.
  destruct (update_order_status_stock faults oid status db) as [H | [_ H]];
    [exact H | contradiction].
Qed.

(** X19: the guard on rejection looks at the current status only.  An
    order that is rejected, then given another status, then rejected again
    has its stock credited twice: every record ends up with twice the
    restored quantity added, although the order was allocated once. *)
Theorem reject_accept_reject_credits_twice
  faults1 faults2 faults3 oid status db st p1 db1 p2 db2 p3 db3 :
  fst (select_order_status oid db) = Some st -> st <> "Rejected" ->
  status <> "Rejected" ->
  update_order_status faults1 oid "Rejected" db = ((true, p1), db1) ->
  update_order_status faults2 oid status db1 = ((true, p2), db2) ->
  update_order_status faults3 oid "Rejected" db2 = ((true, p3), db3) ->
  parts_stock db2 = parts_stock db1 /\
  parts_stock db3 =
    map (fun r => set_free_stock (ps_free_stock r + 2 * restored_qty oid db r) r)
        (parts_stock db).
Proof.
  intros Hst Hst' Hne H1 H2 H3.
  pose proof (fun r => restored_qty_after_update _ _ _ _ _ _ oid r H1) as Hq1.
  pose proof (fun r => restored_qty_after_update _ _ _ _ _ _ oid r H2) as Hq2.
  apply update_order_status_returned in H1. cbv zeta in H1.
  destruct H1 as (Hs1 & Ho1 & _). rewrite Hst in Hs1.
  apply String.eqb_neq in Hst'. rewrite Hst' in Hs1. cbn in Hs1.
  apply update_order_status_returned in H2. cbv zeta in H2.
  destruct H2 as (Hs2 & Ho2 & _).
  apply String.eqb_neq in Hne.
  assert (Hsame : parts_stock db2 = parts_stock db1).
  { destruct (fst (select_order_status oid db1)); [| exact Hs2].
    rewrite Hne, andb_false_r in Hs2. exact Hs2. }
  apply update_order_status_returned in H3. cbv zeta in H3.
  destruct H3 as (Hs3 & _).
  assert (Hcur : fst (select_order_status oid db2) = Some status).
  { unfold select_order_status. cbn [fst].
    rewrite Ho2, status_after_update, Ho1, status_after_update.
    unfold select_order_status in Hst. cbn [fst] in Hst. rewrite Hst.
    reflexivity. }
  rewrite Hcur, Hne in Hs3. cbn in Hs3.
  split; [exact Hsame |].
  rewrite Hs3. unfold restored_stock at 1.
  rewrite Hsame, Hs1. unfold restored_stock. rewrite map_map.
  apply map_ext. intro r.
  rewrite !Hq2, !Hq1, restored_qty_set_free_stock, set_free_stock_twice.
  cbn [ps_free_stock set_free_stock]. f_equal. lia.
Qed.

(** X20: a change of status or a deletion aimed at a key no order
    carries reports success all the same: [update_order_status] then leaves
    every table as it was, and [delete_order] restores nothing and removes
    only line items left under that key. *)
Theorem lifecycle_calls_on_unknown_order faults oid status db :
  filter (fun o => order_id o =? oid) (orders db) = [] ->
  (fst (update_order_status no_faults oid status db) = (true, PStr "Updated") /\
   fst (delete_order no_faults oid db) = (true, PStr "Deleted")) /\
  (parts_stock (snd (update_order_status faults oid status db)) = parts_stock db /\
   orders (snd (update_order_status faults oid status db)) = orders db /\
   order_items (snd (update_order_status faults oid status db)) =
     order_items db) /\
  (forall p db', delete_order faults oid db = ((true, p), db') ->
     parts_stock db' = parts_stock db /\ orders db' = orders db /\
     order_items db' =
       filter (fun i => negb (oi_order_id i =? oid)) (order_items db)).
Proof.
  intro Hnone.
  assert (Hall : forall o, In o (orders db) -> (order_id o =? oid) = false).
  { intros o Hin. destruct (order_id o =? oid) eqn:E; [| reflexivity].
    assert (Hf : In o (filter (fun o => order_id o =? oid) (orders db)))
      by (apply filter_In; auto).
    rewrite Hnone in Hf. destruct Hf. }
  split; [split; [apply update_order_status_no_faults
                 | apply delete_order_no_faults] |].
  split.
  - destruct (update_order_status faults oid status db) as [[[] p] db'] eqn:E;
      cbn [snd].
    + apply update_order_status_returned in E. cbv zeta in E.
      destruct E as (Hs & Ho & Hi & _).
      unfold select_order_status in Hs. cbn [fst] in Hs. rewrite Hnone in Hs.
      split; [exact Hs |]. split; [| exact Hi]. rewrite Ho.
      transitivity (map (fun o => o) (orders db)); [| apply map_id].
      apply map_ext_in. intros o Hin. rewrite (Hall o Hin). reflexivity.
    + apply update_order_status_failure in E. destruct E as (-> & _ & -> & ->).
      auto.
  - intros p db' H. apply delete_order_returned in H.
    destruct H as (Hs & Hi & Ho & _). split; [| split; [| exact Hi]].
    + rewrite Hs. apply restored_stock_unchanged. intros r _.
      unfold restored_qty, select_stock_type. cbn [fst]. rewrite Hnone.
      reflexivity.
    + rewrite Ho. apply filter_all. intros o Hin. rewrite (Hall o Hin).
      reflexivity.
Qed.

(** ** History wipes *)

Lemma key_names_row {A B : Type} (f : A -> B) (l : list A) x y :
  NoDup (map f l) -> In x l -> In y l -> f x = f y -> x = y.
Proof.
  induction l as [| z l IH]; intros Hnd Hx Hy E; [destruct Hx |].
  cbn [map] in Hnd. inversion Hnd as [| i ids Hnot Hnd']; subst.
  destruct Hx as [-> | Hx], Hy as [-> | Hy].
  - reflexivity.
  - exfalso. apply Hnot. rewrite E. apply in_map. exact Hy.
  - exfalso. apply Hnot. rewrite <- E. apply in_map. exact Hx.
  - apply IH; assumption.
Qed.

Lemma delete_all_orders_outcome faults stype db :
  match delete_all_orders faults stype db with
  | ((true, _), db') =>
      db' = snd (delete_orders_of_pool stype (snd (delete_items_of_pool stype db)))
  | ((false, _), db') =>
      parts_stock db' = parts_stock db /\ cart db' = cart db /\
      orders db' = orders db /\ order_items db' = order_items db
  end.
Proof.
  unfold delete_all_orders.
  pose proof (two_statement_block faults (delete_items_of_pool stype)
                (delete_orders_of_pool stype) db) as T.
  destruct (engine_begin faults _ db) as [[u | e] db']; [exact T | apply T].
Qed.

Lemma delete_all_users_history_outcome faults db :
  match delete_all_users_history faults db with
  | ((true, _), db') =>
      db' = snd (delete_all_order_rows (snd (delete_all_items db)))
  | ((false, _), db') =>
      parts_stock db' = parts_stock db /\ cart db' = cart db /\
      orders db' = orders db /\ order_items db' = order_items db
  end.
Proof.
  unfold delete_all_users_history.
  pose proof (two_statement_block faults delete_all_items
                delete_all_order_rows db) as T.
  destruct (engine_begin faults _ db) as [[u | e] db']; [exact T | apply T].
Qed.

(** X21: the two history wipes never give stock back.  Whatever their
    outcome, [delete_all_orders] and [delete_all_users_history] leave the
    stock table and the cart as they were, so what the wiped orders had been
    allocated stays deducted.  When order keys are not shared, a committed
    [delete_all_orders] removes the orders of its pool with all their
    lines, and leaves the orders of the other pools with theirs. *)
Theorem history_wipes_keep_stock faults stype db :
  (parts_stock (snd (delete_all_orders faults stype db)) = parts_stock db /\
   cart (snd (delete_all_orders faults stype db)) = cart db /\
   parts_stock (snd (delete_all_users_history faults db)) = parts_stock db /\
   cart (snd (delete_all_users_history faults db)) = cart db) /\
  (forall p db',
     delete_all_orders faults stype db = ((true, p), db') ->
     NoDup (map order_id (orders db)) ->
     orders db' =
       filter (fun o => negb (stock_type o =? stype)%string) (orders db) /\
     forall o, In o (orders db) ->
       lines_of (order_id o) db' =
       if (stock_type o =? stype)%string then []
       else lines_of (order_id o) db).
Proof.
  split.
  - pose proof (delete_all_orders_outcome faults stype db) as T1.
    pose proof (delete_all_users_history_outcome faults db) as T2.
    destruct (delete_all_orders faults stype db) as [[[] p1] d1];
      destruct (delete_all_users_history faults db) as [[[] p2] d2];
      cbn [snd]; subst; cbn;
      repeat match goal with H : _ /\ _ |- _ => destruct H end;
      repeat split; congruence.
  - intros p db' H Hnd.
    pose proof (delete_all_orders_outcome faults stype db) as T.
    rewrite H in T. subst db'. cbn. split; [reflexivity |].
    intros o Ho. unfold lines_of. cbn [order_items].
    rewrite filter_filter_and.
    destruct (stock_type o =? stype)%string eqn:Es.
    + apply filter_none. intros i _.
      destruct (oi_order_id i =? order_id o) eqn:Ei; [| reflexivity].
      cbn [andb]. apply negb_false_iff. apply existsb_exists.
      exists (order_id o). split; [| exact Ei].
      apply in_map. apply filter_In. auto.
    + apply filter_ext_in. intros i _.
      destruct (oi_order_id i =? order_id o) eqn:Ei; [| reflexivity].
      cbn [andb]. apply negb_true_iff.
      destruct (existsb _ _) eqn:Ex; [| reflexivity]. exfalso.
      apply existsb_exists in Ex. destruct Ex as (k & Hk & Hik).
      apply in_map_iff in Hk. destruct Hk as (o' & <- & Ho').
      apply filter_In in Ho'. destruct Ho' as [Ho' Es'].
      apply Z.eqb_eq in Ei, Hik.
      assert (E : o' = o)
        by (apply (key_names_row order_id (orders db)); auto; congruence).
      subst o'. rewrite Es in Es'. discriminate Es'.
Qed.

(** ** From the cart to the order *)

(** Where a row of the cart view comes from. *)
Lemma get_user_cart_row_origin faults uid db rows v :
  get_user_cart faults uid db = Returned rows -> In v rows ->
  exists e o, v = cart_view_row (e, o) /\ In e (cart db) /\
              In (e, o) (left_join_stock (parts_stock db) e).
Proof.
  unfold get_user_cart. intros H Hv.
  pose proof (one_statement_block faults (select_cart_view uid) db) as T.
  destruct (engine_begin faults _ db) as [[joined | msg] db1]; [| discriminate H].
  injection H as <-. destruct T as [-> _].
  apply in_map_iff in Hv. destruct Hv as ([e o] & <- & Hin).
  unfold select_cart_view in Hin. cbn [fst] in Hin.
  apply (Permutation_in _ (order_by_timestamp_desc_perm _)) in Hin.
  apply in_flat_map in Hin. destruct Hin as (e' & He' & Hin).
  apply filter_In in He'. destruct He' as [He' _].
  assert (E : e = e').
  { unfold left_join_stock in Hin. destruct (filter _ _).
    - destruct Hin as [Hin | []]. injection Hin as <- _. reflexivity.
    - apply in_map_iff in Hin. destruct Hin as (r & Hr & _).
      injection Hr as <- _. reflexivity. }
  subst e'. exists e, o. auto.
Qed.

Lemma cart_allocation_min req o :
  0 <= req -> 0 <= stock_or_zero o ->
  fst (cart_allocation req o) = Z.min req (stock_or_zero o).
Proof.
  intros Hq Ha. unfold cart_allocation.
  fold (stock_or_zero o).
  destruct (Z.leb_spec req (stock_or_zero o));
    [| destruct (Z.ltb_spec 0 (stock_or_zero o))]; cbn [fst]; lia.
Qed.

(** X22: the cart keeps its promise.  Take the "parts_stock" pool with
    all its records active, at most one record per part and no negative
    stock, and a user whose cart view shows different parts with quantities
    that are not negative.  When the rows of the view are submitted as they
    stand, [create_order] allocates to each line exactly the quantity the
    view showed as allocated. *)
Theorem cart_promise_kept faults faults' uid db rows p db' :
  (forall r, In r (parts_stock db) ->
     ps_stock_type r = "parts_stock" -> ps_is_active r = true) ->
  one_record_per_part "parts_stock" (parts_stock db) ->
  stock_nonneg (parts_stock db) ->
  get_user_cart faults uid db = Returned rows ->
  (forall v, In v rows -> 0 <= cv_qty v) ->
  NoDup (map cv_part_number rows) ->
  orders_seq_fresh db = true ->
  create_order faults' uid (map cart_item rows) "parts_stock" db =
    ((true, p), db') ->
  map (fun r => (oi_part_number r, oi_qty r)) (lines_of (orders_seq db) db') =
  map (fun v => (cv_part_number v, cv_allocated_qty v)) rows.
Proof.
  intros Hact Hone Hnn Hview Hq Hnd Hfresh H.
  pose proof (create_order_new_order _ _ _ _ _ _ _ H Hfresh) as Hnew.
  cbv zeta in Hnew. destruct Hnew as (Hlines & _). rewrite Hlines.
  assert (Hd : NoDup (map item_part_number (map cart_item rows)))
    by (rewrite map_map; exact Hnd).
  pose proof (alloc_lines_distinct_parts (orders_seq db) "parts_stock"
                (map cart_item rows) (parts_stock db) (order_items_seq db) Hd)
    as Hl.
  apply (f_equal (map (fun t : string * Z * Z => (fst (fst t), snd t)))) in Hl.
  rewrite !map_map in Hl. cbn [fst snd] in Hl. rewrite Hl.
  apply map_ext_in. intros v Hv.
  cbn [cart_item item_part_number item_qty]. f_equal.
  destruct (get_user_cart_row_origin _ _ _ _ _ Hview Hv) as (e & o & -> & _ & Hj).
  unfold cart_view_row.
  pose proof (cart_allocation_min (cart_qty e) o) as Hmin.
  destruct (cart_allocation (cart_qty e) o) as [a s] eqn:Ea.
  cbn [cv_qty cv_part_number cv_allocated_qty]. cbn [fst] in Hmin.
  assert (Ho : stock_or_zero o =
               current_stock_of (cart_part_number e) "parts_stock"
                 (parts_stock db) /\ 0 <= stock_or_zero o).
  { unfold left_join_stock in Hj. unfold current_stock_of.
    assert (Ef : filter (active_in_pool (cart_part_number e) "parts_stock")
                        (parts_stock db) =
                 filter (in_pool (cart_part_number e) "parts_stock")
                        (parts_stock db)).
    { apply filter_ext_in. intros r Hr. unfold active_in_pool.
      destruct (in_pool (cart_part_number e) "parts_stock" r) eqn:Hp;
        [| reflexivity].
      unfold in_pool in Hp. apply andb_prop in Hp. destruct Hp as [_ Hs].
      apply String.eqb_eq in Hs. rewrite (Hact r Hr Hs). reflexivity. }
    rewrite Ef in Hj.
    destruct (pool_record_of_part (cart_part_number e) "parts_stock"
                (parts_stock db) Hone) as [E | [r E]]; rewrite E in *.
    - destruct Hj as [Hj | []]. injection Hj as <-. cbn. split; [reflexivity | lia].
    - destruct Hj as [Hj | []]. injection Hj as <-. cbn. split; [reflexivity |].
      unfold stock_nonneg in Hnn. rewrite Forall_forall in Hnn. apply Hnn.
      assert (Hin : In r (filter (in_pool (cart_part_number e) "parts_stock")
                            (parts_stock db))) by (rewrite E; left; reflexivity).
      apply filter_In in Hin. apply Hin. }
  destruct Ho as [Ho Hpos]. rewrite <- Ho. symmetry. apply Hmin; [| exact Hpos].
  specialize (Hq _ Hv). unfold cart_view_row in Hq. rewrite Ea in Hq. exact Hq.
Qed.

(** ** Order keys *)

Lemma keeps_seq_ret faults {A : Type} (a : A) :
  keeps_seq (Price := Price) (ret a).
Proof. intros c o c' E. injection E as _ <-. lia. Qed.

Lemma keeps_seq_execute faults {A : Type} (stmt : DB Price -> A * DB Price) :
  (forall db, orders_seq db <= orders_seq (snd (stmt db))) ->
  keeps_seq (execute faults stmt).
Proof.
  intros Hs c o c'. unfold execute.
  destruct (faults (conn_stmts c)).
  - intro E. injection E as _ <-. lia.
  - specialize (Hs (conn_db c)). destruct (stmt (conn_db c)) as [a d].
    intro E. injection E as _ <-. exact Hs.
Qed.

Lemma keeps_seq_bind {A B : Type} (m : Tx Price A) (k : A -> Tx Price B) :
  keeps_seq m -> (forall a, keeps_seq (k a)) -> keeps_seq (bind m k).
Proof.
  intros Hm Hk c o c'. unfold bind.
  destruct (m c) as [[a | e] c1] eqn:E1.
  - intro E2. apply Hm in E1. apply Hk in E2. lia.
  - intro E. injection E as _ <-. eapply Hm, E1.
Qed.

Lemma keeps_seq_for_each {A S : Type} (body : S -> A -> Tx Price S)
  (xs : list A) :
  (forall s x, keeps_seq (body s x)) -> forall s, keeps_seq (for_each body xs s).
Proof.
  intro Hb. induction xs as [| x xs IH]; intro s; cbn [for_each].
  - apply (keeps_seq_ret no_faults).
  - apply keeps_seq_bind; [apply Hb | exact IH].
Qed.

Ltac keeps_seq :=
  repeat first
    [ apply keeps_seq_bind; [| intro]
    | apply keeps_seq_for_each; intros
    | apply keeps_seq_execute; intro; cbn; lia
    | apply (keeps_seq_ret no_faults)
    | match goal with
      | |- keeps_seq (if ?b then _ else _) => destruct b
      | |- keeps_seq (match ?o with Some _ => _ | None => _ end) => destruct o
      end ].

Lemma keeps_seq_create_order_body faults uid items stype :
  keeps_seq (create_order_body faults uid items stype).
Proof. unfold create_order_body, create_order_line. keeps_seq. Qed.

Lemma keeps_seq_restore faults oid :
  keeps_seq (restore_stock_from_order (Price := Price) faults oid).
Proof. unfold restore_stock_from_order. keeps_seq. Qed.

Lemma keeps_seq_update_order_status_body faults oid status :
  keeps_seq (update_order_status_body (Price := Price) faults oid status).
Proof.
  unfold update_order_status_body. keeps_seq; try apply keeps_seq_restore.
Qed.

Lemma keeps_seq_delete_order_body faults oid :
  keeps_seq (delete_order_body (Price := Price) faults oid).
Proof. unfold delete_order_body. keeps_seq; try apply keeps_seq_restore. Qed.

Lemma engine_begin_seq faults {A : Type} (body : Tx Price A) db :
  keeps_seq body ->
  orders_seq db <= orders_seq (snd (engine_begin faults body db)).
Proof.
  intro Hk. unfold engine_begin.
  destruct (body _) as [[a | e] c1] eqn:E; apply Hk in E; cbn in E;
    [destruct (faults (conn_stmts c1)) |]; cbn; exact E.
Qed.

Lemma create_order_seq faults uid items stype db :
  orders_seq db <= orders_seq (snd (create_order faults uid items stype db)) /\
  (forall p db', create_order faults uid items stype db = ((true, p), db') ->
                 orders_seq db + 1 <= orders_seq db').
Proof.
  split.
  - pose proof (engine_begin_seq faults (create_order_body faults uid items stype)
                  db (keeps_seq_create_order_body _ _ _ _)) as H.
    unfold create_order. destruct (engine_begin _ _ _) as [[a | e] d]; exact H.
  - intros p db'. unfold create_order.
    destruct (engine_begin _ _ _) as [[a | e] d] eqn:E; [| discriminate].
    intro H. injection H as _ <-.
    apply engine_begin_returned in E. destruct E as (c' & E & ->).
    unfold create_order_body in E. apply bind_returned in E.
    destruct E as (oid & c1 & E1 & E2).
    apply execute_returned in E1. destruct E1 as (_ & Hdb & _).
    assert (Hk : keeps_seq
                   (bind (for_each (create_order_line faults oid stype) items
                            money_zero)
                      (fun t => bind (execute faults (update_total t oid))
                         (fun _ => bind (execute faults (delete_cart_of_user uid))
                            (fun _ => ret oid)))))
      by (unfold create_order_line; keeps_seq).
    apply Hk in E2. rewrite Hdb in E2. cbn in E2. exact E2.
Qed.

Lemma keys_below_seq_intro db :
  (forall o, In o (orders db) -> order_id o < orders_seq db) ->
  (forall i, In i (order_items db) -> oi_order_id i < orders_seq db) ->
  keys_below_seq db = true.
Proof.
  intros Ho Hi. unfold keys_below_seq. apply andb_true_intro.
  split; apply forallb_forall; intros x Hx; apply Z.ltb_lt; auto.
Qed.

Lemma keys_below_seq_elim db :
  keys_below_seq db = true ->
  (forall o, In o (orders db) -> order_id o < orders_seq db) /\
  (forall i, In i (order_items db) -> oi_order_id i < orders_seq db).
Proof.
  unfold keys_below_seq. intro H. apply andb_prop in H. destruct H as [Ho Hi].
  rewrite forallb_forall in Ho, Hi.
  split; intros x Hx; apply Z.ltb_lt; auto.
Qed.

(** X23: the order keys in use stay below the next value of the
    sequence.  When that holds of a database, the next key is carried by no
    order and no line item, which is what the results on a new order
    assume, and it still holds after [create_order], [update_order_status]
    and [delete_order], whether they commit or not. *)
Theorem order_keys_stay_below_sequence
  faults uid items stype oid status db :
  keys_below_seq db = true ->
  orders_seq_fresh db = true /\
  keys_below_seq (snd (create_order faults uid items stype db)) = true /\
  keys_below_seq (snd (update_order_status faults oid status db)) = true /\
  keys_below_seq (snd (delete_order faults oid db)) = true.
Proof.
  intro H. apply keys_below_seq_elim in H. destruct H as [Ho Hi].
  split; [| split; [| split]].
  - unfold orders_seq_fresh. apply andb_true_intro.
    split; apply forallb_forall; intros x Hx; apply negb_true_iff, Z.eqb_neq;
      [specialize (Ho x Hx) | specialize (Hi x Hx)]; lia.
  - destruct (create_order_seq faults uid items stype db) as [Hle Hlt].
    destruct (create_order faults uid items stype db) as [[[] p] db'] eqn:E;
      cbn [snd] in *.
    + specialize (Hlt p db' eq_refl).
      apply create_order_returned in E. cbv zeta in E.
      destruct E as (_ & _ & Hi' & Ho' & _).
      apply keys_below_seq_intro.
      * intros o Hin. rewrite Ho' in Hin. apply in_map_iff in Hin.
        destruct Hin as (o0 & <- & Hin).
        assert (Hid : order_id (if order_id o0 =? orders_seq db
                                then set_total_price
                                       (lines_total money_zero
                                          (fst (alloc_lines (orders_seq db) stype
                                                  (parts_stock db)
                                                  (order_items_seq db) items))) o0
                                else o0) = order_id o0)
          by (destruct (order_id o0 =? orders_seq db); reflexivity).
        rewrite Hid. apply in_app_or in Hin. destruct Hin as [Hin | [<- | []]].
        -- specialize (Ho o0 Hin). lia.
        -- cbn [order_id]. lia.
      * intros i Hin. rewrite Hi' in Hin. apply in_app_or in Hin.
        destruct Hin as [Hin | Hin].
        -- specialize (Hi i Hin). lia.
        -- apply alloc_lines_order_id in Hin. lia.
    + apply create_order_failure_tables in E. destruct E as (_ & _ & Ho' & Hi').
      apply keys_below_seq_intro; intros x Hx;
        [rewrite Ho' in Hx; specialize (Ho x Hx)
        | rewrite Hi' in Hx; specialize (Hi x Hx)]; lia.
  - pose proof (engine_begin_seq faults (update_order_status_body faults oid status)
                  db (keeps_seq_update_order_status_body _ _ _)) as Hle.
    assert (Hle' : orders_seq db <=
                   orders_seq (snd (update_order_status faults oid status db))).
    { unfold update_order_status.
      destruct (engine_begin _ _ _) as [[a | e] d]; exact Hle. }
    destruct (update_order_status faults oid status db) as [[[] p] db'] eqn:E;
      cbn [snd] in *.
    + apply update_order_status_returned in E. cbv zeta in E.
      destruct E as (_ & Ho' & Hi' & _).
      apply keys_below_seq_intro.
      * intros o Hin. rewrite Ho' in Hin. apply in_map_iff in Hin.
        destruct Hin as (o0 & <- & Hin). specialize (Ho o0 Hin).
        destruct (order_id o0 =? oid); cbn [set_order_status order_id]; lia.
      * intros i Hin. rewrite Hi' in Hin. specialize (Hi i Hin). lia.
    + apply update_order_status_failure in E. destruct E as (_ & _ & Ho' & Hi').
      apply keys_below_seq_intro; intros x Hx;
        [rewrite Ho' in Hx; specialize (Ho x Hx)
        | rewrite Hi' in Hx; specialize (Hi x Hx)]; lia.
  - pose proof (engine_begin_seq faults (delete_order_body faults oid)
                  db (keeps_seq_delete_order_body _ _)) as Hle.
    assert (Hle' : orders_seq db <= orders_seq (snd (delete_order faults oid db))).
    { unfold delete_order.
      destruct (engine_begin _ _ _) as [[a | e] d]; exact Hle. }
    destruct (delete_order faults oid db) as [[[] p] db'] eqn:E; cbn [snd] in *.
    + apply delete_order_returned in E. destruct E as (_ & Hi' & Ho' & _).
      apply keys_below_seq_intro; intros x Hx;
        [rewrite Ho' in Hx | rewrite Hi' in Hx];
        apply filter_In in Hx; destruct Hx as [Hx _];
        [specialize (Ho x Hx) | specialize (Hi x Hx)]; lia.
    + unfold delete_order in E.
      destruct (engine_begin faults (delete_order_body faults oid) db)
        as [[a | e] d] eqn:E'; [discriminate E |].
      injection E as _ <-.
      apply engine_begin_raised in E'; [| apply raises_faults_delete_order_body].
      destruct E' as ((_ & _ & Ho' & Hi') & _).
      apply keys_below_seq_intro; intros x Hx;
        [rewrite Ho' in Hx; specialize (Ho x Hx)
        | rewrite Hi' in Hx; specialize (Hi x Hx)]; lia.
Qed.

End Properties.

(** * The properties on the sample data *)



(** C2, witness: three lines, storage failing on the read of the third,
    once the first two have been allocated and deducted. *)
Lemma create_order_failure_rolls_back_witness :
  create_order (fault_at 7 "storage unavailable") 1 three_lines "parts_stock"
    sample_db =
    ((false, PStr "storage unavailable"),
     snd (create_order (fault_at 7 "storage unavailable") 1 three_lines
            "parts_stock" sample_db)) /\
  parts_stock (snd (create_order (fault_at 7 "storage unavailable") 1
                      three_lines "parts_stock" sample_db)) =
    parts_stock sample_db /\
  cart (snd (create_order (fault_at 7 "storage unavailable") 1
               three_lines "parts_stock" sample_db)) = cart sample_db /\
  orders (snd (create_order (fault_at 7 "storage unavailable") 1
                 three_lines "parts_stock" sample_db)) = orders sample_db /\
  order_items (snd (create_order (fault_at 7 "storage unavailable") 1
                      three_lines "parts_stock" sample_db)) =
    order_items sample_db.
Proof.
  assert (H : create_order (fault_at 7 "storage unavailable") 1 three_lines
                "parts_stock" sample_db =
              ((false, PStr "storage unavailable"),
               snd (create_order (fault_at 7 "storage unavailable") 1
                      three_lines "parts_stock" sample_db)))
    by (vm_compute; reflexivity).
  split; [exact H |].
  exact (proj1 (create_order_failure_rolls_back _ _ _ _ _ _ _ H)).
Defined.



(** C5, witness: the order of the scenario, created and rejected. *)
Lemma create_then_reject_conserves_stock_witness :
  orders_seq_fresh sample_db = true /\
  create_order no_faults 1 order_A15 "parts_stock" sample_db =
    ((true, PInt 1), db_ordered) /\
  update_order_status no_faults 1 "Rejected" db_ordered =
    ((true, PStr "Updated"), db_rejected) /\
  parts_stock db_rejected = parts_stock sample_db.
Proof.
  assert (H0 : orders_seq_fresh sample_db = true) by (vm_compute; reflexivity).
  assert (H1 : create_order no_faults 1 order_A15 "parts_stock" sample_db =
               ((true, PInt 1), db_ordered)) by (vm_compute; reflexivity).
  assert (H2 : update_order_status no_faults 1 "Rejected" db_ordered =
               ((true, PStr "Updated"), db_rejected)) by (vm_compute; reflexivity).
  split; [exact H0 |]. split; [exact H1 |]. split; [exact H2 |].
  exact (create_then_reject_conserves_stock _ _ _ _ _ _ _ _ _ _ H0 H1 H2).
Defined.

(** C6, counterexample: a pool with two active records of part [P1],
    holding 6 and 4 units, as the upload of a file that lists the part twice
    leaves it.  The spec's submission, two rows asking 3 and 5 units of the
    part, is merged into one request of 8 units, and comes back as two rows
    for the one part, allocated 6 and 4 units against two availability
    values. *)
Lemma bulk_enquiry_one_row_per_record :
  map (fun r => (ps_part_number r, ps_free_stock r))
      (fst (select_active_stock "parts_stock" two_records_db)) =
    [("P1", 6); ("P1", 4); ("Q2", 9)] /\
  map (fun r => clean_part_number (fst r)) bulk_submission = ["P1"; "P1"] /\
  match process_bulk_enquiry no_faults bulk_submission "parts_stock" 0
          two_records_db with
  | Returned rows =>
      map (fun b => (br_part_number b, br_qty b, br_available_qty b,
                     br_allocated_qty b, br_status b)) rows =
      [("P1", 8, 6, 6, "Partial Fulfillment");
       ("P1", 8, 4, 4, "Partial Fulfillment")] /\
      ~ NoDup (map br_part_number rows)
  | Raised _ => False
  end.
Proof.
  split; [vm_compute; reflexivity |]. split; [vm_compute; reflexivity |].
  assert (H : process_bulk_enquiry no_faults bulk_submission "parts_stock" 0
                two_records_db = Returned two_records_rows)
    by (vm_compute; reflexivity).
  rewrite H. split; [vm_compute; reflexivity |].
  intro Hn.
  assert (E : map br_part_number two_records_rows = ["P1"; "P1"])
    by (vm_compute; reflexivity).
  rewrite E in Hn. inversion Hn as [| x l Hnot _]. apply Hnot. left. reflexivity.
Qed.

(** C6, witness: the spec's submission, two rows on one part asking 3 and
    5 units against 6 in stock; one row comes back, asking 8 and allocated
    6.  On the pool with two records of the part, every row still asks the
    sum. *)
Lemma bulk_enquiry_merges_duplicates_witness :
  one_active_record "parts_stock" bulk_db /\
  process_bulk_enquiry no_faults bulk_submission "parts_stock" 0 bulk_db =
    Returned bulk_rows /\
  map (fun b => (br_part_number b, br_qty b, br_available_qty b,
                 br_allocated_qty b, br_status b)) bulk_rows =
    [("P1", 8, 6, 6, "Partial Fulfillment")] /\
  NoDup (map br_part_number bulk_rows) /\
  (forall b, In b bulk_rows ->
     br_qty b = requested_total (br_part_number b) bulk_submission) /\
  process_bulk_enquiry no_faults bulk_submission "parts_stock" 0
    two_records_db = Returned two_records_rows /\
  requested_total "P1" bulk_submission = 8 /\
  (forall b, In b two_records_rows ->
     br_qty b = requested_total (br_part_number b) bulk_submission).
Proof.
  assert (H2 : process_bulk_enquiry no_faults bulk_submission "parts_stock" 0
                 two_records_db = Returned two_records_rows)
    by (vm_compute; reflexivity).
  pose proof (bulk_enquiry_merges_duplicates _ _ _ _ _ _ H2) as T2.
  destruct T2 as ((_ & _ & Tb2 & _) & _).
  assert (H0 : one_active_record "parts_stock" bulk_db).
  { unfold one_active_record. vm_compute.
    constructor; [intros [H | []]; discriminate H |].
    constructor; [intros [] | constructor]. }
  assert (H1 : process_bulk_enquiry no_faults bulk_submission "parts_stock" 0
                 bulk_db = Returned bulk_rows) by (vm_compute; reflexivity).
  pose proof (bulk_enquiry_merges_duplicates _ _ _ _ _ _ H1) as T.
  destruct T as ((_ & _ & Tb & _) & Tone).
  split; [exact H0 |]. split; [exact H1 |]. split; [vm_compute; reflexivity |].
  split; [exact (proj1 (Tone H0)) |].
  split; [intros b Hb; exact (proj1 (Tb b Hb)) |].
  split; [exact H2 |]. split; [vm_compute; reflexivity |].
  intros b Hb. exact (proj1 (Tb2 b Hb)).
Defined.

(** C7, witness: lines [A x 6], [B x 2], [A x 6] against 10 units of [A]:
    the third line finds 4 units left and is allocated 4. *)
Lemma create_order_sequential_deduction_witness :
  create_order no_faults 1 three_lines "parts_stock" sample_db =
    ((true, PInt 1),
     snd (create_order no_faults 1 three_lines "parts_stock" sample_db)) /\
  orders_seq_fresh sample_db = true /\
  map (fun r => (oi_part_number r, oi_available_qty r, oi_qty r))
      (lines_of 1 (snd (create_order no_faults 1 three_lines "parts_stock"
                          sample_db))) =
    [("A", 10, 6); ("B", 4, 2); ("A", 4, 4)] /\
  map (fun r => (oi_part_number r, oi_requested_qty r))
      (lines_of (orders_seq sample_db)
         (snd (create_order no_faults 1 three_lines "parts_stock" sample_db))) =
    map (fun i => (item_part_number i, item_qty i)) three_lines.
Proof.
  assert (H : create_order no_faults 1 three_lines "parts_stock" sample_db =
              ((true, PInt 1),
               snd (create_order no_faults 1 three_lines "parts_stock"
                      sample_db))) by (vm_compute; reflexivity).
  assert (H0 : orders_seq_fresh sample_db = true) by (vm_compute; reflexivity).
  split; [exact H |]. split; [exact H0 |]. split; [vm_compute; reflexivity |].
  exact (proj1 (create_order_sequential_deduction _ _ _ _ _ _ _ H H0)).
Defined.

(** C8: on a pool whose only record of part [A] is inactive, the direct
    lookup finds nothing, yet [create_order] reads the 7 units of the
    inactive record, allocates 5 of them and deducts them from it. *)
Lemma create_order_reads_inactive_record :
  map ps_is_active (parts_stock inactive_db) = [false] /\
  get_part_by_number no_faults "A" "parts_stock" inactive_db = Returned None /\
  fst (create_order no_faults 1 [sample_item "A" 5 500] "parts_stock"
         inactive_db) = (true, PInt 1) /\
  map (fun i => (oi_part_number i, oi_available_qty i, oi_qty i))
      (order_items (snd (create_order no_faults 1 [sample_item "A" 5 500]
                           "parts_stock" inactive_db))) = [("A", 7, 5)] /\
  map (fun r => (ps_free_stock r, ps_is_active r))
      (parts_stock (snd (create_order no_faults 1 [sample_item "A" 5 500]
                           "parts_stock" inactive_db))) = [(2, false)].
Proof. vm_compute. repeat split. Qed.


(** C10: user 1 holds two cart entries, on [A] and on [B], and submits
    the entry on [A] alone; once the order is placed the entry on [B], which
    was not submitted, is gone as well, and only the entry of user 2 is
    left. *)
Lemma create_order_clears_whole_cart :
  map (fun e => (cart_user_id e, cart_part_number e)) (cart sample_db) =
    [(1, "A"); (1, "B"); (2, "A")] /\
  map item_part_number order_A15 = ["A"] /\
  fst (create_order no_faults 1 order_A15 "parts_stock" sample_db) =
    (true, PInt 1) /\
  map (fun e => (cart_user_id e, cart_part_number e))
      (cart (snd (create_order no_faults 1 order_A15 "parts_stock" sample_db))) =
    [(2, "A")].
Proof. vm_compute. repeat split. Qed.

(** * The further properties on the sample data *)

(** X1, witness: the second catalog uploaded over the first. *)
Lemma upload_replaces_catalog_witness :
  upload_parts_stock no_faults catalog_v2 "parts_stock" sample_db =
    (Returned tt, db_uploaded) /\
  map (fun r => (ps_part_number r, ps_free_stock r))
      (fst (select_active_stock "parts_stock" db_uploaded)) =
    [("A", 12); ("C", 3)] /\
  fst (select_active_stock "parts_stock" db_uploaded) =
    map (uploaded_record "parts_stock") catalog_v2.
Proof.
  assert (H : upload_parts_stock no_faults catalog_v2 "parts_stock" sample_db =
              (Returned tt, db_uploaded)) by (vm_compute; reflexivity).
  pose proof (upload_replaces_catalog no_faults catalog_v2 "parts_stock"
                sample_db) as T.
  rewrite H in T. destruct T as (Ta & _).
  split; [exact H |]. split; [vm_compute; reflexivity | exact Ta].
Defined.

(** X2, witness: the second catalog lists each part once; the catalog
    that lists [P1] twice, once followed by a no-break space, leaves two
    active records of it. *)
Lemma upload_one_active_record_witness :
  upload_parts_stock no_faults catalog_v2 "parts_stock" sample_db =
    (Returned tt, db_uploaded) /\
  NoDup (map (fun x => strip (up_part_number x)) catalog_v2) /\
  one_active_record "parts_stock" db_uploaded /\
  upload_parts_stock no_faults catalog_dup "parts_stock" bulk_db =
    (Returned tt, db_dup) /\
  map (fun x => strip (up_part_number x)) catalog_dup = ["P1"; "P1"] /\
  ~ one_active_record "parts_stock" db_dup.
Proof.
  assert (H : upload_parts_stock no_faults catalog_v2 "parts_stock" sample_db =
              (Returned tt, db_uploaded)) by (vm_compute; reflexivity).
  assert (Hn : NoDup (map (fun x => strip (up_part_number x)) catalog_v2))
    by nodup_closed.
  assert (H' : upload_parts_stock no_faults catalog_dup "parts_stock" bulk_db =
               (Returned tt, db_dup)) by (vm_compute; reflexivity).
  assert (E : map (fun x => strip (up_part_number x)) catalog_dup = ["P1"; "P1"])
    by (vm_compute; reflexivity).
  split; [exact H |]. split; [exact Hn |].
  split; [exact (proj2 (upload_one_active_record _ _ _ _ _ _ H) Hn) |].
  split; [exact H' |]. split; [exact E |].
  intro Hone.
  pose proof (proj1 (upload_one_active_record _ _ _ _ _ _ H') Hone) as Hd.
  rewrite E in Hd. inversion Hd as [| x l Hnot _]. apply Hnot.
  left. reflexivity.
Defined.

(** X3, witness: after the upload part [A], uploaded with a no-break
    space before its number, is found under the plain number with the new
    values, and part [B], which the second catalog does not list, is not
    found. *)
Lemma lookup_after_upload_witness :
  upload_parts_stock no_faults catalog_v2 "parts_stock" sample_db =
    (Returned tt, db_uploaded) /\
  map up_part_number catalog_v2 = [String.append nbsp "A "; "C"] /\
  option_map (fun r => (ps_part_number r, ps_free_stock r))
    (hd_error (fst (select_active_stock "parts_stock" db_uploaded))) =
    Some ("A", 12) /\
  get_part_by_number no_faults "A" "parts_stock" db_uploaded =
    Returned (hd_error (fst (select_active_stock "parts_stock" db_uploaded))) /\
  (forall r,
     hd_error (fst (select_active_stock "parts_stock" db_uploaded)) = Some r ->
     exists x, In x catalog_v2 /\ strip (up_part_number x) = "A" /\
               r = uploaded_record "parts_stock" x) /\
  get_part_by_number no_faults "B" "parts_stock" db_uploaded = Returned None /\
  (@None (PartsStock Z) = None <->
   ~ In "B" (map (fun x => strip (up_part_number x)) catalog_v2)).
Proof.
  assert (H : upload_parts_stock no_faults catalog_v2 "parts_stock" sample_db =
              (Returned tt, db_uploaded)) by (vm_compute; reflexivity).
  assert (Ha : get_part_by_number no_faults "A" "parts_stock" db_uploaded =
               Returned (hd_error (fst (select_active_stock "parts_stock"
                                          db_uploaded))))
    by (vm_compute; reflexivity).
  assert (Hg : get_part_by_number no_faults "B" "parts_stock" db_uploaded =
               Returned (@None (PartsStock Z))) by (vm_compute; reflexivity).
  split; [exact H |]. split; [reflexivity |].
  split; [vm_compute; reflexivity |]. split; [exact Ha |].
  split; [exact (proj1 (lookup_after_upload _ _ _ _ _ _ _ _ _ H Ha)) |].
  split; [exact Hg |].
  exact (proj2 (lookup_after_upload _ _ _ _ _ _ _ _ _ H Hg)).
Defined.

(** X4, witness: the pool of the sample database reset. *)
Lemma reset_stock_empties_pool_witness :
  fst (reset_stock no_faults "parts_stock" sample_db) = Returned tt /\
  parts_stock (snd (reset_stock no_faults "parts_stock" sample_db)) = [] /\
  (forall pn, current_stock_of pn "parts_stock"
                (parts_stock (snd (reset_stock no_faults "parts_stock"
                                     sample_db))) = 0).
Proof.
  pose proof (reset_stock_empties_pool no_faults "parts_stock" sample_db) as T.
  assert (H : reset_stock no_faults "parts_stock" sample_db =
              (Returned tt, snd (reset_stock no_faults "parts_stock" sample_db)))
    by (vm_compute; reflexivity).
  rewrite H in T. destruct T as (_ & _ & _ & _ & Tc & _).
  split; [vm_compute; reflexivity |]. split; [vm_compute; reflexivity |].
  exact Tc.
Defined.

(** X5, witness: user 1 holds 2 units of [B] and adds 5, the part number
    sent between two no-break spaces; the entry on [B] goes from 2 to 7 and
    no row is added. *)
Lemma add_to_cart_accumulates_witness :
  NoDup (map cart_id (cart sample_db)) /\
  add_to_cart_db no_faults 4 4 1 padded_B "catalog part" 5 250 sample_db =
    (Returned tt, db_cart_added) /\
  strip padded_B = "B" /\
  cart_total 1 "B" (cart sample_db) = 2 /\
  cart_total 1 "B" (cart db_cart_added) = 7 /\
  List.length (cart db_cart_added) = List.length (cart sample_db) /\
  cart_total 1 (strip padded_B) (cart db_cart_added) =
    cart_total 1 (strip padded_B) (cart sample_db) + 5.
Proof.
  assert (Hn : NoDup (map cart_id (cart sample_db))) by nodup_closed.
  assert (H : add_to_cart_db no_faults 4 4 1 padded_B "catalog part" 5 250
                sample_db = (Returned tt, db_cart_added))
    by (vm_compute; reflexivity).
  split; [exact Hn |]. split; [exact H |]. split; [vm_compute; reflexivity |].
  split; [vm_compute; reflexivity |]. split; [vm_compute; reflexivity |].
  split; [vm_compute; reflexivity |].
  exact (proj1 (add_to_cart_accumulates _ _ _ _ _ _ _ _ _ _ _ Hn H)).
Defined.

(** X6, witness: the same addition keeps the cart well formed. *)
Lemma add_to_cart_keeps_one_entry_witness :
  NoDup (map cart_id (cart sample_db)) /\
  NoDup (map (fun e => (cart_user_id e, cart_part_number e)) (cart sample_db)) /\
  ~ In 4 (map cart_id (cart sample_db)) /\
  add_to_cart_db no_faults 4 4 1 " B " "catalog part" 5 250 sample_db =
    (Returned tt, db_cart_added) /\
  NoDup (map cart_id (cart db_cart_added)) /\
  NoDup (map (fun e => (cart_user_id e, cart_part_number e))
             (cart db_cart_added)).
Proof.
  assert (Hn : NoDup (map cart_id (cart sample_db))) by nodup_closed.
  assert (Hk : NoDup (map (fun e => (cart_user_id e, cart_part_number e))
                          (cart sample_db))) by nodup_closed.
  assert (Hf : ~ In 4 (map cart_id (cart sample_db))).
  { vm_compute. intro Hin.
    repeat (destruct Hin as [Hin | Hin]; [discriminate Hin |]). exact Hin. }
  assert (H : add_to_cart_db no_faults 4 4 1 " B " "catalog part" 5 250
                sample_db = (Returned tt, db_cart_added))
    by (vm_compute; reflexivity).
  split; [exact Hn |]. split; [exact Hk |]. split; [exact Hf |].
  split; [exact H |].
  exact (add_to_cart_keeps_one_entry _ _ _ _ _ _ _ _ _ _ _ Hn Hk Hf H).
Defined.

(** X7, witness: user 1 orders part [A]; removing the entry on [B]
    afterwards finds it gone already. *)
Lemma cart_calls_after_order_change_nothing_witness :
  NoDup (map cart_id (cart sample_db)) /\
  create_order no_faults 1 order_A15 "parts_stock" sample_db =
    ((true, PInt 1), db_ordered) /\
  cart (snd (remove_from_cart_db no_faults 2 db_ordered)) = cart db_ordered /\
  cart (snd (clear_cart_db no_faults 1 db_ordered)) = cart db_ordered.
Proof.
  assert (Hn : NoDup (map cart_id (cart sample_db))) by nodup_closed.
  assert (H : create_order no_faults 1 order_A15 "parts_stock" sample_db =
              ((true, PInt 1), db_ordered)) by (vm_compute; reflexivity).
  pose proof (cart_calls_after_order_change_nothing no_faults no_faults
                _ _ _ _ _ _ Hn H) as T.
  destruct T as (Tr & Tc).
  split; [exact Hn |]. split; [exact H |]. split; [| exact Tc].
  apply (Tr (sample_cart 2 1 "B" 2 250)); [| reflexivity].
  right. left. reflexivity.
Defined.

(** X8, witness: a second pool changes nothing in the cart view. *)
Lemma get_user_cart_reads_parts_stock_pool_witness :
  cart sample_db = cart sample_db_two_pools /\
  fst (select_active_stock "parts_stock" sample_db) =
    fst (select_active_stock "parts_stock" sample_db_two_pools) /\
  get_user_cart no_faults 1 sample_db =
    get_user_cart no_faults 1 sample_db_two_pools.
Proof.
  assert (Hc : cart sample_db = cart sample_db_two_pools) by reflexivity.
  assert (Hs : fst (select_active_stock "parts_stock" sample_db) =
               fst (select_active_stock "parts_stock" sample_db_two_pools))
    by (vm_compute; reflexivity).
  split; [exact Hc |]. split; [exact Hs |].
  exact (get_user_cart_reads_parts_stock_pool no_faults 1 _ _ Hc Hs).
Defined.

(** X9, witness: the cart view of user 1, entry 2 before entry 1. *)
Lemma get_user_cart_lists_entries_witness :
  one_active_record "parts_stock" sample_db /\
  get_user_cart no_faults 1 sample_db = Returned cart_rows /\
  map cv_id cart_rows = [2; 1] /\
  exists entries,
    Permutation entries (filter (fun e => cart_user_id e =? 1) (cart sample_db)) /\
    StronglySorted (fun a b => cart_timestamp b <= cart_timestamp a) entries /\
    map (fun v => (cv_id v, cv_part_number v, cv_qty v)) cart_rows =
    map (fun e => (cart_id e, cart_part_number e, cart_qty e)) entries.
Proof.
  assert (H1 : one_active_record "parts_stock" sample_db)
    by (unfold one_active_record; nodup_closed).
  assert (H : get_user_cart no_faults 1 sample_db = Returned cart_rows)
    by (vm_compute; reflexivity).
  split; [exact H1 |]. split; [exact H |]. split; [vm_compute; reflexivity |].
  exact (get_user_cart_lists_entries _ _ _ _ H1 H).
Defined.

(** X10, witness: the spec's two rows, and one row asking their sum. *)
Lemma bulk_enquiry_depends_on_totals_witness :
  process_bulk_enquiry no_faults bulk_submission "parts_stock" 0 bulk_db =
  process_bulk_enquiry no_faults [("P1", 8)] "parts_stock" 0 bulk_db.
Proof.
  apply (bulk_enquiry_depends_on_totals no_faults bulk_submission [("P1", 8)]).
  - intro pn. vm_compute. tauto.
  - intro pn. unfold requested_total, bulk_submission. cbn [fold_right fst snd].
    change (clean_part_number "P-1") with "P1".
    change (clean_part_number " P1") with "P1".
    change (clean_part_number "P1") with "P1".
    destruct ("P1" =? pn)%string; reflexivity.
Defined.

(** X11, witness: the row returned for the spec's submission. *)
Lemma bulk_enquiry_never_matches_hyphens_witness :
  process_bulk_enquiry no_faults bulk_submission "parts_stock" 0 bulk_db =
    Returned bulk_rows /\
  map br_part_number bulk_rows = ["P1"] /\
  (forall b, In b bulk_rows -> has_hyphen (br_part_number b) = false).
Proof.
  assert (H : process_bulk_enquiry no_faults bulk_submission "parts_stock" 0
                bulk_db = Returned bulk_rows) by (vm_compute; reflexivity).
  split; [exact H |]. split; [vm_compute; reflexivity |].
  intros b Hb.
  exact (proj1 (bulk_enquiry_never_matches_hyphens _ _ _ _ _ _ H b Hb)).
Defined.

(** X12, witness: part [C] of the second catalog, 3 in stock and no
    description, asked for 2 units. *)
Lemma bulk_enquiry_record_without_description_witness :
  one_active_record "parts_stock" db_uploaded /\
  process_bulk_enquiry no_faults [("C", 2)] "parts_stock" 0 db_uploaded =
    Returned bulk_rows_v2 /\
  forall b, In b bulk_rows_v2 ->
    br_available_qty b = 3 /\ br_no_record b = true /\
    br_allocated_qty b = 0 /\ br_status b = "Invalid Part".
Proof.
  assert (H1 : one_active_record "parts_stock" db_uploaded)
    by (unfold one_active_record; nodup_closed).
  assert (H : process_bulk_enquiry no_faults [("C", 2)] "parts_stock" 0
                db_uploaded = Returned bulk_rows_v2)
    by (vm_compute; reflexivity).
  split; [exact H1 |]. split; [exact H |]. intros b Hb.
  assert (Hr : In (uploaded_record "parts_stock"
                     {| up_part_number := "C"; up_description := None;
                        up_free_stock := 3; up_price := 100 |})
                  (fst (select_active_stock "parts_stock" db_uploaded)))
    by (vm_compute; right; left; reflexivity).
  assert (Hp : br_part_number b = "C").
  { vm_compute in Hb. destruct Hb as [<- | []]. reflexivity. }
  exact (bulk_enquiry_record_without_description _ _ _ _ _ _ _ b
           H1 H Hr eq_refl Hb Hp).
Defined.

(** X13, witness: the rows of the cart view of user 1. *)
Lemma views_allocate_within_bounds_witness :
  get_user_cart no_faults 1 sample_db = Returned cart_rows /\
  forall v, In v cart_rows -> 0 <= cv_qty v ->
    0 <= cv_allocated_qty v <= cv_qty v.
Proof.
  assert (H : get_user_cart no_faults 1 sample_db = Returned cart_rows)
    by (vm_compute; reflexivity).
  split; [exact H |]. intros v Hv Hq.
  exact (proj1 (proj1 (views_allocate_within_bounds no_faults 1 [] "parts_stock"
                         0 sample_db) cart_rows v H Hv Hq)).
Defined.

(** X14, witness: the order of the scenario takes 10 units of [A]. *)
Lemma create_order_deducts_what_it_records_witness :
  create_order no_faults 1 order_A15 "parts_stock" sample_db =
    ((true, PInt 1), db_ordered) /\
  orders_seq_fresh sample_db = true /\
  map (restored_qty 1 db_ordered) (parts_stock sample_db) = [10; 0] /\
  parts_stock db_ordered =
    map (fun r => set_free_stock
                    (ps_free_stock r - restored_qty (orders_seq sample_db)
                                         db_ordered r) r)
        (parts_stock sample_db).
Proof.
  assert (H : create_order no_faults 1 order_A15 "parts_stock" sample_db =
              ((true, PInt 1), db_ordered)) by (vm_compute; reflexivity).
  assert (H0 : orders_seq_fresh sample_db = true) by (vm_compute; reflexivity).
  split; [exact H |]. split; [exact H0 |]. split; [vm_compute; reflexivity |].
  exact (proj1 (create_order_deducts_what_it_records _ _ _ _ _ _ _ H H0)).
Defined.

(** X15, witness: three lines asking 12 units of [A] in all, against
    10. *)
Lemma create_order_keeps_stock_nonneg_witness :
  one_record_per_part "parts_stock" (parts_stock sample_db) /\
  stock_nonneg (parts_stock sample_db) /\
  stock_nonneg
    (parts_stock (snd (create_order no_faults 1 three_lines "parts_stock"
                         sample_db))).
Proof.
  assert (H1 : one_record_per_part "parts_stock" (parts_stock sample_db))
    by (unfold one_record_per_part; nodup_closed).
  assert (H2 : stock_nonneg (parts_stock sample_db))
    by (unfold stock_nonneg; nonneg_closed).
  split; [exact H1 |]. split; [exact H2 |].
  exact (create_order_keeps_stock_nonneg no_faults 1 three_lines _ _ H1 H2).
Defined.

(** X16, witness: the cart of user 1, two lines on two parts. *)
Lemma create_order_distinct_parts_witness :
  create_order no_faults 1 (map cart_item cart_rows) "parts_stock" sample_db =
    ((true, PInt 1), db_cart_ordered) /\
  orders_seq_fresh sample_db = true /\
  NoDup (map item_part_number (map cart_item cart_rows)) /\
  map (fun r => (oi_part_number r, oi_available_qty r, oi_qty r))
      (lines_of (orders_seq sample_db) db_cart_ordered) =
  map (fun i => (item_part_number i,
                 current_stock_of (item_part_number i) "parts_stock"
                   (parts_stock sample_db),
                 Z.min (item_qty i)
                   (current_stock_of (item_part_number i) "parts_stock"
                      (parts_stock sample_db))))
      (map cart_item cart_rows).
Proof.
  assert (H : create_order no_faults 1 (map cart_item cart_rows) "parts_stock"
                sample_db = ((true, PInt 1), db_cart_ordered))
    by (vm_compute; reflexivity).
  assert (H0 : orders_seq_fresh sample_db = true) by (vm_compute; reflexivity).
  assert (Hn : NoDup (map item_part_number (map cart_item cart_rows)))
    by nodup_closed.
  split; [exact H |]. split; [exact H0 |]. split; [exact Hn |].
  exact (create_order_distinct_parts _ _ _ _ _ _ _ H H0 Hn).
Defined.

(** X17, witness: the order of the scenario placed, then deleted. *)
Lemma create_then_delete_round_trip_witness :
  orders_seq_fresh sample_db = true /\
  create_order no_faults 1 order_A15 "parts_stock" sample_db =
    ((true, PInt 1), db_ordered) /\
  delete_order no_faults 1 db_ordered =
    ((true, PStr "Deleted"), snd (delete_order no_faults 1 db_ordered)) /\
  parts_stock (snd (delete_order no_faults 1 db_ordered)) =
    parts_stock sample_db /\
  orders (snd (delete_order no_faults 1 db_ordered)) = orders sample_db /\
  order_items (snd (delete_order no_faults 1 db_ordered)) =
    order_items sample_db.
Proof.
  assert (H0 : orders_seq_fresh sample_db = true) by (vm_compute; reflexivity).
  assert (H1 : create_order no_faults 1 order_A15 "parts_stock" sample_db =
               ((true, PInt 1), db_ordered)) by (vm_compute; reflexivity).
  assert (H2 : delete_order no_faults 1 db_ordered =
               ((true, PStr "Deleted"), snd (delete_order no_faults 1 db_ordered)))
    by (vm_compute; reflexivity).
  split; [exact H0 |]. split; [exact H1 |]. split; [exact H2 |].
  exact (create_then_delete_round_trip _ _ _ _ _ _ _ _ _ _ H0 H1 H2).
Defined.

(** X18, witness: accepting the rejected order of the scenario. *)
Lemma only_rejection_moves_stock_witness :
  "Accepted" <> "Rejected" /\
  parts_stock db_reaccepted = parts_stock db_rejected.
Proof.
  assert (H : "Accepted" <> "Rejected") by discriminate.
  split; [exact H |].
  exact (only_rejection_moves_stock no_faults 1 "Accepted" db_rejected H).
Defined.

(** X19, witness: the order of the scenario rejected, accepted and
    rejected again; part [A], 10 units before the order, ends at 20. *)
Lemma reject_accept_reject_credits_twice_witness :
  update_order_status no_faults 1 "Rejected" db_ordered =
    ((true, PStr "Updated"), db_rejected) /\
  update_order_status no_faults 1 "Accepted" db_rejected =
    ((true, PStr "Updated"), db_reaccepted) /\
  update_order_status no_faults 1 "Rejected" db_reaccepted =
    ((true, PStr "Updated"), db_rejected_again) /\
  map ps_free_stock (parts_stock db_rejected_again) = [20; 4] /\
  parts_stock db_rejected_again =
    map (fun r => set_free_stock
                    (ps_free_stock r + 2 * restored_qty 1 db_ordered r) r)
        (parts_stock db_ordered).
Proof.
  assert (Hs : fst (select_order_status 1 db_ordered) = Some "Pending")
    by (vm_compute; reflexivity).
  assert (Hp : "Pending" <> "Rejected") by discriminate.
  assert (Ha : "Accepted" <> "Rejected") by discriminate.
  assert (H1 : update_order_status no_faults 1 "Rejected" db_ordered =
               ((true, PStr "Updated"), db_rejected))
    by (vm_compute; reflexivity).
  assert (H2 : update_order_status no_faults 1 "Accepted" db_rejected =
               ((true, PStr "Updated"), db_reaccepted))
    by (vm_compute; reflexivity).
  assert (H3 : update_order_status no_faults 1 "Rejected" db_reaccepted =
               ((true, PStr "Updated"), db_rejected_again))
    by (vm_compute; reflexivity).
  split; [exact H1 |]. split; [exact H2 |]. split; [exact H3 |].
  split; [vm_compute; reflexivity |].
  exact (proj2 (reject_accept_reject_credits_twice _ _ _ _ _ _ _ _ _ _ _ _ _
                  Hs Hp Ha H1 H2 H3)).
Defined.

(** X20, witness: key 99 on the sample database, which holds no
    order. *)
Lemma lifecycle_calls_on_unknown_order_witness :
  filter (fun o => order_id o =? 99) (orders sample_db) = [] /\
  fst (update_order_status no_faults 99 "Rejected" sample_db) =
    (true, PStr "Updated") /\
  parts_stock (snd (update_order_status no_faults 99 "Rejected" sample_db)) =
    parts_stock sample_db.
Proof.
  assert (H : filter (fun o => order_id o =? 99) (orders sample_db) = [])
    by reflexivity.
  pose proof (lifecycle_calls_on_unknown_order no_faults 99 "Rejected"
                sample_db H) as T.
  destruct T as ((Tu & _) & (Ts & _) & _).
  split; [exact H |]. split; [exact Tu | exact Ts].
Defined.

(** X21, witness: the orders of the pool wiped once the order of the
    scenario is placed; part [A] stays at 0. *)
Lemma history_wipes_keep_stock_witness :
  delete_all_orders no_faults "parts_stock" db_ordered =
    ((true, PStr "All orders deleted"),
     snd (delete_all_orders no_faults "parts_stock" db_ordered)) /\
  NoDup (map order_id (orders db_ordered)) /\
  map ps_free_stock
      (parts_stock (snd (delete_all_orders no_faults "parts_stock" db_ordered))) =
    [0; 4] /\
  parts_stock (snd (delete_all_orders no_faults "parts_stock" db_ordered)) =
    parts_stock db_ordered /\
  orders (snd (delete_all_orders no_faults "parts_stock" db_ordered)) =
    filter (fun o => negb (stock_type o =? "parts_stock")%string)
           (orders db_ordered).
Proof.
  assert (H : delete_all_orders no_faults "parts_stock" db_ordered =
              ((true, PStr "All orders deleted"),
               snd (delete_all_orders no_faults "parts_stock" db_ordered)))
    by (vm_compute; reflexivity).
  assert (Hn : NoDup (map order_id (orders db_ordered))) by nodup_closed.
  pose proof (history_wipes_keep_stock no_faults "parts_stock" db_ordered) as T.
  destruct T as ((Ts & _) & Tw).
  split; [exact H |]. split; [exact Hn |]. split; [vm_compute; reflexivity |].
  split; [exact Ts |]. exact (proj1 (Tw _ _ H Hn)).
Defined.

(** X22, witness: the cart of user 1 shows 2 units of [B] and 10 of [A]
    as allocated, and the order made of it allocates 2 and 10. *)
Lemma cart_promise_kept_witness :
  get_user_cart no_faults 1 sample_db = Returned cart_rows /\
  create_order no_faults 1 (map cart_item cart_rows) "parts_stock" sample_db =
    ((true, PInt 1), db_cart_ordered) /\
  map (fun v => (cv_part_number v, cv_allocated_qty v)) cart_rows =
    [("B", 2); ("A", 10)] /\
  map (fun r => (oi_part_number r, oi_qty r))
      (lines_of (orders_seq sample_db) db_cart_ordered) =
  map (fun v => (cv_part_number v, cv_allocated_qty v)) cart_rows.
Proof.
  assert (Hact : forall r, In r (parts_stock sample_db) ->
                   ps_stock_type r = "parts_stock" -> ps_is_active r = true).
  { intros r Hr _. vm_compute in Hr.
    repeat (destruct Hr as [<- | Hr]; [reflexivity |]). destruct Hr. }
  assert (H1 : one_record_per_part "parts_stock" (parts_stock sample_db))
    by (unfold one_record_per_part; nodup_closed).
  assert (H2 : stock_nonneg (parts_stock sample_db))
    by (unfold stock_nonneg; nonneg_closed).
  assert (Hv : get_user_cart no_faults 1 sample_db = Returned cart_rows)
    by (vm_compute; reflexivity).
  assert (Hq : forall v, In v cart_rows -> 0 <= cv_qty v).
  { intros v Hin. vm_compute in Hin.
    repeat (destruct Hin as [<- | Hin]; [intro C; discriminate C |]).
    destruct Hin. }
  assert (Hn : NoDup (map cv_part_number cart_rows)) by nodup_closed.
  assert (H0 : orders_seq_fresh sample_db = true) by (vm_compute; reflexivity).
  assert (H : create_order no_faults 1 (map cart_item cart_rows) "parts_stock"
                sample_db = ((true, PInt 1), db_cart_ordered))
    by (vm_compute; reflexivity).
  split; [exact Hv |]. split; [exact H |]. split; [vm_compute; reflexivity |].
  exact (cart_promise_kept _ _ _ _ _ _ _ Hact H1 H2 Hv Hq Hn H0 H).
Defined.

(** X23, witness: the sample database before and after an order. *)
Lemma order_keys_stay_below_sequence_witness :
  keys_below_seq sample_db = true /\
  orders_seq_fresh sample_db = true /\
  keys_below_seq db_ordered = true.
Proof.
  assert (H : keys_below_seq sample_db = true) by (vm_compute; reflexivity).
  pose proof (order_keys_stay_below_sequence no_faults 1 order_A15 "parts_stock"
                1 "Rejected" sample_db H) as T.
  destruct T as (Tf & Tc & _).
  split; [exact H |]. split; [exact Tf | exact Tc].
Defined.

(** X24, witness: the spec's submission is answered; a submission without
    rows raises. *)
Lemma bulk_enquiry_empty_submission_raises_witness :
  process_bulk_enquiry no_faults [] "parts_stock" 0 bulk_db =
    Raised "Columns must be same length as key" /\
  bulk_submission <> [] /\
  exists rows,
    process_bulk_enquiry no_faults bulk_submission "parts_stock" 0 bulk_db =
      Returned rows /\ rows <> [].
Proof.
  assert (Hne : bulk_submission <> []) by discriminate.
  split; [vm_compute; reflexivity |]. split; [exact Hne |].
  exact (proj2 (bulk_enquiry_empty_submission_raises no_faults "parts_stock" 0
                  bulk_db) bulk_submission Hne).
Defined.
